(** * QuickTube: format selection, URL classification and dispatch

    A shallow embedding of [quicktube.py]: the URL classifier
    [is_valid_url], the format selection of [handle_youtube] (grouping by
    height, rendering of the table rows, sorting, construction of the
    download command) and the dispatch of [main]; further the menus of
    [handle_youtube] and [handle_svtplay], [select_cookie_browser],
    [check_dependencies] and [update_tools].

    Python values are the values [json.loads] produces.  A float is
    represented by its exact rational value; the non-standard constants
    NaN and Infinity are outside the model.  Strings are sequences of
    UTF-8 bytes, measured in code points where Python measures them.
    Exceptions are explicit: a computation returns [Ok v] or [Raise e]. *)

From Stdlib Require Import ZArith QArith Qabs String Ascii List Bool Lia.
From Stdlib Require Import Sorted Permutation OrderedTypeEx DecimalString.
Import ListNotations.

Local Open Scope string_scope.
Local Open Scope Z_scope.

(** ** Python values and exceptions *)

#[warnings="-register-all"]
Inductive json : Type :=
| JNull
| JBool (b : bool)
| JInt (n : Z)
| JFloat (x : Q)
| JStr (s : string)
| JList (l : list json)
| JDict (d : list (string * json)).

Inductive exn : Type :=
| TypeError
| AttributeError
| OverflowError
| FileNotFoundError.

Inductive result (A : Type) : Type :=
| Ok (a : A)
| Raise (e : exn).

Arguments Ok {A} a.
Arguments Raise {A} e.

Definition bind {A B : Type} (m : result A) (k : A -> result B) : result B :=
  match m with
  | Ok a => k a
  | Raise e => Raise e
  end.

Notation "x <- m ;; k" := (bind m (fun x => k))
  (at level 61, m at next level, right associativity).

(** [bool(v)]: None, False, zero, the empty string and empty containers are
    false. *)
Definition truthy (v : json) : bool :=
  match v with
  | JNull => false
  | JBool b => b
  | JInt n => negb (n =? 0)
  | JFloat x => negb (Qeq_bool x 0)
  | JStr s => negb (s =? "")%string
  | JList l => match l with [] => false | _ :: _ => true end
  | JDict d => match d with [] => false | _ :: _ => true end
  end.

(** [a or b] *)
Definition py_or (a b : json) : json := if truthy a then a else b.

(** The numeric value of a number; [bool] is a subclass of [int]. *)
Definition num_of (v : json) : option Q :=
  match v with
  | JBool b => Some (if b then 1%Q else 0%Q)
  | JInt n => Some (inject_Z n)
  | JFloat x => Some x
  | _ => None
  end.

Definition is_num (v : json) : bool :=
  match num_of v with Some _ => true | None => false end.

Definition is_str (v : json) : bool :=
  match v with JStr _ => true | _ => false end.

Definition Qgtb (x y : Q) : bool :=
  match (x ?= y)%Q with Gt => true | _ => false end.

(** [v == "s"] for a string literal. *)
Definition eq_str (v : json) (s : string) : bool :=
  match v with
  | JStr t => (t =? s)%string
  | _ => false
  end.

(** [v == n] for an integer literal. *)
Definition eq_int (v : json) (n : Z) : bool :=
  match num_of v with
  | Some x => Qeq_bool x (inject_Z n)
  | None => false
  end.

(** Lists and dicts are unhashable. *)
Definition hashable (v : json) : bool :=
  match v with
  | JList _ | JDict _ => false
  | _ => true
  end.

(** Equality of two hashable values, as a dict compares its keys: numbers
    by value across [bool], [int] and [float], strings by content. *)
Definition key_eq (a b : json) : bool :=
  match num_of a, num_of b with
  | Some x, Some y => Qeq_bool x y
  | None, None =>
      match a, b with
      | JStr s, JStr t => (s =? t)%string
      | JNull, JNull => true
      | _, _ => false
      end
  | _, _ => false
  end.

(** A Python dict with arbitrary hashable keys: entries in insertion order.
    Assigning to a key that is present replaces the value and keeps the
    key object and its position. *)
Definition pydict (V : Type) : Type := list (json * V).

Fixpoint dict_get {V : Type} (k : json) (d : pydict V) : option V :=
  match d with
  | [] => None
  | (k', v) :: r => if key_eq k' k then Some v else dict_get k r
  end.

Fixpoint dict_set {V : Type} (k : json) (v : V) (d : pydict V) : pydict V :=
  match d with
  | [] => [(k, v)]
  | (k', v') :: r =>
      if key_eq k' k then (k', v) :: r else (k', v') :: dict_set k v r
  end.

(** Members of a JSON object, looked up by name. *)
Fixpoint lookup (k : string) (d : list (string * json)) : option json :=
  match d with
  | [] => None
  | (k', v) :: r => if (k' =? k)%string then Some v else lookup k r
  end.

(** The keys of a JSON object in the order of their first occurrence: what
    iterating over the dict yields, and what [len] counts. *)
Fixpoint dict_keys (d : list (string * json)) : list string :=
  match d with
  | [] => []
  | (k, _) :: r => k :: filter (fun k' => negb (k' =? k)%string) (dict_keys r)
  end.

(** [f.get(k, default)]; only a dict has the method. *)
Definition get_default (f : json) (k : string) (default : json) : result json :=
  match f with
  | JDict d => Ok (match lookup k d with Some v => v | None => default end)
  | _ => Raise AttributeError
  end.

(** [f.get(k)] *)
Definition get (f : json) (k : string) : result json := get_default f k JNull.

(** ** Strings *)

(** A byte [10xxxxxx] continues a UTF-8 sequence; every other byte starts a
    code point. *)
Definition is_continuation (c : ascii) : bool :=
  match c with
  | Ascii _ _ _ _ _ _ b6 b7 => b7 && negb b6
  end.

(** [len(s)], in code points. *)
Fixpoint py_len (s : string) : nat :=
  match s with
  | EmptyString => O
  | String c r => if is_continuation c then py_len r else S (py_len r)
  end.

(** The bytes of [s] up to its first code point boundary. *)
Fixpoint continuation_prefix (s : string) : string :=
  match s with
  | EmptyString => EmptyString
  | String c r => if is_continuation c then String c (continuation_prefix r) else EmptyString
  end.

(** [s[:n]], in code points. *)
Fixpoint py_take (n : nat) (s : string) : string :=
  match s with
  | EmptyString => EmptyString
  | String c r =>
      match n with
      | O => EmptyString
      | S m =>
          if is_continuation c then String c (py_take n r)
          else match m with
               | O => String c (continuation_prefix r)
               | S _ => String c (py_take m r)
               end
      end
  end.

(** The code points of [s], each as a string: what [for c in s] yields. *)
Fixpoint py_chars (s : string) : list string :=
  match s with
  | EmptyString => []
  | String c r =>
      match py_chars r with
      | t :: ts => if match r with
                      | String c' _ => is_continuation c'
                      | EmptyString => false
                      end
                   then (String c t) :: ts
                   else (String c EmptyString) :: t :: ts
      | [] => [String c EmptyString]
      end
  end.

Fixpoint spaces (n : nat) : string :=
  match n with
  | O => EmptyString
  | S m => String " " (spaces m)
  end.

(** [format(s, "<w")] for a string: left-justified in at least [w] columns,
    never truncated. *)
Definition ljust (w : nat) (s : string) : string :=
  s ++ spaces (w - py_len s).

(** [s.split('\n')[0]] *)
Fixpoint first_line (s : string) : string :=
  match s with
  | EmptyString => EmptyString
  | String c r => if (c =? "010")%char then EmptyString else String c (first_line r)
  end.

(** [sub in s] *)
Fixpoint contains (sub s : string) : bool :=
  String.prefix sub s ||
  match s with
  | EmptyString => false
  | String _ r => contains sub r
  end.

(** [str(n)] for an integer. *)
Definition str_of_int (n : Z) : string := NilZero.string_of_int (Z.to_int n).

(** ** Numbers *)

(** The integer nearest to [x], ties to even. *)
Definition round_half_even (x : Q) : Z :=
  let a := Qnum x in
  let b := Z.pos (Qden x) in
  let fl := a / b in
  let r := a mod b in
  match 2 * r ?= b with
  | Lt => fl
  | Gt => fl + 1
  | Eq => if Z.even fl then fl else fl + 1
  end.

(** [format(x, ".1f")]: the decimal with one fractional digit nearest to
    [x], ties to even; a negative value keeps its sign when it rounds to
    zero. *)
Definition format_1f (x : Q) : string :=
  let n := round_half_even (Qabs x * 10) in
  (if Qgtb 0 x then "-" else "") ++ str_of_int (n / 10) ++ "." ++ str_of_int (n mod 10).

(** A positive integer rounded to 53 significant bits, ties to even: the
    significand of the nearest double. *)
Definition round53 (a : Z) : Z :=
  let k := Z.log2 a + 1 in
  if k <=? 53 then a
  else
    let s := k - 53 in
    let m := Z.shiftr a s in
    let r := a mod 2 ^ s in
    let h := 2 ^ (s - 1) in
    Z.shiftl (if (h <? r) || ((r =? h) && Z.odd m) then m + 1 else m) s.

(** [v / (1024*1024)]: true division.  An [int] operand gives the double
    nearest to the exact quotient, or OverflowError beyond the range of a
    double; for a [float] operand the division by a power of two is exact. *)
Definition div_mib (v : json) : result Q :=
  match v with
  | JInt n =>
      let r := round53 (Z.abs n) in
      if 2 ^ 1044 <=? r then Raise OverflowError
      else Ok (inject_Z (Z.sgn n * r) / inject_Z 1048576)%Q
  | JBool b => Ok (inject_Z (if b then 1 else 0) / inject_Z 1048576)%Q
  | JFloat x => Ok (x / inject_Z 1048576)%Q
  | _ => Raise TypeError
  end.

(** [a > b]: numbers by value, strings by code point (the order of their
    UTF-8 bytes), lists by the ordering [list_gt] of the interpreter; any
    other pair is a TypeError. *)
Definition py_gt (list_gt : list json -> list json -> result bool)
    (a b : json) : result bool :=
  match num_of a, num_of b with
  | Some x, Some y => Ok (Qgtb x y)
  | None, None =>
      match a, b with
      | JStr s, JStr t => Ok (String.ltb t s)
      | JList l, JList m => list_gt l m
      | _, _ => Raise TypeError
      end
  | _, _ => Raise TypeError
  end.

(** [a < b] on hashable values, as [list.sort] compares its keys. *)
Definition key_lt (a b : json) : option bool :=
  match num_of a, num_of b with
  | Some x, Some y => Some (Qgtb y x)
  | None, None =>
      match a, b with
      | JStr s, JStr t => Some (String.ltb s t)
      | _, _ => None
      end
  | _, _ => None
  end.

(** ** The rows of the quality menu *)

(** One entry of [table_rows]: [{'str': ..., 'height': ..., 'value': ...}]. *)
Record row : Type := mk_row {
  row_str : string;
  row_height : json;
  row_value : json
}.

(** A loop whose body may raise. *)
Fixpoint foldM {S A : Type} (body : S -> A -> result S) (l : list A) (s : S)
    : result S :=
  match l with
  | [] => Ok s
  | a :: r => s' <- body s a ;; foldM body r s'
  end.

(** [for f in formats] *)
Definition iterate (formats : json) : result (list json) :=
  match formats with
  | JList l => Ok l
  | JStr s => Ok (map JStr (py_chars s))
  | JDict d => Ok (map JStr (dict_keys d))
  | _ => Raise TypeError
  end.

(** Stable insertion into a list that is descending by [row_height]:
    [x] goes behind the rows with a greater key and before the others. *)
Fixpoint insert_desc (x : row) (l : list row) : list row :=
  match l with
  | [] => [x]
  | y :: r =>
      match key_lt (row_height x) (row_height y) with
      | Some true => y :: insert_desc x r
      | _ => x :: l
      end
  end.

Definition sort_desc (l : list row) : list row := fold_right insert_desc [] l.

(** [table_rows.sort(key=lambda x: x['height'], reverse=True)].  The keys
    are hashable and truthy: numbers or strings.  Numbers compare with
    numbers and strings with strings; a list that mixes the two makes the
    sort compare a number with a string, which raises TypeError. *)
Definition sort_rows (table_rows : list row) : result (list row) :=
  if forallb (fun r => is_num (row_height r)) table_rows
     || forallb (fun r => is_str (row_height r)) table_rows
  then Ok (sort_desc table_rows)
  else Raise TypeError.

Section Selector.

(** The interpreter's [repr] of a float, its [str] of a list or dict, and
    its ordering of lists. *)
Variable float_repr : Q -> string.
Variable container_str : json -> string.
Variable list_gt : list json -> list json -> result bool.

(** [str(v)], which is what [f"{v}"] inserts. *)
Definition py_str (v : json) : string :=
  match v with
  | JNull => "None"
  | JBool b => if b then "True" else "False"
  | JInt n => str_of_int n
  | JFloat x => float_repr x
  | JStr s => s
  | JList _ | JDict _ => container_str v
  end.

(** [format(v, "<w")], which is what [f"{v:<w}"] inserts: a [bool] is
    formatted as the integer it is, and None, lists and dicts accept no
    format specification. *)
Definition format_left (w : nat) (v : json) : result string :=
  match v with
  | JStr s => Ok (ljust w s)
  | JInt n => Ok (ljust w (str_of_int n))
  | JBool b => Ok (ljust w (if b then "1" else "0"))
  | JFloat x => Ok (ljust w (float_repr x))
  | JNull | JList _ | JDict _ => Raise TypeError
  end.

(** The body of the loop [for f in formats] (lines 378-393). *)
Definition select_step (unique_resolutions : pydict json) (f : json)
    : result (pydict json) :=
  vcodec <- get f "vcodec" ;;
  if eq_str vcodec "none" then Ok unique_resolutions
  else
    h <- get f "height" ;;
    let height := py_or h (JInt 0) in
    if eq_int height 0 then Ok unique_resolutions
    else
      fps <- get f "fps" ;;
      let current_fps := py_or fps (JInt 0) in
      (* current_size is computed here and never used *)
      if negb (hashable height) then Raise TypeError
      else
        match dict_get height unique_resolutions with
        | None => Ok (dict_set height f unique_resolutions)
        | Some existing =>
            efps <- get existing "fps" ;;
            let existing_fps := py_or efps (JInt 0) in
            replace <- py_gt list_gt current_fps existing_fps ;;
            if replace : bool then Ok (dict_set height f unique_resolutions)
            else Ok unique_resolutions
        end.

(** The format selection: [unique_resolutions] after the loop. *)
Definition select_formats (formats : list json) : result (pydict json) :=
  foldM select_step formats [].

(** The size column: [f"{filesize / (1024*1024):.1f}MiB" if filesize else "N/A"]. *)
Definition size_column (filesize : json) : result string :=
  if truthy filesize then
    q <- div_mib filesize ;; Ok (format_1f q ++ "MiB")
  else Ok "N/A".

(** Lines 399-409 of the loop [for height, f in unique_resolutions.items()]:
    the row of one kept record and its [has_audio].  The assignment
    [has_audio_map[f_id] = has_audio] hashes [f_id] before the size and the
    row are formatted. *)
Definition render_row (height f : json) : result (row * bool) :=
  f_id <- get_default f "format_id" (JStr "N/A") ;;
  width <- get_default f "width" (JInt 0) ;;
  let res := py_str width ++ "x" ++ py_str height in
  fps0 <- get f "fps" ;;
  let fps := py_or fps0 (JInt 0) in
  ext <- get_default f "ext" (JStr "N/A") ;;
  acodec <- get_default f "acodec" (JStr "none") ;;
  let has_audio := negb (eq_str acodec "none") in
  if negb (hashable f_id) then Raise TypeError
  else
    let audio_mark := if has_audio then "YES" else "NO " in
    fs <- get f "filesize" ;;
    fsa <- get f "filesize_approx" ;;
    let filesize := py_or fs fsa in
    size_str <- size_column filesize ;;
    c_id <- format_left 5 f_id ;;
    c_fps <- format_left 4 fps ;;
    c_ext <- format_left 4 ext ;;
    let row_str :=
      c_id ++ " | " ++ ljust 9 res ++ " | " ++ c_fps ++ " | " ++ c_ext
           ++ " | 🎵:" ++ audio_mark ++ " | " ++ size_str in
    Ok (mk_row row_str height f_id, has_audio).

(** One turn of that loop on the state [(table_rows, has_audio_map)]. *)
Definition render_step (st : list row * pydict bool) (item : json * json)
    : result (list row * pydict bool) :=
  let '(table_rows, has_audio_map) := st in
  let '(height, f) := item in
  x <- render_row height f ;;
  let '(r, has_audio) := x in
  Ok ((table_rows ++ [r])%list, dict_set (row_value r) has_audio has_audio_map).

(** Lines 377-412 for the descriptors [fs]: the sorted rows of the menu and
    [has_audio_map]. *)
Definition table_of_list (fs : list json) : result (list row * pydict bool) :=
  unique_resolutions <- select_formats fs ;;
  st <- foldM render_step unique_resolutions ([], []) ;;
  table_rows <- sort_rows (fst st) ;;
  Ok (table_rows, snd st).

Definition format_table (formats : json) : result (list row * pydict bool) :=
  fs <- iterate formats ;; table_of_list fs.

End Selector.

(** ** The URL classifier *)

(** The regular expressions of [is_valid_url] use literals, the escape
    [\.], groups and [?]. *)
Inductive regex : Type :=
| Eps
| Lit (c : ascii)
| Cat (r s : regex)
| Opt (r : regex).

Fixpoint literal (s : string) : regex :=
  match s with
  | EmptyString => Eps
  | String c r => Cat (Lit c) (literal r)
  end.

(** All the ways [r] matches at the start of [s]: the rest of [s] after
    each match, the greedy one first. *)
Fixpoint re_rests (r : regex) (s : string) : list string :=
  match r with
  | Eps => [s]
  | Lit c =>
      match s with
      | String c' s' => if (c =? c')%char then [s'] else []
      | EmptyString => []
      end
  | Cat a b => flat_map (re_rests b) (re_rests a s)
  | Opt a => (re_rests a s ++ [s])%list
  end.

(** [re.match(pattern, text)] as a truth value: the pattern matches at the
    start of the text. *)
Definition re_match (pattern : regex) (text : string) : bool :=
  match re_rests pattern text with
  | [] => false
  | _ :: _ => true
  end.

(** [https?://(www\.)?host/] *)
Definition site_pattern (host : string) : regex :=
  Cat (literal "http")
      (Cat (Opt (Lit "s"))
           (Cat (literal "://")
                (Cat (Opt (literal "www.")) (literal (host ++ "/"))))).

Definition patterns : list regex :=
  [ site_pattern "youtube.com";
    site_pattern "youtu.be";
    site_pattern "svtplay.se" ].

Definition is_valid_url (text : string) : bool :=
  existsb (fun pattern => re_match pattern text) patterns.

(** ** Console, prompts and processes *)

(** What the user sees and what is started.  The session log that
    [write_log] appends to is not part of the trace. *)
Inductive event : Type :=
| Status (text : string)                     (* console.status *)
| Print (text style : string)                (* ui_print *)
| Select (names : list string) (message : string)   (* a menu on screen *)
| RunCommand (cmd : list string)             (* run_command *)
| Subprocess (cmd : list string).            (* subprocess.run *)

(** What a function shows and starts, and how it ends. *)
Definition io (A : Type) : Type := (list event * result A)%type.

Definition ret {A : Type} (a : A) : io A := ([], Ok a).

Definition io_bind {A B : Type} (m : io A) (k : A -> io B) : io B :=
  match m with
  | (t, Ok a) => let (t', r) := k a in ((t ++ t')%list, r)
  | (t, Raise e) => (t, Raise e)
  end.

Notation "x <~ m ;; k" := (io_bind m (fun x => k))
  (at level 61, m at next level, right associativity).

Definition emit (e : event) : io unit := ([e], Ok tt).

Definition lift {A : Type} (r : result A) : io A := ([], r).

(** [Choice(value=..., name=...)]; a plain string is its own value. *)
Record choice : Type := Choice {
  choice_value : json;
  choice_name : string
}.

Definition plain (s : string) : choice := Choice (JStr s) s.

Definition ui_print (text style : string) : io unit := emit (Print text style).

(** [ui_select]: no prompt for an empty list.  The answer is the position
    the user picks, or [None] when the prompt is cancelled. *)
Definition ui_select (choices : list choice) (message : string)
    (answer : option nat) : io (option json) :=
  match choices with
  | [] => ret None
  | _ :: _ =>
      _ <~ emit (Select (map choice_name choices) message) ;;
      ret match answer with
          | Some i => option_map choice_value (nth_error choices i)
          | None => None
          end
  end.

(** [action == "..."] for the answer of a menu of plain strings. *)
Definition chose (action : option json) (s : string) : bool :=
  match action with
  | Some v => eq_str v s
  | None => false
  end.

(** The result of [subprocess.run] with captured output. *)
Record process : Type := mk_process {
  returncode : Z;
  stdout : string
}.

(** [run_command]: [None] when the program is not found. *)
Definition run_command (cmd : list string) (outcome : option process)
    : io (option process) :=
  _ <~ emit (RunCommand cmd) ;; ret outcome.

(** What happens around one call of [handle_youtube]: the outcome of the
    two metadata queries, the answers to the two menus, and whether the
    program given to [subprocess.run] exists. *)
Record world : Type := mk_world {
  info_outcome : option process;
  action_answer : option nat;
  formats_outcome : option process;
  quality_answer : option nat;
  program_found : bool
}.

Section Program.

Variable float_repr : Q -> string.
Variable container_str : json -> string.
Variable list_gt : list json -> list json -> result bool.

(** [str.strip] and [json.loads] ([None] for a JSONDecodeError). *)
Variable py_strip : string -> string.
Variable json_loads : string -> option json.

(** The session's cookie browser: the global [COOKIE_BROWSER]. *)
Variable COOKIE_BROWSER : option string.

(** [if COOKIE_BROWSER: cmd.extend(["--cookies-from-browser", COOKIE_BROWSER])]:
    the arguments added when the global is set and not empty. *)
Definition cookie_args : list string :=
  match COOKIE_BROWSER with
  | Some browser =>
      if (browser =? "")%string then [] else ["--cookies-from-browser"; browser]
  | None => []
  end.

(** [not COOKIE_BROWSER] *)
Definition no_cookie_browser : bool :=
  match COOKIE_BROWSER with
  | Some browser => (browser =? "")%string
  | None => true
  end.

Definition get_ytdlp_base_cmd : list string :=
  (["yt-dlp"; "--no-warnings"; "--force-overwrites"; "--embed-metadata";
    "--embed-thumbnail"] ++ cookie_args)%list.

(** [f"{title[:57]}..." if len(title) > 60 else title], as it is inserted
    in the menu's message.  A number or None has no [len]; a dict cannot be
    sliced. *)
Definition format_title (title : json) : result string :=
  match title with
  | JStr s =>
      Ok (if (60 <? py_len s)%nat then py_take 57 s ++ "..." else s)
  | JList l =>
      Ok (if (60 <? List.length l)%nat
          then container_str (JList (firstn 57 l)) ++ "..."
          else container_str title)
  | JDict d =>
      if (60 <? List.length (dict_keys d))%nat
      then Raise TypeError
      else Ok (container_str title)
  | _ => Raise TypeError
  end.

Section HandleYoutube.

Variable w : world.
Variable url : string.

(** [subprocess.run(cmd)] without captured output; a program that does not
    exist raises FileNotFoundError. *)
Definition subprocess_run (cmd : list string) : io unit :=
  if program_found w then emit (Subprocess cmd)
  else lift (Raise FileNotFoundError).

(** The playlist menu (lines 298-335). *)
Definition handle_playlist (formatted_title : string) : io (option string) :=
  action <~ ui_select
    [plain "Stream Full Playlist (Video)"; plain "Stream Full Playlist (Audio)";
     plain "Download Full Playlist (Video)"; plain "Download Full Playlist (Audio)"]
    ("Playlist detected: " ++ formatted_title) (action_answer w) ;;
  if chose action "Stream Full Playlist (Video)" then
    _ <~ subprocess_run ["mpv"; "--no-terminal"; url] ;; ret (Some "stream")
  else if chose action "Stream Full Playlist (Audio)" then
    _ <~ subprocess_run ["mpv"; "--no-video"; url] ;; ret (Some "stream")
  else
    cmd <~ (if chose action "Download Full Playlist (Video)" then
              _ <~ ui_print "Starting download of full playlist (video)..." "cyan" ;;
              ret (get_ytdlp_base_cmd ++
                   ["-f"; "bestvideo[ext=mp4]+bestaudio[ext=m4a]/best[ext=mp4]/best";
                    "--merge-output-format"; "mp4";
                    "-o"; "%(playlist)s/%(playlist_index)02d - %(title)s.%(ext)s";
                    url])%list
            else if chose action "Download Full Playlist (Audio)" then
              _ <~ ui_print "Starting download of full playlist (audio)..." "cyan" ;;
              ret (get_ytdlp_base_cmd ++
                   ["-f"; "bestaudio/best"; "-x"; "--audio-format"; "opus";
                    "-o"; "%(playlist)s/%(playlist_index)02d - %(title)s.%(ext)s";
                    url])%list
            else ret get_ytdlp_base_cmd) ;;
    _ <~ subprocess_run cmd ;;
    _ <~ ui_print "✔ Playlist download complete." "bold green" ;;
    ret (Some "download").

(** Lines 421-434: the command line of the video download for the
    [format_code] the quality menu returned. *)
Definition download_cmd (has_audio_map : pydict bool) (format_code : json)
    : result (list string) :=
  let has_audio :=
    match dict_get format_code has_audio_map with
    | Some b => b
    | None => false
    end in
  final_format <-
    match format_code with
    | JStr s => Ok (if negb has_audio then s ++ "+bestaudio" else s)
    | _ => Raise TypeError      (* [+=] or [subprocess.run] on a non-string *)
    end ;;
  Ok (["yt-dlp"; "--force-overwrites"; "--embed-metadata"; "--embed-thumbnail"]
        ++ cookie_args
        ++ ["-f"; final_format;
            "--merge-output-format"; "mp4";
            "-o"; "%(title)s-%(height)sp.%(ext)s";
            url])%list.

(** The branch "Download video" (lines 361-438). *)
Definition download_video : io (option string) :=
  _ <~ emit (Status "[bold green]Fetching available formats...") ;;
  res_fmt <~ run_command (["yt-dlp"; "-J"] ++ cookie_args ++ [url])%list
                         (formats_outcome w) ;;
  match res_fmt with
  | None => ret None
  | Some p =>
      (* try: json.loads, video_data.get; except: return *)
      match json_loads (stdout p) with
      | None => ret None
      | Some video_data =>
          match get_default video_data "formats" (JList []) with
          | Raise _ => ret None
          | Ok formats =>
              table <~ lift (format_table float_repr container_str list_gt formats) ;;
              let '(table_rows, has_audio_map) := table in
              let choices :=
                map (fun r => Choice (row_value r) (row_str r)) table_rows in
              format_code <~ ui_select choices
                "Select Quality (ID | Resolution | FPS | Type | Audio | Size)"
                (quality_answer w) ;;
              match format_code with
              | None => ret None
              | Some code =>
                  if negb (truthy code) then ret None
                  else
                    _ <~ ui_print "Starting video download..." "cyan" ;;
                    cmd <~ lift (download_cmd has_audio_map code) ;;
                    _ <~ subprocess_run cmd ;;
                    _ <~ ui_print "✔ Download complete." "bold green" ;;
                    ret (Some "download")
              end
          end
      end
  end.

(** The menu of a single video (lines 338-438). *)
Definition handle_video (formatted_title : string) : io (option string) :=
  action <~ ui_select
    [plain "Stream Video (MPV)"; plain "Stream Audio (MPV)";
     plain "Download video"; plain "Download audio"]
    ("Video: " ++ formatted_title) (action_answer w) ;;
  if chose action "Stream Video (MPV)" then
    _ <~ subprocess_run ["mpv"; "--no-terminal"; url] ;; ret (Some "stream")
  else if chose action "Stream Audio (MPV)" then
    _ <~ subprocess_run ["mpv"; "--no-video"; url] ;; ret (Some "stream")
  else if chose action "Download audio" then
    _ <~ ui_print "Starting audio download..." "cyan" ;;
    _ <~ subprocess_run
           (get_ytdlp_base_cmd ++
            ["-f"; "bestaudio/best"; "-x"; "--audio-format"; "opus";
             "-o"; "%(title)s.%(ext)s"; url])%list ;;
    _ <~ ui_print "✔ Download complete." "bold green" ;;
    ret (Some "download")
  else if chose action "Download video" then download_video
  else ret None.

Definition handle_youtube : io (option string) :=
  _ <~ emit (Status "[bold green]Fetching video info...") ;;
  res <~ run_command
           (["yt-dlp"; "--flat-playlist"; "--dump-json"; "--no-warnings"]
              ++ cookie_args ++ [url])%list
           (info_outcome w) ;;
  let failed : io (option string) :=
    _ <~ ui_print "Could not retrieve information for the URL." "red" ;;
    _ <~ (if no_cookie_browser
          then ui_print "Tip: Try selecting a browser for cookies in the main menu." "yellow"
          else ret tt) ;;
    ret None in
  match res with
  | None => failed
  | Some p =>
      if negb (returncode p =? 0) then failed
      else
        match json_loads (first_line (py_strip (stdout p))) with
        | None =>
            _ <~ ui_print "Could not parse video information." "red" ;;
            ret None
        | Some info =>
            title <~ lift (get_default info "title" (JStr "Unknown title")) ;;
            type <~ lift (get info "_type") ;;
            let is_playlist := eq_str type "playlist" || contains "list=" url in
            formatted_title <~ lift (format_title title) ;;
            if is_playlist then handle_playlist formatted_title
            else handle_video formatted_title
        end
  end.

End HandleYoutube.

(** ** The main loop *)

Inductive handler : Type :=
| SvtPlay      (* handle_svtplay *)
| YouTube.     (* handle_youtube *)

(** How one turn of the loop [while True] of [main] goes on. *)
Inductive turn : Type :=
| Break
| UpdateTools              (* update_tools(); continue *)
| SelectCookieBrowser      (* select_cookie_browser(); continue *)
| Again                    (* continue *)
| Call (h : handler) (url : string).

(** What one turn reads: the clipboard and the answers at its prompts
    ([None] for a cancelled prompt; a menu answers with a position). *)
Record prompts : Type := mk_prompts {
  clipboard_content : string;
  clipboard_answer : option nat;   (* "Clipboard link detected:" *)
  new_url : option string;         (* "Paste/type a URL:" after "new" *)
  typed_url : option string;       (* "Paste/type a URL (leave empty for menu):" *)
  menu_answer : option nat;        (* "Main Menu" *)
  pasted_url : option string       (* "Paste/type a URL:" after "Paste link" *)
}.

(** The value [ui_select] returns for the answer at a menu. *)
Definition picked (values : list string) (answer : option nat) : option string :=
  match answer with
  | Some i => nth_error values i
  | None => None
  end.

(** Lines 555-560. *)
Definition dispatch (url : string) : turn :=
  let is_svt := contains "svtplay.se" url in
  if is_svt then Call SvtPlay url else Call YouTube url.

(** Lines 538-560, for the [url] the first part of the turn produced. *)
Definition menu_or_dispatch (p : prompts) (url : string) : turn :=
  if (url =? "")%string then
    match picked ["Paste link"; "Update tools"; "Select cookie browser"; "Exit"]
                 (menu_answer p) with
    | None => Break
    | Some choice =>
        if (choice =? "Exit")%string then Break
        else if (choice =? "Update tools")%string then UpdateTools
        else if (choice =? "Select cookie browser")%string then SelectCookieBrowser
        else if (choice =? "Paste link")%string then
          match pasted_url p with
          | None => Again
          | Some url' => if (url' =? "")%string then Again else dispatch url'
          end
        else dispatch url
    end
  else dispatch url.

(** One turn of the loop of [main] (lines 502-560), up to the call of the
    handler. *)
Definition main_turn (last_action : option string) (p : prompts) : turn :=
  let url_from_clipboard :=
    if match last_action with
       | Some a => negb (a =? "stream")%string
       | None => true
       end
    then
      let cleaned := py_strip (clipboard_content p) in
      if is_valid_url cleaned then cleaned else ""
    else "" in
  if negb (url_from_clipboard =? "")%string then
    match picked ["use_clip"; "new"; "menu"] (clipboard_answer p) with
    | None => Break
    | Some action =>
        if (action =? "use_clip")%string then menu_or_dispatch p url_from_clipboard
        else if (action =? "new")%string then
          match new_url p with
          | None => Break
          | Some url => menu_or_dispatch p url
          end
        else menu_or_dispatch p ""
    end
  else
    match typed_url p with
    | None => Break
    | Some url => menu_or_dispatch p url
    end.

End Program.

(** ** Vocabulary of the statements *)

(** [f.get(k)] when [f] is a dict: None for an absent member. *)
Definition field (f : json) (k : string) : json :=
  match f with
  | JDict d => match lookup k d with Some v => v | None => JNull end
  | _ => JNull
  end.

Definition is_dict (f : json) : bool :=
  match f with JDict _ => true | _ => false end.

(** The key a descriptor is grouped under: [f.get("height") or 0]. *)
Definition height_key (f : json) : json := py_or (field f "height") (JInt 0).

(** [f.get("fps") or 0] *)
Definition frame_rate (f : json) : json := py_or (field f "fps") (JInt 0).

(** A descriptor passes the two filters of the selection loop. *)
Definition survives (f : json) : bool :=
  negb (eq_str (field f "vcodec") "none") && negb (eq_int (height_key f) 0).

(** The frame rate as a number. *)
Definition rate (f : json) : Q :=
  match num_of (frame_rate f) with Some x => x | None => 0%Q end.

(** Two descriptors are grouped under the same height. *)
Definition same_height (f g : json) : bool := key_eq (height_key f) (height_key g).

(** No two entries of a dict have equal keys. *)
Definition distinct_keys {V : Type} (d : pydict V) : Prop :=
  ForallOrdPairs (fun a b => key_eq (fst a) (fst b) = false) d.

(** What the selection loop maintains after the descriptors [seen]: the
    keys of [unique_resolutions] are distinct non-zero numbers or strings,
    every value is a surviving descriptor of [seen] filed under its own
    height, and every surviving descriptor of [seen] has an entry. *)
Definition groups (seen : list json) (u : pydict json) : Prop :=
  distinct_keys u /\
  (forall h f, In (h, f) u ->
     hashable h = true /\ is_num h || is_str h = true /\ eq_int h 0 = false /\
     is_dict f = true /\ survives f = true /\
     key_eq h (height_key f) = true /\ In f seen) /\
  (forall g, In g seen -> survives g = true ->
     dict_get (height_key g) u <> None).

(** The kept record of every group has the greatest frame rate of the
    group, and is the first of [seen] that has it. *)
Definition best_first (seen : list json) (u : pydict json) : Prop :=
  forall h f, In (h, f) u ->
    exists before after,
      seen = (before ++ f :: after)%list /\
      (forall g, In g before -> survives g = true ->
         key_eq (height_key g) h = true -> (rate g < rate f)%Q) /\
      (forall g, In g after -> survives g = true ->
         key_eq (height_key g) h = true -> (rate g <= rate f)%Q).

(** The frame rate of a surviving descriptor is a number. *)
Definition numeric_rate (f : json) : Prop :=
  survives f = true -> is_num (frame_rate f) = true.

(** The invariant of the selection loop on numeric frame rates. *)
Definition best_groups (seen : list json) (u : pydict json) : Prop :=
  groups seen u /\ best_first seen u /\
  (forall h f, In (h, f) u -> is_num (frame_rate f) = true).


(** [r1] stands above [r2]: its height is greater, as Python orders the
    keys of the sort. *)
Definition taller (r1 r2 : row) : Prop :=
  key_lt (row_height r2) (row_height r1) = Some true.

(** The heights are all numbers or all strings. *)
Definition comparable_heights (l : list row) : Prop :=
  Forall (fun r => is_num (row_height r) = true) l \/
  Forall (fun r => is_str (row_height r) = true) l.

(** No two rows have equal heights. *)
Definition distinct_heights (l : list row) : Prop :=
  ForallOrdPairs (fun r1 r2 => key_eq (row_height r1) (row_height r2) = false) l.

(** [f.get(k, default)] when [f] is a dict. *)
Definition field_default (f : json) (k : string) (default : json) : json :=
  match f with
  | JDict d => match lookup k d with Some v => v | None => default end
  | _ => default
  end.

(** [has_audio_map] after the rendering loop has gone through [xs]. *)
Definition audio_map (xs : list (row * bool)) (m : pydict bool) : pydict bool :=
  fold_left (fun m x => dict_set (row_value (fst x)) (snd x) m) xs m.

(** The descriptor has no video track: [vcodec == "none"]. *)
Definition no_video (f : json) : Prop :=
  exists d, f = JDict d /\ lookup "vcodec" d = Some (JStr "none").

(** The descriptor's height equals 0. *)
Definition zero_height (f : json) : Prop :=
  exists d v, f = JDict d /\ lookup "height" d = Some v /\ eq_int v 0 = true.

(** A member that is absent, null or a number. *)
Definition number_or_missing (v : json) : bool :=
  match v with
  | JNull | JBool _ | JInt _ | JFloat _ => true
  | _ => false
  end.

(** What the selection loop needs of a descriptor: a dict whose height and
    frame rate are numbers where they are present and not null. *)
Definition loop_input (f : json) : Prop :=
  is_dict f = true /\
  number_or_missing (field f "height") = true /\
  number_or_missing (field f "fps") = true.
(** Every kept record is a dict with a numeric frame rate. *)
Definition numeric_entries (u : pydict json) : Prop :=
  Forall (fun e => is_dict (snd e) = true /\ is_num (frame_rate (snd e)) = true) u.

(** The words a regular expression matches. *)
Inductive matches : regex -> string -> Prop :=
| matches_eps : matches Eps ""
| matches_lit (c : ascii) : matches (Lit c) (String c "")
| matches_cat (r s : regex) (u v : string) :
    matches r u -> matches s v -> matches (Cat r s) (u ++ v)
| matches_opt_some (r : regex) (u : string) : matches r u -> matches (Opt r) u
| matches_opt_none (r : regex) : matches (Opt r) "".

(** The beginnings of the URLs of a supported site. *)
Definition site_prefixes (host : string) : list string :=
  [ "http://" ++ host ++ "/"; "http://www." ++ host ++ "/";
    "https://" ++ host ++ "/"; "https://www." ++ host ++ "/" ].

Definition supported_prefixes : list string :=
  (site_prefixes "youtube.com" ++ site_prefixes "youtu.be"
     ++ site_prefixes "svtplay.se")%list.

(** The descriptor has no audio track as the rendering loop sees it: its
    [acodec] is absent or equals ["none"]. *)
Definition lacks_audio (f : json) : bool :=
  eq_str (field_default f "acodec" (JStr "none")) "none".

(** The trace of a video download that goes through: both menus, the
    command and the two messages around it. *)
Definition download_trace (cookie : list string) (url : string)
    (rows : list row) (final_format : string) : list event :=
  [ Status "[bold green]Fetching available formats...";
    RunCommand (["yt-dlp"; "-J"] ++ cookie ++ [url])%list;
    Select (map row_str rows)
      "Select Quality (ID | Resolution | FPS | Type | Audio | Size)";
    Print "Starting video download..." "cyan";
    Subprocess
      (["yt-dlp"; "--force-overwrites"; "--embed-metadata"; "--embed-thumbnail"]
         ++ cookie
         ++ ["-f"; final_format; "--merge-output-format"; "mp4";
             "-o"; "%(title)s-%(height)sp.%(ext)s"; url])%list;
    Print "✔ Download complete." "bold green" ].

(** ** Sample runs *)

(** The builtins on the values of the sample runs, which hold no list, no
    dict and the floats 29.97 and 59.94 only. *)
Definition sample_float_repr (x : Q) : string :=
  if Qeq_bool x (2997 # 100) then "29.97" else "59.94".

Definition sample_container_str (v : json) : string := "[]".

Definition sample_list_gt (a b : list json) : result bool := Ok false.

Definition sample_strip (s : string) : string := s.

Definition descriptor (format_id : string) (width height : Z) (fps : json)
    (vcodec acodec : string) (filesize : json) : json :=
  JDict [("format_id", JStr format_id); ("width", JInt width);
         ("height", JInt height); ("fps", fps); ("ext", JStr "mp4");
         ("vcodec", JStr vcodec); ("acodec", JStr acodec);
         ("filesize", filesize)].

(** Formats as yt-dlp lists them: a muxed 360p stream, two 720p video
    streams of 30 and 60 frames, an audio stream and a storyboard without
    height. *)
Definition sample_formats : list json :=
  [ descriptor "18" 640 360 (JInt 30) "avc1.42001E" "mp4a.40.2" (JInt 12345678);
    descriptor "136" 1280 720 (JInt 30) "avc1.4d401f" "none" JNull;
    descriptor "298" 1280 720 (JInt 60) "avc1.4d4020" "none" (JInt 262144);
    JDict [("format_id", JStr "140"); ("ext", JStr "m4a");
           ("vcodec", JStr "none"); ("acodec", JStr "mp4a.40.2")];
    JDict [("format_id", JStr "sb0"); ("ext", JStr "mhtml");
           ("height", JNull); ("fps", JNull)] ].

Definition sample_table : list row * pydict bool :=
  Eval vm_compute in
    match table_of_list sample_float_repr sample_container_str sample_list_gt
            sample_formats with
    | Ok t => t
    | Raise _ => ([], [])
    end.

Definition sample_row : row :=
  Eval vm_compute in
    match fst sample_table with
    | r :: _ => r
    | [] => mk_row "" JNull JNull
    end.

(** JSON texts, written without escapes. *)
Definition quoted (s : string) : string :=
  String "034" s ++ String "034" "".

Definition member (name value : string) : string := quoted name ++ ": " ++ value.

Definition sample_info : json := JDict [("title", JStr "Demo")].

Definition sample_info_text : string := "{" ++ member "title" (quoted "Demo") ++ "}".

(** Two formats with format ids of their own. *)
Definition sample_video : json :=
  JDict [("formats", JList
    [ JDict [("format_id", JStr "137"); ("height", JInt 1080); ("acodec", JStr "none")];
      JDict [("format_id", JStr "22"); ("height", JInt 720); ("acodec", JStr "mp4a.40.2")] ])].

Definition sample_video_text : string :=
  "{" ++ member "formats"
    ("[{" ++ member "format_id" (quoted "137") ++ ", " ++ member "height" "1080"
          ++ ", " ++ member "acodec" (quoted "none") ++ "}, {"
          ++ member "format_id" (quoted "22") ++ ", " ++ member "height" "720"
          ++ ", " ++ member "acodec" (quoted "mp4a.40.2") ++ "}]") ++ "}".

(** Two formats that share their format id. *)
Definition shared_id_video : json :=
  JDict [("formats", JList
    [ JDict [("format_id", JStr "22"); ("height", JInt 1080); ("acodec", JStr "none")];
      JDict [("format_id", JStr "22"); ("height", JInt 720); ("acodec", JStr "mp4a.40.2")] ])].

Definition shared_id_video_text : string :=
  "{" ++ member "formats"
    ("[{" ++ member "format_id" (quoted "22") ++ ", " ++ member "height" "1080"
          ++ ", " ++ member "acodec" (quoted "none") ++ "}, {"
          ++ member "format_id" (quoted "22") ++ ", " ++ member "height" "720"
          ++ ", " ++ member "acodec" (quoted "mp4a.40.2") ++ "}]") ++ "}".

(** [json.loads] on the texts of the sample runs; the empty output of a
    failed process is no JSON. *)
Definition sample_loads (text : string) : option json :=
  if (text =? sample_info_text)%string then Some sample_info
  else if (text =? sample_video_text)%string then Some sample_video
  else if (text =? shared_id_video_text)%string then Some shared_id_video
  else None.

Definition sample_url : string := "https://youtu.be/abc123".

(** The metadata is fetched, the user picks "Download video" and the first
    row of the quality menu, and [formats] is the outcome of [yt-dlp -J]. *)
Definition download_run (formats : option process) : world :=
  mk_world (Some (mk_process 0 sample_info_text)) (Some 2%nat) formats
           (Some 0%nat) true.

Definition sample_handle_youtube (w : world) : io (option string) :=
  handle_youtube sample_float_repr sample_container_str sample_list_gt
    sample_strip sample_loads None w sample_url.

(** The first format of [sample_video], which the first row of its menu
    shows. *)
Definition sample_descriptor_137 : json :=
  JDict [("format_id", JStr "137"); ("height", JInt 1080); ("acodec", JStr "none")].

(** The first format of [shared_id_video]: no audio track, and the format
    id of the second format. *)
Definition shared_id_descriptor : json :=
  JDict [("format_id", JStr "22"); ("height", JInt 1080); ("acodec", JStr "none")].

(** What [handle_youtube] shows up to the second metadata query. *)
Definition trace_to_formats_query : list event :=
  [ Status "[bold green]Fetching video info...";
    RunCommand ["yt-dlp"; "--flat-playlist"; "--dump-json"; "--no-warnings";
                sample_url];
    Select ["Stream Video (MPV)"; "Stream Audio (MPV)"; "Download video";
            "Download audio"] "Video: Demo";
    Status "[bold green]Fetching available formats...";
    RunCommand ["yt-dlp"; "-J"; sample_url] ].

(** ** The layout of a row *)

(** [column] is [text] left-justified in [w] columns: [text] followed by
    spaces, [w] code points wide, or as wide as [text] if that is more. *)
Definition padded (w : nat) (text column : string) : Prop :=
  (exists k, column = text ++ spaces k) /\
  py_len column = Nat.max w (py_len text).




(** A value that a padded column can show: a string or a number. *)
Definition formattable (v : json) : bool :=
  match v with
  | JNull | JList _ | JDict _ => false
  | _ => true
  end.

(** The text of a value in a padded column: a string as it is, a number in
    decimal. *)
Definition cell_text (float_repr : Q -> string) (v : json) : string :=
  match v with
  | JStr s => s
  | JInt n => str_of_int n
  | JBool b => if b then "1" else "0"
  | JFloat x => float_repr x
  | _ => ""
  end.

(** [f.get("filesize") or f.get("filesize_approx")] *)
Definition size_of (f : json) : json :=
  py_or (field f "filesize") (field f "filesize_approx").

(** A record that the rendering loop can show: its format id, frame rate
    and extension are strings or numbers, and its size, if it has one, is
    a number within the range of a double. *)
Definition renderable (f : json) : Prop :=
  is_dict f = true /\
  formattable (field_default f "format_id" (JStr "N/A")) = true /\
  formattable (frame_rate f) = true /\
  formattable (field_default f "ext" (JStr "N/A")) = true /\
  (truthy (size_of f) = true -> exists q, div_mib (size_of f) = Ok q).

(** A 720p video stream of 59.94 frames and 262144 bytes. *)
Definition sample_descriptor_298 : json :=
  descriptor "298" 1280 720 (JFloat (5994 # 100)) "avc1.4d4020" "none"
    (JInt 262144).

(** ** More answers of yt-dlp *)

(** One format, without a video track. *)
Definition audio_only_video : json :=
  JDict [("formats", JList
    [ JDict [("format_id", JStr "140"); ("vcodec", JStr "none");
             ("acodec", JStr "mp4a.40.2")] ])].

Definition audio_only_text : string :=
  "{" ++ member "formats"
    ("[{" ++ member "format_id" (quoted "140") ++ ", "
          ++ member "vcodec" (quoted "none") ++ ", "
          ++ member "acodec" (quoted "mp4a.40.2") ++ "}]") ++ "}".

(** No list of formats, and a list that holds a format and a number. *)
Definition null_formats_video : json := JDict [("formats", JNull)].

Definition null_formats_text : string := "{" ++ member "formats" "null" ++ "}".

Definition number_in_formats_video : json :=
  JDict [("formats", JList [sample_descriptor_137; JInt 22])].

Definition number_in_formats_text : string :=
  "{" ++ member "formats"
    ("[{" ++ member "format_id" (quoted "137") ++ ", " ++ member "height" "1080"
          ++ ", " ++ member "acodec" (quoted "none") ++ "}, 22]") ++ "}".

(** An entry of a flat playlist without a title, and a playlist. *)
Definition untitled_info : json := JDict [("title", JNull)].

Definition untitled_info_text : string := "{" ++ member "title" "null" ++ "}".

Definition playlist_info : json :=
  JDict [("_type", JStr "playlist"); ("title", JStr "Mix")].

Definition playlist_info_text : string :=
  "{" ++ member "_type" (quoted "playlist") ++ ", "
      ++ member "title" (quoted "Mix") ++ "}".

(** [json.loads] on these texts and on those of the sample runs; ["[]"] is
    the empty array. *)
Definition more_loads (text : string) : option json :=
  match lookup text
          [ (audio_only_text, audio_only_video);
            (null_formats_text, null_formats_video);
            (number_in_formats_text, number_in_formats_video);
            (untitled_info_text, untitled_info);
            (playlist_info_text, playlist_info);
            ("[]", JList []) ] with
  | Some v => Some v
  | None => sample_loads text
  end.

(** The two lines that every run of the download branch starts with. *)
Definition formats_query (cookie : list string) (url : string) : list event :=
  [ Status "[bold green]Fetching available formats...";
    RunCommand (["yt-dlp"; "-J"] ++ cookie ++ [url])%list ].

(** ** The calls of [handle_youtube] *)

(** The two lines that every call starts with. *)
Definition info_query (cookie : list string) (url : string) : list event :=
  [ Status "[bold green]Fetching video info...";
    RunCommand (["yt-dlp"; "--flat-playlist"; "--dump-json"; "--no-warnings"]
                  ++ cookie ++ [url])%list ].

(** The query for the info went through and its first line parsed as
    [info]. *)
Definition info_loaded (py_strip : string -> string)
    (json_loads : string -> option json) (w : world) (info : json) : Prop :=
  exists p, info_outcome w = Some p /\ returncode p = 0 /\
            json_loads (first_line (py_strip (stdout p))) = Some info.

(** [info.get("_type") == "playlist" or "list=" in url] *)
Definition is_playlist (info : json) (url : string) : Prop :=
  field info "_type" = JStr "playlist" \/
  exists before rest, url = (before ++ "list=" ++ rest)%string.

Definition playlist_menu (formatted_title : string) : event :=
  Select ["Stream Full Playlist (Video)"; "Stream Full Playlist (Audio)";
          "Download Full Playlist (Video)"; "Download Full Playlist (Audio)"]
         ("Playlist detected: " ++ formatted_title).

(** The programs a handler started itself, by [subprocess.run] without
    captured output, in order; the queries of [run_command] are not among
    them. *)
Fixpoint processes (t : list event) : list (list string) :=
  match t with
  | [] => []
  | Subprocess cmd :: r => cmd :: processes r
  | _ :: r => processes r
  end.

(** The command lines a call ran, by [run_command] or [subprocess.run]. *)
Fixpoint commands (t : list event) : list (list string) :=
  match t with
  | [] => []
  | Subprocess cmd :: r => cmd :: commands r
  | RunCommand cmd :: r => cmd :: commands r
  | _ :: r => commands r
  end.


(** The command line hands the browser [b] to yt-dlp. *)
Definition passes_browser (b : string) (cmd : list string) : Prop :=
  exists pre post, cmd = (pre ++ ["--cookies-from-browser"; b] ++ post)%list.

(** Every yt-dlp command line of the call hands the browser [b] over. *)
Definition browser_passed (b : string) (x : io (option string)) : Prop :=
  Forall (fun cmd => hd "" cmd = "yt-dlp" -> passes_browser b cmd)
         (commands (fst x)).

(** A video URL that carries a playlist parameter. *)
Definition watch_in_list_url : string :=
  "https://www.youtube.com/watch?v=abc123&list=PL1".

(** The 720p video stream of 30 frames of [sample_formats]. *)
Definition sample_descriptor_136 : json :=
  descriptor "136" 1280 720 (JInt 30) "avc1.4d401f" "none" JNull.

(** ** SVT Play *)

(** What happens around one call of [handle_svtplay]: the answer at its
    menu, the text typed at the prompt that follows ([None] when the
    prompt is cancelled), and how the program it starts ends: its exit
    status, or [None] when the program is not found. *)
Record svt_world : Type := mk_svt_world {
  svt_answer : option nat;
  svt_typed : option string;
  svt_exit : option Z
}.

Definition svt_choices : list string :=
  [ "Download (Best quality + Subtitles)";
    "Download Whole Series (-A)";
    "Download Whole Series (yt-dlp)";
    "Download Specific Episodes (yt-dlp)";
    "Download the LAST X episodes (svtplay-dl)";
    "Stream (MPV)";
    "Download audio only" ].

(** The options the two yt-dlp branches add to the base command. *)
Definition series_options : list string :=
  ["--embed-subs"; "--write-subs"; "--sub-langs"; "all"].

Definition series_template : string :=
  "%(series)s/S%(season_number)02dE%(episode_number)02d - %(title)s.%(ext)s".

Section HandleSvtplay.

(** [str.isdigit] *)
Variable py_isdigit : string -> bool.
Variable COOKIE_BROWSER : option string.
Variable w : svt_world.
Variable url : string.

(** [res = subprocess.run(cmd)] and [res.returncode]; a program that does
    not exist raises FileNotFoundError. *)
Definition subprocess_returncode (cmd : list string) : io Z :=
  match svt_exit w with
  | Some code => _ <~ emit (Subprocess cmd) ;; ret code
  | None => lift (Raise FileNotFoundError)
  end.

(** Lines 265-270. *)
Definition report (success : bool) : io (option string) :=
  _ <~ (if success then ui_print "✔ Download complete." "bold green"
        else ui_print "❌ Download failed." "bold red") ;;
  ret (Some "download").

(** [handle_svtplay(url)].  The prompt of [ui_input] leaves no event: its
    answer is [svt_typed].  [console.print("")] is a line without text
    and style. *)
Definition handle_svtplay : io (option string) :=
  action <~ ui_select (map plain svt_choices)
    "SVT Play link detected. What do you want to do?" (svt_answer w) ;;
  if negb match action with Some v => truthy v | None => false end
  then ret None
  else
    _ <~ emit (Print "" "") ;;
    if chose action "Download (Best quality + Subtitles)" then
      _ <~ ui_print "Starting download from SVT Play..." "cyan" ;;
      code <~ subprocess_returncode ["svtplay-dl"; "-S"; "-M"; url] ;;
      report (code =? 0)
    else if chose action "Download Whole Series (-A)" then
      _ <~ ui_print "Starting download of entire series..." "cyan" ;;
      code <~ subprocess_returncode ["svtplay-dl"; "-S"; "-M"; "-A"; url] ;;
      report (code =? 0)
    else if chose action "Download Whole Series (yt-dlp)" then
      _ <~ ui_print "Starting download of entire series with yt-dlp..." "cyan" ;;
      code <~ subprocess_returncode
                (get_ytdlp_base_cmd COOKIE_BROWSER ++ series_options
                   ++ ["-o"; series_template; url])%list ;;
      report (code =? 0)
    else if chose action "Download Specific Episodes (yt-dlp)" then
      match svt_typed w with
      | Some items =>
          if (items =? "")%string then ret None
          else
            _ <~ ui_print ("Downloading episodes " ++ items ++ " with yt-dlp...")
                          "cyan" ;;
            code <~ subprocess_returncode
                      (get_ytdlp_base_cmd COOKIE_BROWSER ++ series_options
                         ++ ["--playlist-items"; items;
                             "-o"; series_template; url])%list ;;
            report (code =? 0)
      | None => ret None
      end
    else if chose action "Download the LAST X episodes (svtplay-dl)" then
      match svt_typed w with
      | Some count =>
          if py_isdigit count then
            _ <~ ui_print ("Downloading the last " ++ count ++ " episodes...")
                          "cyan" ;;
            code <~ subprocess_returncode
                      ["svtplay-dl"; "-S"; "-M"; "-A"; "--all-last"; count; url] ;;
            report (code =? 0)
          else
            _ <~ ui_print "Invalid number specified." "red" ;;
            ret None
      | None => lift (Raise AttributeError)     (* [None.isdigit()] *)
      end
    else if chose action "Stream (MPV)" then
      _ <~ subprocess_returncode ["mpv"; "--no-terminal"; url] ;;
      ret (Some "stream")
    else if chose action "Download audio only" then
      _ <~ ui_print "Downloading audio only..." "cyan" ;;
      code <~ subprocess_returncode ["svtplay-dl"; "--only-audio"; url] ;;
      report (code =? 0)
    else report false.

End HandleSvtplay.

(** ** The cookie browser *)

Definition browsers : list string :=
  [ "None (Default)"; "chrome"; "firefox"; "brave"; "edge"; "safari";
    "opera"; "vivaldi"; "chromium" ].

(** [select_cookie_browser()]: what it shows, and the value it leaves in
    the global [COOKIE_BROWSER]. *)
Definition select_cookie_browser (answer : option nat) : io (option string) :=
  _ <~ emit (Select browsers "Select browser to borrow cookies from:") ;;
  match picked browsers answer with
  | Some choice =>
      if negb (choice =? "")%string && negb (choice =? "None (Default)")%string
      then
        _ <~ ui_print ("Browser selected: " ++ choice) "green" ;;
        ret (Some choice)
      else
        _ <~ ui_print "Cookies disabled." "yellow" ;;
        ret None
  | None =>
      _ <~ ui_print "Cookies disabled." "yellow" ;;
      ret None
  end.

(** ** The check of the dependencies *)

(** A line on the console, or a panel ([border=True]). *)
Inductive console_line : Type :=
| Line (text style : string)
| Panel (text style : string).

Definition dependencies : list string := ["yt-dlp"; "svtplay-dl"; "mpv"; "ffmpeg"].

(** [check_dependencies()]; [which dep] tells whether [shutil.which(dep)]
    finds the program. *)
Definition check_dependencies (which : string -> bool) : list console_line :=
  let missing_deps := filter (fun dep => negb (which dep)) dependencies in
  match missing_deps with
  | [] => []
  | _ :: _ =>
      ([ Panel "Warning: The following external dependencies are missing from PATH:"
              "bold yellow" ]
       ++ map (fun dep => Line ("- " ++ dep) "red") missing_deps
       ++ [ Line "Some features might not work." "dim" ]
       ++ (if existsb (String.eqb "mpv") missing_deps
              || existsb (String.eqb "ffmpeg") missing_deps
           then [ Line "Critical: 'mpv' and 'ffmpeg' are required for playback/merging."
                       "bold red" ]
           else []))%list
  end.

(** ** Vocabulary of the other handlers *)

(** What [handle_svtplay] returns goes with what it started. *)
Definition svt_result_matches_process (url : string) (x : io (option string))
    : Prop :=
  match snd x with
  | Ok (Some a) =>
      exists cmd, processes (fst x) = [cmd] /\ last cmd "" = url /\
        ((a = "stream" /\ cmd = ["mpv"; "--no-terminal"; url]) \/
         (a = "download" /\
          (hd "" cmd = "svtplay-dl" \/ hd "" cmd = "yt-dlp")))
  | _ => processes (fst x) = []
  end.

(** The last thing printed. *)
Definition last_print (t : list event) : option (string * string) :=
  match last t (Status "") with
  | Print text style => Some (text, style)
  | _ => None
  end.

(** [str.isdigit] on the texts of the sample runs. *)
Definition sample_isdigit (s : string) : bool := (s =? "5")%string.

Definition sample_svt_url : string := "https://www.svtplay.se/video/abc".

(** The table of the same formats in reverse order. *)
Definition reversed_table : list row * pydict bool :=
  Eval vm_compute in
    match table_of_list sample_float_repr sample_container_str sample_list_gt
            (rev sample_formats) with
    | Ok t => t
    | Raise _ => ([], [])
    end.

(** ** The update of the tools *)

(** What [update_tools] shows and does to the file system and the
    network. *)
Inductive tool_event : Type :=
| Blank                                      (* print("") *)
| Say (text style : string)                  (* ui_print *)
| Ask (names : list string) (message : string)   (* ui_select *)
| Makedirs (path : string)                   (* os.makedirs(path, exist_ok=True) *)
| Retrieve (url path : string)               (* urllib.request.urlretrieve *)
| Chmod (path : string)                      (* os.chmod(path, 0o755) *)
| PressEnter.                                (* input("Press Enter to continue...") *)

(** How the download of one tool goes: it succeeds, [urlretrieve] raises,
    or [os.chmod] raises, where it is called; [e] is the text of the
    exception. *)
Inductive fetch : Type :=
| Fetched
| RetrieveFails (e : string)
| ChmodFails (e : string).

(** The platform and the answers around one call of [update_tools]. *)
Record tools_world : Type := mk_tools_world {
  system : string;                 (* platform.system() *)
  home : string;                   (* os.path.expanduser("~") *)
  appdata : option string;         (* os.environ.get("APPDATA") *)
  update_answer : option nat;
  makedirs_error : option string;  (* the text of the OSError, if any *)
  ytdlp_fetch : fetch;
  svtplay_fetch : fetch
}.

Section UpdateTools.

(** [os.path.join] *)
Variable path_join : list string -> string.

Definition get_user_bin_dir (w : tools_world) : string :=
  if (system w =? "Windows")%string then
    path_join [match appdata w with Some a => a | None => home w end;
               "QuickTube"; "bin"]
  else if (system w =? "Darwin")%string then
    path_join [home w; "Library"; "Application Support"; "QuickTube"; "bin"]
  else path_join [home w; ".local"; "bin"; "quicktube_tools"].

(** One of the two blocks [ui_print; try: urlretrieve; chmod; ui_print;
    except Exception] (lines 467-474 and 481-488) for the tool [name],
    fetched from [url] into the file [local] of [user_bin]. *)
Definition install (w : tools_world) (name url local : string) (outcome : fetch)
    : list tool_event :=
  let path := path_join [get_user_bin_dir w; local] in
  let failed e := Say ("❌ Failed to update " ++ name ++ ": " ++ e) "red" in
  let updated := Say ("✔ " ++ name ++ " updated.") "green" in
  Say ("Downloading latest " ++ name ++ "...") "cyan"
  :: Retrieve url path
  :: match outcome with
     | RetrieveFails e => [failed e]
     | _ =>
         if negb (system w =? "Windows")%string then
           Chmod path
           :: match outcome with
              | ChmodFails e => [failed e]
              | _ => [updated]
              end
         else [updated]
     end.

Definition update_tools (w : tools_world) : list tool_event :=
  let user_bin := get_user_bin_dir w in
  let asked :=
    [ Blank;
      Say ("Tools will be installed/updated in: " ++ user_bin) "dim";
      Ask ["Yes, update"; "Cancel"]
          "Do you want to download the latest yt-dlp and svtplay-dl?" ] in
  match picked ["Yes, update"; "Cancel"] (update_answer w) with
  | None => asked
  | Some choice =>
    if negb (choice =? "Yes, update")%string then asked
    else
      match makedirs_error w with
      | Some e =>
          (asked ++ [ Makedirs user_bin;
                      Say ("Could not create directory: " ++ e) "red" ])%list
      | None =>
          let ytdlp_filename_remote :=
            if (system w =? "Windows")%string then "yt-dlp.exe"
            else if (system w =? "Darwin")%string then "yt-dlp_macos"
            else "yt-dlp" in
          let ytdlp_url :=
            "https://github.com/yt-dlp/yt-dlp/releases/latest/download/"
              ++ ytdlp_filename_remote in
          let ytdlp_local :=
            if (system w =? "Windows")%string then "yt-dlp.exe" else "yt-dlp" in
          let svt_remote :=
            if (system w =? "Windows")%string then "svtplay-dl.exe"
            else "svtplay-dl" in
          let svt_url :=
            "https://github.com/spaam/svtplay-dl/releases/latest/download/"
              ++ svt_remote in
          (asked ++ [Makedirs user_bin]
             ++ install w "yt-dlp" ytdlp_url ytdlp_local (ytdlp_fetch w)
             ++ (if negb (system w =? "Darwin")%string
                 then install w "svtplay-dl" svt_url svt_remote (svtplay_fetch w)
                 else [ Say "ℹ️  svtplay-dl update on Mac requires manual handling (zip)."
                            "dim" ])
             ++ [ Blank;
                  Say "Done. Restart the program to use the new versions." "green";
                  PressEnter ])%list
      end
  end.

End UpdateTools.

(** The files [update_tools] asked for, in order. *)
Fixpoint retrievals (t : list tool_event) : list (string * string) :=
  match t with
  | [] => []
  | Retrieve url path :: r => (url, path) :: retrievals r
  | _ :: r => retrievals r
  end.

(** The event touches the file system or the network. *)
Definition touches (e : tool_event) : bool :=
  match e with
  | Makedirs _ | Retrieve _ _ | Chmod _ => true
  | _ => false
  end.

(** Every [chmod] of the trace follows the download of its file. *)
Fixpoint chmod_follows_retrieve (t : list tool_event) : Prop :=
  match t with
  | [] => True
  | Chmod _ :: _ => False
  | Retrieve _ path :: Chmod path' :: r => path' = path /\ chmod_follows_retrieve r
  | _ :: r => chmod_follows_retrieve r
  end.

(** [os.path.join] with slashes, for the sample runs. *)
Definition sample_join (parts : list string) : string := String.concat "/" parts.

(** The same platform and answers with other outcomes of the downloads. *)
Definition with_fetches (w : tools_world) (o1 o2 : fetch) : tools_world :=
  mk_tools_world (system w) (home w) (appdata w) (update_answer w)
    (makedirs_error w) o1 o2.

Definition sample_tools_world : tools_world :=
  mk_tools_world "Linux" "/home/u" None (Some 0%nat) None
    (RetrieveFails "HTTP Error 404") Fetched.

(** ** Rows of different widths *)



(** ** A format without an extension *)


(** ** Queries and programs *)






Local Open Scope list_scope.

(** ** Numbers and keys *)

Lemma Qgtb_lt (x y : Q) : Qgtb x y = true <-> (y < x)%Q.
Proof.
  unfold Qgtb. rewrite Qgt_alt. destruct (x ?= y)%Q; split; congruence.
Qed.

Lemma Qgtb_le (x y : Q) : Qgtb x y = false <-> (x <= y)%Q.
Proof.
  unfold Qgtb. rewrite Qle_alt. destruct (x ?= y)%Q; split; congruence.
Qed.

Lemma Qeq_bool_sym (x y : Q) : Qeq_bool x y = Qeq_bool y x.
Proof.
  destruct (Qeq_bool x y) eqn:E, (Qeq_bool y x) eqn:F; auto.
  - apply Qeq_bool_iff in E. symmetry in E. apply Qeq_bool_iff in E. congruence.
  - apply Qeq_bool_iff in F. symmetry in F. apply Qeq_bool_iff in F. congruence.
Qed.

Lemma key_eq_sym (a b : json) : key_eq a b = key_eq b a.
Proof.
  unfold key_eq.
  destruct (num_of a) eqn:Ea, (num_of b) eqn:Eb; auto using Qeq_bool_sym.
  destruct a, b; auto using String.eqb_sym.
Qed.

Lemma key_eq_trans (a b c : json) :
  key_eq a b = true -> key_eq b c = true -> key_eq a c = true.
Proof.
  unfold key_eq.
  destruct (num_of a) eqn:Ea, (num_of b) eqn:Eb, (num_of c) eqn:Ec;
    try discriminate.
  - rewrite !Qeq_bool_iff. intros H1 H2. now rewrite H1.
  - destruct a, b; try discriminate; destruct c; try discriminate; auto.
    rewrite !String.eqb_eq. congruence.
Qed.

Lemma key_eq_refl (a : json) : hashable a = true -> key_eq a a = true.
Proof.
  destruct a; simpl; try discriminate; intros _; unfold key_eq; simpl;
    auto using String.eqb_refl.
  - destruct b; reflexivity.
  - apply Qeq_bool_iff. reflexivity.
  - apply Qeq_bool_iff. reflexivity.
Qed.

(** Equal keys are interchangeable. *)
Lemma key_eq_congr (a b c : json) :
  key_eq a b = true -> key_eq a c = key_eq b c.
Proof.
  intros H. destruct (key_eq b c) eqn:E.
  - eauto using key_eq_trans.
  - destruct (key_eq a c) eqn:F; auto.
    rewrite key_eq_sym in H. rewrite <- E. symmetry. eauto using key_eq_trans.
Qed.

(** ** Dicts *)

Section Dict.

Context {V : Type}.
Implicit Types (d : pydict V) (k : json) (v : V).

Lemma dict_get_congr k k' d :
  key_eq k k' = true -> dict_get k d = dict_get k' d.
Proof.
  intros H. induction d as [|[k0 v0] d IH]; simpl; auto.
  rewrite (key_eq_sym k0 k), (key_eq_sym k0 k'), (key_eq_congr _ _ _ H).
  now rewrite IH.
Qed.

Lemma dict_get_Some k d v :
  dict_get k d = Some v -> exists k', In (k', v) d /\ key_eq k' k = true.
Proof.
  induction d as [|[k0 v0] d IH]; simpl; try discriminate.
  destruct (key_eq k0 k) eqn:E.
  - intros [= <-]. eauto.
  - intros H. destruct (IH H) as (k' & ? & ?). eauto.
Qed.

Lemma dict_get_None k d :
  dict_get k d = None -> forall k' v, In (k', v) d -> key_eq k' k = false.
Proof.
  induction d as [|[k0 v0] d IH]; simpl; [tauto|].
  destruct (key_eq k0 k) eqn:E; try discriminate.
  intros H k' v [[= <- <-]|Hin]; eauto.
Qed.

Lemma dict_get_In k d v :
  distinct_keys d -> hashable k = true -> In (k, v) d -> dict_get k d = Some v.
Proof.
  intros Hd Hk Hin.
  induction Hd as [|[k0 v0] d Hhd Hd IH]; simpl in *; [tauto|].
  destruct Hin as [[= -> ->]|Hin].
  - now rewrite key_eq_refl.
  - rewrite Forall_forall in Hhd. specialize (Hhd _ Hin). simpl in Hhd.
    rewrite Hhd. auto.
Qed.

Lemma dict_get_set k v d k' :
  dict_get k' (dict_set k v d) = if key_eq k k' then Some v else dict_get k' d.
Proof.
  induction d as [|[k0 v0] d IH]; simpl; auto.
  destruct (key_eq k0 k) eqn:E; simpl.
  - rewrite (key_eq_congr _ _ _ E). destruct (key_eq k k'); auto.
  - rewrite IH. destruct (key_eq k0 k') eqn:F; auto.
    destruct (key_eq k k') eqn:G; auto.
    rewrite key_eq_sym in G. rewrite (key_eq_trans _ _ _ F G) in E.
    discriminate.
Qed.

Lemma dict_set_new k v d :
  dict_get k d = None -> dict_set k v d = (d ++ [(k, v)])%list.
Proof.
  induction d as [|[k0 v0] d IH]; simpl; auto.
  destruct (key_eq k0 k); try discriminate. intros H. now rewrite IH.
Qed.

Lemma dict_set_keys k v d e :
  dict_get k d = Some e -> map fst (dict_set k v d) = map fst d.
Proof.
  induction d as [|[k0 v0] d IH]; simpl; try discriminate.
  destruct (key_eq k0 k); simpl; auto. intros H. now rewrite IH.
Qed.

Lemma dict_set_In k v d k' v' :
  distinct_keys d ->
  In (k', v') (dict_set k v d) ->
  (In (k', v') d /\ key_eq k' k = false) \/
  (v' = v /\ key_eq k' k = true /\ exists v0, In (k', v0) d) \/
  (v' = v /\ k' = k /\ dict_get k d = None).
Proof.
  intros Hd. induction Hd as [|[k0 v0] d Hhd Hd IH]; simpl.
  - intros [[= <- <-]|[]]. auto.
  - rewrite Forall_forall in Hhd. destruct (key_eq k0 k) eqn:E; simpl.
    + intros [[= <- <-]|Hin].
      * right. left. eauto.
      * left. split; auto. specialize (Hhd _ Hin). simpl in Hhd.
        rewrite key_eq_sym, <- (key_eq_congr _ _ _ E). exact Hhd.
    + intros [[= <- <-]|Hin]; auto.
      destruct (IH Hin) as [[? ?]|[(-> & ? & v1 & ?)|(-> & -> & ?)]]; eauto 8.
Qed.

Lemma distinct_keys_set k v d : distinct_keys d -> distinct_keys (dict_set k v d).
Proof.
  intros Hd. induction Hd as [|[k0 v0] d Hhd Hd IH]; simpl.
  - repeat constructor.
  - rewrite Forall_forall in Hhd. destruct (key_eq k0 k) eqn:E.
    + constructor; auto. now apply Forall_forall.
    + constructor; auto. apply Forall_forall. intros [k1 v1] Hin.
      destruct (dict_set_In _ _ _ _ _ Hd Hin)
        as [[? ?]|[(-> & ? & v2 & ?)|(-> & -> & ?)]]; simpl; auto.
      * apply (Hhd (k1, v1)); auto.
      * apply (Hhd (k1, v2)); auto.
Qed.

End Dict.

(** ** The selection loop *)

Lemma foldM_app {S A : Type} (body : S -> A -> result S) (l1 l2 : list A) (s : S) :
  foldM body (l1 ++ l2) s = (s' <- foldM body l1 s ;; foldM body l2 s').
Proof.
  revert s. induction l1 as [|a l1 IH]; intros s; simpl; auto.
  destruct (body s a); simpl; auto.
Qed.

Lemma bind_Ok {A B : Type} (m : result A) (k : A -> result B) (b : B) :
  (x <- m ;; k x) = Ok b -> exists a, m = Ok a /\ k a = Ok b.
Proof. destruct m; simpl; [eauto|discriminate]. Qed.

Lemma get_dict (f : json) (k : string) :
  is_dict f = true -> get f k = Ok (field f k).
Proof. destruct f; try discriminate. reflexivity. Qed.

Lemma get_Ok (f : json) (k : string) (v : json) :
  get f k = Ok v -> is_dict f = true /\ v = field f k.
Proof. destruct f; try discriminate. simpl. intros [= <-]. auto. Qed.

Lemma sortable_height_key (f : json) :
  hashable (height_key f) = true -> is_num (height_key f) || is_str (height_key f) = true.
Proof.
  unfold height_key, py_or. destruct (truthy (field f "height")) eqn:E; auto.
  destruct (field f "height"); simpl in *; auto; discriminate.
Qed.

Section SelectFacts.

Variable list_gt : list json -> list json -> result bool.

(** The cases of one turn of the loop. *)
Lemma select_step_Ok (u u' : pydict json) (f : json) :
  select_step list_gt u f = Ok u' ->
  is_dict f = true /\
  ((survives f = false /\ u' = u) \/
   (survives f = true /\ hashable (height_key f) = true /\
    ((dict_get (height_key f) u = None /\ u' = dict_set (height_key f) f u) \/
     (exists e b, dict_get (height_key f) u = Some e /\ is_dict e = true /\
        py_gt list_gt (frame_rate f) (frame_rate e) = Ok b /\
        u' = if b then dict_set (height_key f) f u else u)))).
Proof.
  unfold select_step. intros H.
  apply bind_Ok in H as (vcodec & Hv & H). apply get_Ok in Hv as [Hd ->].
  split; auto. unfold survives.
  destruct (eq_str (field f "vcodec") "none") eqn:Ev; simpl.
  { injection H as <-. auto. }
  rewrite (get_dict _ _ Hd) in H. simpl in H. fold (height_key f) in H.
  destruct (eq_int (height_key f) 0) eqn:Eh; simpl.
  { injection H as <-. auto. }
  right. split; auto.
  rewrite (get_dict _ _ Hd) in H. simpl in H. fold (frame_rate f) in H.
  destruct (hashable (height_key f)) eqn:Ehash; simpl in H; try discriminate.
  split; auto.
  destruct (dict_get (height_key f) u) as [e|] eqn:Eg.
  - right. apply bind_Ok in H as (efps & He & H). apply get_Ok in He as [Hde ->].
    fold (frame_rate e) in H. apply bind_Ok in H as (b & Hb & H).
    exists e, b. repeat split; auto. destruct b; congruence.
  - left. split; congruence.
Qed.

Lemma groups_nil : groups [] [].
Proof.
  split; [constructor|split]; simpl; tauto.
Qed.

Lemma groups_seen (seen : list json) (u : pydict json) (f : json) :
  groups seen u ->
  (survives f = true -> dict_get (height_key f) u <> None) ->
  groups (seen ++ [f]) u.
Proof.
  intros (Hdist & Hval & Hall) Hf. split; auto. split.
  - intros h g Hin. apply Hval in Hin. intuition auto with datatypes.
  - intros g Hg Hsg. apply in_app_or in Hg as [Hg|[<-|[]]]; auto.
Qed.

Lemma groups_set (seen : list json) (u : pydict json) (f : json) :
  groups seen u -> is_dict f = true -> survives f = true ->
  hashable (height_key f) = true ->
  groups (seen ++ [f]) (dict_set (height_key f) f u).
Proof.
  intros (Hdist & Hval & Hall) Hd Hs Hh.
  split; [now apply distinct_keys_set|]. split.
  - intros h g Hin.
    destruct (dict_set_In _ _ _ _ _ Hdist Hin)
      as [[Hin' ?]|[(-> & Hk & v0 & Hin')|(-> & -> & ?)]].
    + apply Hval in Hin'. intuition auto with datatypes.
    + apply Hval in Hin'. intuition auto with datatypes.
    + repeat split; auto using sortable_height_key, key_eq_refl with datatypes.
      unfold survives in Hs. apply andb_prop in Hs as [_ Hs].
      now apply negb_true_iff in Hs.
  - intros g Hg Hsg. rewrite dict_get_set.
    destruct (key_eq (height_key f) (height_key g)) eqn:E; try discriminate.
    apply in_app_or in Hg as [Hg|[<-|[]]]; auto.
    rewrite key_eq_refl in E; auto. discriminate.
Qed.

Lemma groups_step (seen : list json) (u : pydict json) (f : json) (u' : pydict json) :
  groups seen u -> select_step list_gt u f = Ok u' -> groups (seen ++ [f]) u'.
Proof.
  intros Hg Hstep.
  apply select_step_Ok in Hstep as (Hd & [[Hs ->]|(Hs & Hh & Hcase)]).
  - apply groups_seen; auto. congruence.
  - destruct Hcase as [[_ ->]|(e & b & He & Hde & Hb & ->)];
      auto using groups_set.
    destruct b; auto using groups_set.
    apply groups_seen; auto. congruence.
Qed.

(** The loop as a whole, from any state, for elements that satisfy [Q]. *)
Lemma foldM_invariant {S A : Type} (body : S -> A -> result S)
    (Q : A -> Prop) (P : list A -> S -> Prop) :
  (forall seen s a s', Q a -> P seen s -> body s a = Ok s' -> P (seen ++ [a]) s') ->
  forall l seen s s',
    Forall Q l -> P seen s -> foldM body l s = Ok s' -> P (seen ++ l) s'.
Proof.
  intros Hstep. induction l as [|a l IH]; intros seen s s' HQ HP; simpl.
  - intros [= <-]. now rewrite app_nil_r.
  - intros H. apply bind_Ok in H as (s1 & H1 & H). inversion HQ; subst.
    replace (seen ++ a :: l) with ((seen ++ [a]) ++ l)
      by now rewrite <- app_assoc.
    eauto.
Qed.

Lemma select_formats_groups (formats : list json) (u : pydict json) :
  select_formats list_gt formats = Ok u -> groups formats u.
Proof.
  intros H.
  apply (foldM_invariant (select_step list_gt) (fun _ => True) groups) with (l := formats) (seen := []) (s := []); auto using groups_nil.
  - intros seen s a s' _. apply groups_step.
  - apply Forall_forall. auto.
Qed.

(** *** The greatest frame rate, the first among equals *)

Lemma py_gt_num (a b : json) (r : bool) :
  is_num a = true -> is_num b = true -> py_gt list_gt a b = Ok r ->
  exists x y, num_of a = Some x /\ num_of b = Some y /\ r = Qgtb x y.
Proof.
  unfold is_num, py_gt.
  destruct (num_of a) as [x|], (num_of b) as [y|]; try discriminate.
  intros _ _ [= <-]. eauto.
Qed.

Lemma rate_gt (f e : json) (r : bool) :
  is_num (frame_rate f) = true -> is_num (frame_rate e) = true ->
  py_gt list_gt (frame_rate f) (frame_rate e) = Ok r ->
  if r then (rate e < rate f)%Q else (rate f <= rate e)%Q.
Proof.
  intros Hf He H. destruct (py_gt_num _ _ _ Hf He H) as (x & y & Hx & Hy & ->).
  unfold rate. rewrite Hx, Hy.
  destruct (Qgtb x y) eqn:E; [now apply Qgtb_lt|now apply Qgtb_le].
Qed.

(** An entry of a group that the current descriptor does not belong to, or
    does not improve on, stays the best and the first. *)
Lemma best_first_later (seen : list json) (h x f : json) :
  (exists before after,
      seen = before ++ x :: after /\
      (forall g, In g before -> survives g = true ->
         key_eq (height_key g) h = true -> (rate g < rate x)%Q) /\
      (forall g, In g after -> survives g = true ->
         key_eq (height_key g) h = true -> (rate g <= rate x)%Q)) ->
  (survives f = true -> key_eq (height_key f) h = true -> (rate f <= rate x)%Q) ->
  exists before after,
      seen ++ [f] = before ++ x :: after /\
      (forall g, In g before -> survives g = true ->
         key_eq (height_key g) h = true -> (rate g < rate x)%Q) /\
      (forall g, In g after -> survives g = true ->
         key_eq (height_key g) h = true -> (rate g <= rate x)%Q).
Proof.
  intros (before & after & -> & Hb & Ha) Hf.
  exists before, (after ++ [f]). split; [now rewrite <- app_assoc|].
  split; auto. intros g Hg. apply in_app_or in Hg as [Hg|[<-|[]]]; auto.
Qed.

Lemma best_groups_step (seen : list json) (u : pydict json) (f : json)
    (u' : pydict json) :
  numeric_rate f -> best_groups seen u -> select_step list_gt u f = Ok u' ->
  best_groups (seen ++ [f]) u'.
Proof.
  intros Hnum (Hg & Hbest & Hnums) Hstep.
  split; [eauto using groups_step|].
  destruct Hg as (Hdist & Hval & Hall).
  apply select_step_Ok in Hstep as (Hd & [[Hs ->]|(Hs & Hh & Hcase)]).
  - split; auto. intros h x Hin. apply best_first_later; auto. congruence.
  - assert (Hother : forall h x, In (h, x) u -> key_eq h (height_key f) = false ->
              exists before after,
                seen ++ [f] = before ++ x :: after /\
                (forall g, In g before -> survives g = true ->
                   key_eq (height_key g) h = true -> (rate g < rate x)%Q) /\
                (forall g, In g after -> survives g = true ->
                   key_eq (height_key g) h = true -> (rate g <= rate x)%Q)).
    { intros h x Hin Hne. apply best_first_later; auto.
      intros _ E. rewrite key_eq_sym in E. congruence. }
    destruct Hcase as [[Hnone ->]|(e & b & He & Hde & Hb & ->)].
    + (* a new group *)
      rewrite (dict_set_new _ _ _ Hnone). split.
      * intros h x Hin. apply in_app_or in Hin as [Hin|[[= <- <-]|[]]].
        -- apply Hother; auto. eapply dict_get_None; eauto.
        -- exists seen, []. split; auto. split; [|simpl; tauto].
           intros g Hg Hsg E. exfalso. apply (Hall g Hg Hsg).
           now rewrite (dict_get_congr _ _ _ E).
      * intros h x Hin. apply in_app_or in Hin as [Hin|[[= <- <-]|[]]]; eauto.
    + (* a group that has a kept record [e] *)
      destruct (dict_get_Some _ _ _ He) as (k & Hke & Ek).
      assert (Hbe := Hbest _ _ Hke).
      assert (Hcmp := rate_gt f e b (Hnum Hs) (Hnums _ _ Hke) Hb).
      assert (Hsame : forall h x, In (h, x) u -> key_eq h (height_key f) = true ->
                x = e /\ key_eq h k = true).
      { intros h x Hin E. split.
        - assert (Hx : dict_get h u = Some x).
          { apply dict_get_In; auto. apply Hval in Hin. tauto. }
          rewrite (dict_get_congr _ _ _ E) in Hx. congruence.
        - rewrite key_eq_sym in Ek. eauto using key_eq_trans. }
      destruct b.
      * (* replaced *)
        split.
        -- intros h x Hin.
           destruct (dict_set_In _ _ _ _ _ Hdist Hin)
             as [[Hin' ?]|[(-> & Hk & v0 & Hin')|(-> & -> & ?)]]; auto;
             [|congruence].
           exists seen, []. split; auto. split; [|simpl; tauto].
           destruct (Hsame _ _ Hin' Hk) as [-> Hhk].
           destruct (Hbest _ _ Hin') as (before & after & -> & Hbf & Haf).
           intros g Hg Hsg E. apply Qle_lt_trans with (rate e); auto.
           apply in_app_or in Hg as [Hg|[<-|Hg]]; auto using Qlt_le_weak, Qle_refl.
        -- intros h x Hin.
           destruct (dict_set_In _ _ _ _ _ Hdist Hin)
             as [[Hin' ?]|[(-> & Hk & v0 & Hin')|(-> & -> & ?)]]; eauto.
      * (* kept *)
        split; auto. intros h x Hin.
        apply best_first_later; auto. intros _ E.
        rewrite key_eq_sym in E. destruct (Hsame _ _ Hin E) as [-> _]. auto.
Qed.

Lemma select_formats_best (formats : list json) (u : pydict json) :
  Forall numeric_rate formats ->
  select_formats list_gt formats = Ok u -> best_first formats u.
Proof.
  intros Hnum H.
  apply (foldM_invariant (select_step list_gt) numeric_rate best_groups) with (l := formats) (seen := []) (s := []); auto.
  - intros seen s a s'. apply best_groups_step.
  - split; [apply groups_nil|]. split; intros h f [].
Qed.

End SelectFacts.

(** ** Sorting *)

Lemma key_lt_trans (a b c : json) :
  key_lt a b = Some true -> key_lt b c = Some true -> key_lt a c = Some true.
Proof.
  unfold key_lt.
  destruct (num_of a) as [x|], (num_of b) as [y|], (num_of c) as [z|];
    try discriminate.
  - intros [= H1] [= H2]. f_equal. apply Qgtb_lt in H1, H2. apply Qgtb_lt.
    eapply Qlt_trans; eauto.
  - destruct a, b; try discriminate. destruct c; try discriminate.
    unfold String.ltb. intros [= H1] [= H2]. f_equal.
    destruct (String.compare s s0) eqn:E1; try discriminate.
    destruct (String.compare s0 s1) eqn:E2; try discriminate.
    apply String_as_OT.cmp_lt in E1, E2.
    assert (E3 := String_as_OT.lt_trans _ _ _ E1 E2).
    apply String_as_OT.cmp_lt in E3. unfold String_as_OT.cmp in E3. now rewrite E3.
Qed.

Lemma key_lt_total (a b : json) :
  (is_num a = true /\ is_num b = true) \/ (is_str a = true /\ is_str b = true) ->
  key_eq a b = false ->
  key_lt a b = Some true \/ key_lt b a = Some true.
Proof.
  unfold key_lt, key_eq, is_num.
  intros [[Ha Hb]|[Ha Hb]].
  - destruct (num_of a) as [x|], (num_of b) as [y|]; try discriminate.
    intros Hne. destruct (Q_dec x y) as [[H|H]|H].
    + left. f_equal. now apply Qgtb_lt.
    + right. f_equal. now apply Qgtb_lt.
    + apply Qeq_bool_iff in H. congruence.
  - destruct a, b; try discriminate. simpl. intros Hne.
    unfold String.ltb. rewrite (String.compare_antisym s0 s).
    destruct (String.compare s s0) eqn:E; simpl; auto.
    apply String.compare_eq_iff in E. subst. now rewrite String.eqb_refl in Hne.
Qed.

Lemma insert_desc_perm (x : row) (l : list row) :
  Permutation (x :: l) (insert_desc x l).
Proof.
  induction l as [|y l IH]; simpl; auto.
  destruct (key_lt (row_height x) (row_height y)) as [[|]|]; auto.
  rewrite perm_swap. auto.
Qed.

Lemma sort_desc_perm (l : list row) : Permutation l (sort_desc l).
Proof.
  induction l as [|x l IH]; simpl; auto.
  rewrite <- insert_desc_perm. auto.
Qed.

Lemma taller_trans (r1 r2 r3 : row) : taller r1 r2 -> taller r2 r3 -> taller r1 r3.
Proof. unfold taller. eauto using key_lt_trans. Qed.

Lemma insert_desc_sorted (x : row) (l : list row) :
  StronglySorted taller l ->
  Forall (fun y => taller x y \/ taller y x) l ->
  StronglySorted taller (insert_desc x l).
Proof.
  intros Hs. induction Hs as [|y l Hs IH Hy]; intros Hx; simpl.
  - repeat constructor.
  - inversion Hx as [|? ? Hxy Hxl]; subst.
    destruct (key_lt (row_height x) (row_height y)) as [[|]|] eqn:E.
    + constructor; auto.
      apply (Permutation_Forall (insert_desc_perm x l)). constructor; auto.
    + destruct Hxy as [Hxy|Hxy]; [|unfold taller in Hxy; congruence].
      constructor; [constructor; auto|]. constructor; auto.
      eapply Forall_impl; [|exact Hy]. eauto using taller_trans.
    + destruct Hxy as [Hxy|Hxy]; [|unfold taller in Hxy; congruence].
      constructor; [constructor; auto|]. constructor; auto.
      eapply Forall_impl; [|exact Hy]. eauto using taller_trans.
Qed.

Lemma distinct_heights_perm (l l' : list row) :
  Permutation l l' -> distinct_heights l -> distinct_heights l'.
Proof.
  unfold distinct_heights. intros HP. induction HP; intros H; auto.
  - inversion H; subst. constructor; auto.
    eapply Permutation_Forall; eauto.
  - inversion H as [|? ? Hy Hr]; subst. inversion Hr as [|? ? Hx Hl]; subst.
    inversion Hy; subst. constructor.
    + constructor; [now rewrite key_eq_sym|auto].
    + constructor; auto.
Qed.

Lemma sort_desc_sorted (l : list row) :
  comparable_heights l -> distinct_heights l -> StronglySorted taller (sort_desc l).
Proof.
  intros Hc Hd. induction Hd as [|x l Hx Hd IH]; simpl; [constructor|].
  assert (Hc' : comparable_heights l).
  { destruct Hc as [Hc|Hc]; inversion Hc; [left|right]; auto. }
  apply insert_desc_sorted; auto.
  apply (Permutation_Forall (sort_desc_perm l)).
  rewrite Forall_forall in *. intros y Hy.
  destruct (key_lt_total (row_height y) (row_height x)) as [H|H]; auto.
  - destruct Hc as [Hc|Hc]; inversion Hc as [|? ? Hcx Hcl]; subst;
      rewrite Forall_forall in Hcl; auto.
  - rewrite key_eq_sym. auto.
Qed.

Lemma sort_rows_Ok (l l' : list row) :
  sort_rows l = Ok l' -> comparable_heights l /\ l' = sort_desc l.
Proof.
  unfold sort_rows, comparable_heights.
  destruct (forallb (fun r => is_num (row_height r)) l) eqn:E1; simpl.
  - intros [= <-]. rewrite forallb_forall in E1. split; auto.
    left. now apply Forall_forall.
  - destruct (forallb (fun r => is_str (row_height r)) l) eqn:E2; try discriminate.
    intros [= <-]. rewrite forallb_forall in E2. split; auto.
    right. now apply Forall_forall.
Qed.

(** ** The rows *)

Section RowFacts.

Variable float_repr : Q -> string.
Variable container_str : json -> string.
Variable list_gt : list json -> list json -> result bool.

Local Abbreviation render_row := (render_row float_repr container_str).
Local Abbreviation render_step := (render_step float_repr container_str).
Local Abbreviation table_of_list := (table_of_list float_repr container_str list_gt).

Lemma get_default_Ok (f : json) (k : string) (default v : json) :
  get_default f k default = Ok v -> is_dict f = true /\ v = field_default f k default.
Proof. destruct f; try discriminate. simpl. intros [= <-]. auto. Qed.

Lemma render_row_Ok (h f : json) (r : row) (b : bool) :
  render_row h f = Ok (r, b) ->
  is_dict f = true /\ row_height r = h /\
  row_value r = field_default f "format_id" (JStr "N/A") /\
  hashable (row_value r) = true /\
  b = negb (eq_str (field_default f "acodec" (JStr "none")) "none").
Proof.
  unfold render_row. intros H.
  apply bind_Ok in H as (f_id & H1 & H). apply get_default_Ok in H1 as [Hd ->].
  apply bind_Ok in H as (width & _ & H).
  apply bind_Ok in H as (fps0 & _ & H).
  apply bind_Ok in H as (ext & _ & H).
  apply bind_Ok in H as (acodec & H2 & H). apply get_default_Ok in H2 as [_ ->].
  destruct (hashable (field_default f "format_id" (JStr "N/A"))) eqn:Eh;
    simpl in H; try discriminate.
  apply bind_Ok in H as (fs & _ & H).
  apply bind_Ok in H as (fsa & _ & H).
  apply bind_Ok in H as (size_str & _ & H).
  apply bind_Ok in H as (c_id & _ & H).
  apply bind_Ok in H as (c_fps & _ & H).
  apply bind_Ok in H as (c_ext & _ & H).
  injection H as <- <-. simpl. auto.
Qed.

(** The rendering loop renders the entries one by one, in order. *)
Lemma render_loop_Ok (u : pydict json) (st st' : list row * pydict bool) :
  foldM render_step u st = Ok st' ->
  exists xs,
    Forall2 (fun e x => render_row (fst e) (snd e) = Ok x) u xs /\
    fst st' = fst st ++ map fst xs /\
    snd st' = audio_map xs (snd st).
Proof.
  revert st. induction u as [|[h f] u IH]; intros [rows m]; simpl.
  - intros [= <-]. exists []. simpl. rewrite app_nil_r. auto.
  - intros H. apply bind_Ok in H as (st1 & H1 & H).
    apply bind_Ok in H1 as ([r b] & Hr & H1). injection H1 as <-.
    destruct (IH _ H) as (xs & HF & Hrows & Hm). simpl in *.
    exists ((r, b) :: xs). simpl. rewrite Hrows, <- app_assoc. auto.
Qed.

Lemma table_of_list_Ok (fs : list json) (rows : list row) (m : pydict bool) :
  table_of_list fs = Ok (rows, m) ->
  exists u xs,
    select_formats list_gt fs = Ok u /\
    Forall2 (fun e x => render_row (fst e) (snd e) = Ok x) u xs /\
    comparable_heights (map fst xs) /\
    rows = sort_desc (map fst xs) /\
    m = audio_map xs [].
Proof.
  unfold table_of_list. intros H.
  apply bind_Ok in H as (u & Hu & H).
  apply bind_Ok in H as (st & Hst & H).
  apply bind_Ok in H as (rows' & Hs & H). injection H as <- <-.
  apply render_loop_Ok in Hst as (xs & HF & Hrows & Hm). simpl in *.
  apply sort_rows_Ok in Hs as [Hc ->]. rewrite Hrows in *.
  exists u, xs. auto.
Qed.

Lemma rendered_heights (u : pydict json) (xs : list (row * bool)) :
  Forall2 (fun e x => render_row (fst e) (snd e) = Ok x) u xs ->
  map row_height (map fst xs) = map fst u.
Proof.
  induction 1 as [|[h f] [r b] u xs H HF IH]; simpl; auto.
  apply render_row_Ok in H as (_ & -> & _). now rewrite IH.
Qed.

Lemma distinct_heights_keys (l : list row) (u : pydict json) :
  map row_height l = map fst u -> distinct_keys u -> distinct_heights l.
Proof.
  intros E Hd. revert l E.
  induction Hd as [|[h f] u Hh Hd IH]; intros [|r l]; try discriminate;
    [constructor|].
  simpl. intros [= <- E]. constructor; [|now apply IH].
  rewrite Forall_forall in *. intros r' Hr'.
  apply (in_map row_height) in Hr'. rewrite E in Hr'.
  apply in_map_iff in Hr' as ([h' f'] & <- & Hin). apply (Hh _ Hin).
Qed.

(** A row of the table renders an entry of [unique_resolutions]. *)
Lemma table_row_entry (fs : list json) (rows : list row) (m : pydict bool) (r : row) :
  table_of_list fs = Ok (rows, m) -> In r rows ->
  exists u f b,
    select_formats list_gt fs = Ok u /\ In (row_height r, f) u /\
    render_row (row_height r) f = Ok (r, b).
Proof.
  intros H Hin. apply table_of_list_Ok in H as (u & xs & Hu & HF & _ & -> & _).
  apply (Permutation_in _ (Permutation_sym (sort_desc_perm _))) in Hin.
  apply in_map_iff in Hin as ([r' b] & <- & Hin). simpl.
  exists u. cut (exists f b0, In (row_height r', f) u /\
                   render_row (row_height r') f = Ok (r', b0)).
  { intros (f & b0 & ? & ?). eauto. }
  clear Hu. induction HF as [|[h f] x u xs H HF IH]; [destruct Hin|].
  destruct Hin as [->|Hin].
  - simpl in H. destruct (render_row_Ok _ _ _ _ H) as (_ & Hh & _).
    exists f, b. simpl. rewrite Hh. auto.
  - destruct (IH Hin) as (f' & b' & ? & ?). exists f', b'. simpl. auto.
Qed.

End RowFacts.

(** * The format selector *)

Section SelectorTheorems.

Variable float_repr : Q -> string.
Variable container_str : json -> string.
Variable list_gt : list json -> list json -> result bool.

Local Abbreviation render_row := (render_row float_repr container_str).
Local Abbreviation table_of_list := (table_of_list float_repr container_str list_gt).
Local Abbreviation select_formats := (select_formats list_gt).
Local Abbreviation select_step := (select_step list_gt).

Lemma table_heights (fs : list json) (rows : list row) (m : pydict bool) :
  table_of_list fs = Ok (rows, m) ->
  comparable_heights rows /\ distinct_heights rows.
Proof.
  intros H. apply table_of_list_Ok in H as (u & xs & Hu & HF & Hc & -> & _).
  assert (HP := sort_desc_perm (map fst xs)). split.
  - destruct Hc as [Hc|Hc]; [left|right]; eapply Permutation_Forall; eauto.
  - apply (distinct_heights_perm _ _ HP).
    apply (distinct_heights_keys _ u).
    + eapply rendered_heights; eauto.
    + apply select_formats_groups in Hu. apply Hu.
Qed.

(** C1: the table never has two rows with the same height: the heights of
    any two of its rows differ. *)
Theorem table_one_row_per_height (fs : list json) (rows : list row)
    (m : pydict bool) :
  table_of_list fs = Ok (rows, m) ->
  ForallOrdPairs
    (fun r1 r2 => key_eq (row_height r1) (row_height r2) = false) rows.
Proof.
  intros H. apply (table_heights fs rows m H).
Qed.

(** C3: the rows of the table are strictly descending by height: every row
    is taller than every row after it. *)
Theorem table_strictly_descending (fs : list json) (rows : list row)
    (m : pydict bool) :
  table_of_list fs = Ok (rows, m) -> StronglySorted taller rows.
Proof.
  intros H. destruct (table_heights fs rows m H) as [_ Hd].
  apply table_of_list_Ok in H as (u & xs & Hu & HF & Hc & -> & _).
  apply sort_desc_sorted; auto.
  apply (distinct_heights_perm _ _ (Permutation_sym (sort_desc_perm _))); auto.
Qed.

Lemma eq_int_zero_falsy (v : json) : eq_int v 0 = true -> truthy v = false.
Proof.
  unfold eq_int. destruct v as [|b|n|x|s|l|d]; simpl; try discriminate; auto.
  - destruct b; [discriminate|reflexivity].
  - intros H. apply Qeq_bool_iff in H. unfold Qeq in H. simpl in H.
    replace n with 0 by lia. reflexivity.
  - intros H. change (inject_Z 0) with 0%Q in H. now rewrite H.
Qed.

Lemma survives_has_video (f : json) : survives f = true -> ~ no_video f.
Proof.
  unfold survives. intros H (d & -> & Hv). simpl in H. now rewrite Hv in H.
Qed.

Lemma survives_has_height (f : json) : survives f = true -> ~ zero_height f.
Proof.
  unfold survives, height_key, py_or. intros H (d & v & -> & Hv & Hz).
  simpl in H. rewrite Hv in H. rewrite (eq_int_zero_falsy _ Hz) in H.
  apply andb_prop in H as [_ H]. discriminate.
Qed.

(** C4: every row of the table renders a descriptor of the input that has a
    video track and a height other than 0; a descriptor with
    [vcodec == "none"] or [height == 0] is never rendered. *)
Theorem table_excludes_audio_only (fs : list json) (rows : list row)
    (m : pydict bool) (r : row) :
  table_of_list fs = Ok (rows, m) -> In r rows ->
  exists f b,
    In f fs /\ render_row (row_height r) f = Ok (r, b) /\
    ~ no_video f /\ ~ zero_height f.
Proof.
  intros H Hin.
  destruct (table_row_entry _ _ _ _ _ _ _ H Hin) as (u & f & b & Hu & Hf & Hr).
  apply select_formats_groups in Hu as (_ & Hval & _).
  destruct (Hval _ _ Hf) as (_ & _ & _ & _ & Hs & _ & Hfs).
  exists f, b. auto using survives_has_video, survives_has_height.
Qed.

(** C2: the record kept for a height has the greatest frame rate among the
    surviving records of that height, and it is the first of the input
    that has it: the surviving records of the same height before it have a
    strictly smaller frame rate, those after it none greater. *)
Theorem table_keeps_highest_frame_rate (fs : list json) (rows : list row)
    (m : pydict bool) (r : row) :
  Forall numeric_rate fs ->
  table_of_list fs = Ok (rows, m) -> In r rows ->
  exists f b before after,
    fs = before ++ f :: after /\
    render_row (row_height r) f = Ok (r, b) /\
    survives f = true /\ key_eq (row_height r) (height_key f) = true /\
    (forall g, In g before -> survives g = true ->
       key_eq (height_key g) (row_height r) = true -> (rate g < rate f)%Q) /\
    (forall g, In g after -> survives g = true ->
       key_eq (height_key g) (row_height r) = true -> (rate g <= rate f)%Q).
Proof.
  intros Hnum H Hin.
  destruct (table_row_entry _ _ _ _ _ _ _ H Hin) as (u & f & b & Hu & Hf & Hr).
  destruct (select_formats_best _ _ _ Hnum Hu _ _ Hf)
    as (before & after & -> & Hb & Ha).
  apply select_formats_groups in Hu as (_ & Hval & _).
  destruct (Hval _ _ Hf) as (_ & _ & _ & _ & Hs & Hk & _).
  exists f, b, before, after. auto 10.
Qed.

End SelectorTheorems.

(** *** Missing and null members *)

Section MissingMembers.

Variable list_gt : list json -> list json -> result bool.


Lemma numeric_entries_set (k f : json) (u : pydict json) :
  is_dict f = true -> is_num (frame_rate f) = true ->
  numeric_entries u -> numeric_entries (dict_set k f u).
Proof.
  intros Hd Hn Hu. induction Hu as [|[k0 e] u He Hu IH]; simpl.
  - repeat constructor; auto.
  - destruct (key_eq k0 k); constructor; auto.
Qed.

Lemma number_or_missing_or (v : json) :
  number_or_missing v = true -> is_num (py_or v (JInt 0)) = true.
Proof. unfold py_or. destruct v; simpl; try discriminate; auto. destruct b; auto.
  all: match goal with |- context [if ?c then _ else _] => destruct c end; auto.
Qed.

Lemma is_num_hashable (v : json) : is_num v = true -> hashable v = true.
Proof. destruct v; simpl; auto; discriminate. Qed.

Lemma py_gt_total (a b : json) :
  is_num a = true -> is_num b = true -> exists r, py_gt list_gt a b = Ok r.
Proof.
  unfold is_num, py_gt. destruct (num_of a), (num_of b); try discriminate. eauto.
Qed.

Lemma select_step_total (u : pydict json) (f : json) :
  loop_input f -> numeric_entries u ->
  exists u', select_step list_gt u f = Ok u' /\ numeric_entries u'.
Proof.
  intros (Hd & Hh & Hf) Hu. unfold select_step.
  rewrite !(get_dict _ _ Hd). simpl.
  destruct (eq_str (field f "vcodec") "none"); [eauto|].
  fold (height_key f). destruct (eq_int (height_key f) 0); [eauto|].
  fold (frame_rate f).
  assert (Hn : is_num (frame_rate f) = true) by now apply number_or_missing_or.
  assert (Hk : hashable (height_key f) = true)
    by now apply is_num_hashable, number_or_missing_or.
  rewrite Hk. simpl.
  destruct (dict_get (height_key f) u) as [e|] eqn:E.
  - destruct (dict_get_Some _ _ _ E) as (k & Hin & _).
    assert (He := Hu). unfold numeric_entries in He. rewrite Forall_forall in He.
    destruct (He _ Hin) as [Hde Hne]. simpl in *.
    rewrite (get_dict _ _ Hde). simpl. fold (frame_rate e).
    destruct (py_gt_total _ _ Hn Hne) as [r ->]. simpl.
    destruct r; eexists; split; eauto using numeric_entries_set.
  - eexists; split; eauto using numeric_entries_set.
Qed.

Lemma select_loop_total (fs : list json) (u : pydict json) :
  Forall loop_input fs -> numeric_entries u ->
  exists u', foldM (select_step list_gt) fs u = Ok u'.
Proof.
  intros Hfs. revert u. induction Hfs as [|f fs Hf Hfs IH]; intros u Hu; simpl.
  - eauto.
  - destruct (select_step_total u f Hf Hu) as (u1 & -> & Hu1). simpl. auto.
Qed.

Lemma missing_height_key (f : json) :
  field f "height" = JNull -> height_key f = JInt 0.
Proof. unfold height_key. now intros ->. Qed.

Lemma missing_frame_rate (f : json) :
  field f "fps" = JNull -> frame_rate f = JInt 0.
Proof. unfold frame_rate. now intros ->. Qed.

Lemma dict_get_unhashable {V : Type} (k : json) (d : pydict V) :
  hashable k = false -> dict_get k d = None.
Proof.
  intros Hk. induction d as [|[k0 v0] d IH]; simpl; auto.
  replace (key_eq k0 k) with false; auto.
  unfold key_eq. destruct k; try discriminate; simpl;
    destruct (num_of k0); auto; destruct k0; auto.
Qed.

Lemma select_step_skip (u : pydict json) (f : json) :
  is_dict f = true -> survives f = false -> select_step list_gt u f = Ok u.
Proof.
  intros Hd Hs. unfold select_step. rewrite !(get_dict _ _ Hd). simpl.
  unfold survives in Hs. destruct (eq_str (field f "vcodec") "none"); auto.
  fold (height_key f). simpl in Hs. apply negb_false_iff in Hs. now rewrite Hs.
Qed.

(** The selection loop goes through every list of descriptors whose
    height and frame rate are numbers, null or absent.  A descriptor
    without a height (absent or null) is filed under 0 and left out: the
    loop passes it by, and no record of the result lacks a height.  A
    descriptor without a frame rate has the frame rate 0: it never takes
    the place of a kept record of its height whose frame rate is 0 or
    more. *)
Theorem selection_total_on_missing_members (fs : list json) :
  Forall loop_input fs ->
  (exists u, select_formats list_gt fs = Ok u /\
     forall h f, In (h, f) u -> field f "height" <> JNull) /\
  (forall f, In f fs -> field f "height" = JNull ->
     height_key f = JInt 0 /\ forall u, select_step list_gt u f = Ok u) /\
  (forall f, In f fs -> field f "fps" = JNull ->
     frame_rate f = JInt 0 /\
     forall u e, dict_get (height_key f) u = Some e -> is_dict e = true ->
       is_num (frame_rate e) = true -> (0 <= rate e)%Q ->
       select_step list_gt u f = Ok u).
Proof.
  intros Hfs. split; [|split].
  - destruct (select_loop_total fs [] Hfs) as [u Hu]; [constructor|].
    exists u. split; auto. intros h f Hin Hnull.
    apply select_formats_groups in Hu as (_ & Hval & _).
    destruct (Hval _ _ Hin) as (_ & _ & _ & _ & Hs & _).
    unfold survives in Hs. rewrite (missing_height_key _ Hnull) in Hs.
    simpl in Hs. now rewrite andb_false_r in Hs.
  - intros f Hin Hnull. split; [now apply missing_height_key|]. intros u.
    rewrite Forall_forall in Hfs. destruct (Hfs _ Hin) as (Hd & _).
    apply select_step_skip; auto.
    unfold survives. rewrite (missing_height_key _ Hnull). simpl.
    apply andb_false_r.
  - intros f Hin Hnull. split; [now apply missing_frame_rate|].
    intros u e He Hde Hne Hpos.
    rewrite Forall_forall in Hfs. destruct (Hfs _ Hin) as (Hd & _).
    destruct (survives f) eqn:Hs; [|now apply select_step_skip].
    unfold select_step. rewrite !(get_dict _ _ Hd). simpl.
    unfold survives in Hs. apply andb_prop in Hs as [Hv Hh].
    apply negb_true_iff in Hv, Hh. rewrite Hv. fold (height_key f).
    rewrite Hh. fold (frame_rate f). rewrite (missing_frame_rate _ Hnull).
    destruct (hashable (height_key f)) eqn:Hk; simpl.
    + rewrite He. rewrite (get_dict _ _ Hde). simpl. fold (frame_rate e).
      unfold py_gt, rate, is_num in *. simpl.
      destruct (num_of (frame_rate e)) as [y|]; try discriminate. simpl.
      replace (Qgtb (inject_Z 0) y) with false; auto.
      symmetry. now apply Qgtb_le.
    + rewrite dict_get_unhashable in He; [discriminate|assumption].
Qed.

End MissingMembers.

(** * The URL classifier *)

Lemma append_assoc (a b c : string) : ((a ++ b) ++ c = a ++ (b ++ c))%string.
Proof. induction a as [|x a IH]; simpl; congruence. Qed.

(** [re_rests] lists exactly the rests after a matched beginning. *)
Lemma re_rests_spec (r : regex) (s rest : string) :
  In rest (re_rests r s) <-> exists w, matches r w /\ s = (w ++ rest)%string.
Proof.
  revert s rest. induction r as [|c|a IHa b IHb|a IHa]; intros s rest; simpl.
  - split.
    + intros [<-|[]]. exists ""%string. split; [constructor|reflexivity].
    + intros (w & Hw & ->). inversion Hw; subst. simpl. auto.
  - split.
    + destruct s as [|c' s']; [intros []|].
      destruct (Ascii.eqb_spec c c') as [<-|Hne]; [|intros []].
      intros [<-|[]]. exists (String c ""). split; [constructor|reflexivity].
    + intros (w & Hw & ->). inversion Hw; subst. simpl.
      rewrite Ascii.eqb_refl. simpl. auto.
  - rewrite in_flat_map. split.
    + intros (mid & Hmid & Hrest).
      apply IHa in Hmid as (u & Hu & ->). apply IHb in Hrest as (v & Hv & ->).
      exists (u ++ v)%string. split; [now constructor|].
      now rewrite append_assoc.
    + intros (w & Hw & ->). inversion Hw; subst.
      exists (v ++ rest)%string. split.
      * apply IHa. exists u. split; auto. now rewrite append_assoc.
      * apply IHb. eauto.
  - rewrite in_app_iff. split.
    + intros [H|[<-|[]]].
      * apply IHa in H as (w & Hw & ->). exists w. split; [now constructor|auto].
      * exists ""%string. split; [apply matches_opt_none|reflexivity].
    + intros (w & Hw & ->). inversion Hw; subst.
      * left. apply IHa. eauto.
      * right. simpl. auto.
Qed.

Lemma re_match_spec (r : regex) (text : string) :
  re_match r text = true <->
  exists w rest, matches r w /\ text = (w ++ rest)%string.
Proof.
  unfold re_match. split.
  - destruct (re_rests r text) as [|rest l] eqn:E; [discriminate|]. intros _.
    assert (H : In rest (re_rests r text)) by (rewrite E; now left).
    apply re_rests_spec in H as (w & ? & ?). eauto.
  - intros (w & rest & Hw & Ht).
    assert (H : In rest (re_rests r text)) by (apply re_rests_spec; eauto).
    destruct (re_rests r text); [destruct H|reflexivity].
Qed.

Lemma matches_literal (p w : string) : matches (literal p) w <-> w = p.
Proof.
  revert w. induction p as [|c p IH]; intros w; simpl.
  - split; [intros H; now inversion H|intros ->; constructor].
  - split.
    + intros H. inversion H as [| |? ? u v Hu Hv| |]; subst.
      inversion Hu; subst. apply IH in Hv. subst. reflexivity.
    + intros ->. apply (matches_cat (Lit c) (literal p) (String c "") p).
      * constructor.
      * now apply IH.
Qed.

Lemma matches_site_pattern (host w : string) :
  matches (site_pattern host) w <-> In w (site_prefixes host).
Proof.
  unfold site_pattern, site_prefixes. split.
  - intros H.
    inversion H as [| |? ? u1 v1 H1 H2| |]; subst; clear H.
    inversion H2 as [| |? ? u2 v2 H3 H4| |]; subst; clear H2.
    inversion H4 as [| |? ? u3 v3 H5 H6| |]; subst; clear H4.
    inversion H6 as [| |? ? u4 v4 H7 H8| |]; subst; clear H6.
    apply (proj1 (matches_literal "http" _)) in H1.
    apply (proj1 (matches_literal "://" _)) in H5.
    apply (proj1 (matches_literal (host ++ "/") _)) in H8. subst.
    inversion H3 as [| | |? ? Hs|]; subst; clear H3;
      [inversion Hs; subst; clear Hs|];
      (inversion H7 as [| | |? ? Hw|]; subst; clear H7;
       [apply (proj1 (matches_literal "www." _)) in Hw; subst|]); simpl; auto.
  - intros H.
    assert (Hhttp : matches (literal "http") "http") by now apply matches_literal.
    assert (Hsep : matches (literal "://") "://") by now apply matches_literal.
    assert (Hwww : matches (Opt (literal "www.")) "www.")
      by (apply matches_opt_some; now apply matches_literal).
    assert (Hhost : matches (literal (host ++ "/")) (host ++ "/"))
      by now apply matches_literal.
    assert (Hs : matches (Opt (Lit "s")) "s")
      by (apply matches_opt_some; constructor).
    assert (Hn : forall r, matches (Opt r) "")
      by (intros; apply matches_opt_none).
    simpl in H. destruct H as [<-|[<-|[<-|[<-|[]]]]].
    + apply (matches_cat _ _ "http" ("://" ++ host ++ "/")); auto.
      apply (matches_cat _ _ "" ("://" ++ host ++ "/")); auto.
      apply (matches_cat _ _ "://" (host ++ "/")); auto.
      apply (matches_cat _ _ "" (host ++ "/")); auto.
    + apply (matches_cat _ _ "http" ("://www." ++ host ++ "/")); auto.
      apply (matches_cat _ _ "" ("://www." ++ host ++ "/")); auto.
      apply (matches_cat _ _ "://" ("www." ++ host ++ "/")); auto.
      apply (matches_cat _ _ "www." (host ++ "/")); auto.
    + apply (matches_cat _ _ "http" ("s://" ++ host ++ "/")); auto.
      apply (matches_cat _ _ "s" ("://" ++ host ++ "/")); auto.
      apply (matches_cat _ _ "://" (host ++ "/")); auto.
      apply (matches_cat _ _ "" (host ++ "/")); auto.
    + apply (matches_cat _ _ "http" ("s://www." ++ host ++ "/")); auto.
      apply (matches_cat _ _ "s" ("://www." ++ host ++ "/")); auto.
      apply (matches_cat _ _ "://" ("www." ++ host ++ "/")); auto.
      apply (matches_cat _ _ "www." (host ++ "/")); auto.
Qed.

(** C6: the classifier is a function of the text alone that accepts
    exactly the texts that begin with one of the supported prefixes:
    [http://] or [https://], an optional [www.], one of the hosts
    youtube.com, youtu.be and svtplay.se, and [/].  It accepts
    https://youtu.be/abc123, rejects https://example.com/video, and rejects
    a text in which a supported URL comes after something else. *)
Theorem is_valid_url_anchored :
  (forall text,
     is_valid_url text = true <->
     exists p rest, In p supported_prefixes /\ text = (p ++ rest)%string) /\
  is_valid_url "https://youtu.be/abc123" = true /\
  is_valid_url "https://example.com/video" = false /\
  (forall before rest p,
     In p supported_prefixes ->
     (forall q rest', In q supported_prefixes ->
        (before ++ p ++ rest)%string <> (q ++ rest')%string) ->
     is_valid_url (before ++ p ++ rest) = false).
Proof.
  assert (Hspec : forall text,
     is_valid_url text = true <->
     exists p rest, In p supported_prefixes /\ text = (p ++ rest)%string).
  { intros text. unfold is_valid_url, patterns, supported_prefixes.
    rewrite existsb_exists. split.
    - intros (r & Hr & Hm). apply re_match_spec in Hm as (w & rest & Hw & ->).
      exists w, rest. split; auto. rewrite !in_app_iff.
      destruct Hr as [<-|[<-|[<-|[]]]]; apply matches_site_pattern in Hw; auto.
    - intros (p & rest & Hp & ->). rewrite !in_app_iff in Hp.
      destruct Hp as [Hp|[Hp|Hp]]; apply matches_site_pattern in Hp;
        eexists; (split; [|apply re_match_spec; eauto]); simpl; auto. }
  split; [exact Hspec|]. split; [reflexivity|]. split; [reflexivity|].
  intros before rest p Hp Hno.
  destruct (is_valid_url (before ++ p ++ rest)) eqn:E; auto.
  apply Hspec in E as (q & rest' & Hq & E). exfalso. eapply Hno; eauto.
Qed.

(** * The dispatch of the main loop *)

Lemma prefix_spec (p s : string) :
  String.prefix p s = true <-> exists rest, s = (p ++ rest)%string.
Proof.
  revert s. induction p as [|c p IH]; intros s.
  - destruct s; simpl; (split; [intros _; eexists; reflexivity|reflexivity]).
  - destruct s as [|c' s']; simpl.
    + split; [discriminate|]. intros (rest & H). discriminate.
    + destruct (ascii_dec c c') as [<-|Hne].
      * rewrite IH. split; intros (rest & H); exists rest; congruence.
      * split; [discriminate|]. intros (rest & H). congruence.
Qed.

(** [sub in s] holds exactly when [sub] occurs somewhere in [s]. *)
Lemma contains_spec (sub s : string) :
  contains sub s = true <->
  exists before rest, s = (before ++ sub ++ rest)%string.
Proof.
  induction s as [|c s IH].
  - cbn [contains]. rewrite orb_false_r, prefix_spec. split.
    + intros (rest & H). exists ""%string, rest. exact H.
    + intros (before & rest & H). destruct before; [eauto|discriminate].
  - cbn [contains]. rewrite orb_true_iff, prefix_spec, IH. split.
    + intros [(rest & H)|(before & rest & H)].
      * exists ""%string, rest. exact H.
      * exists (String c before), rest. simpl. now rewrite H.
    + intros (before & rest & H). destruct before as [|c' before].
      * left. eauto.
      * right. simpl in H. injection H as _ H. eauto.
Qed.

Section MainLoop.

Variable py_strip : string -> string.

Lemma dispatch_call (url : string) (h : handler) (url' : string) :
  dispatch url = Call h url' ->
  url' = url /\ (h = SvtPlay <-> contains "svtplay.se" url = true).
Proof.
  unfold dispatch. destruct (contains "svtplay.se" url); intros [= <- <-];
    split; auto; split; congruence.
Qed.

Lemma picked_In (values : list string) (answer : option nat) (v : string) :
  picked values answer = Some v -> In v values.
Proof.
  destruct answer as [i|]; simpl; [|discriminate]. apply nth_error_In.
Qed.

Lemma menu_or_dispatch_call (p : prompts) (url : string) (h : handler)
    (url' : string) :
  menu_or_dispatch p url = Call h url' ->
  url' <> ""%string /\ (h = SvtPlay <-> contains "svtplay.se" url' = true).
Proof.
  unfold menu_or_dispatch. destruct (String.eqb_spec url "") as [->|Hne].
  - destruct (picked _ (menu_answer p)) as [choice|] eqn:E; [|discriminate].
    apply picked_In in E. simpl in E.
    destruct E as [<-|[<-|[<-|[<-|[]]]]]; simpl; try discriminate.
    destruct (pasted_url p) as [u|]; [|discriminate].
    destruct (String.eqb_spec u "") as [->|Hu]; [discriminate|].
    intros H. apply dispatch_call in H as [-> H]. auto.
  - intros H. apply dispatch_call in H as [-> H]. auto.
Qed.

(** C9: a turn of the main loop that calls a handler calls it on a URL that
    is not empty, and calls the SVT Play handler exactly when "svtplay.se"
    occurs somewhere in the URL; every other URL goes to the YouTube
    handler, whatever the classifier says of it.  Every text that is not
    empty is dispatched this way when it is typed at the prompt. *)
Theorem main_dispatches_on_substring :
  (forall last_action p h url,
     main_turn py_strip last_action p = Call h url ->
     url <> ""%string /\
     (h = SvtPlay <->
      exists before rest, url = (before ++ "svtplay.se" ++ rest)%string) /\
     (h = YouTube <->
      ~ exists before rest, url = (before ++ "svtplay.se" ++ rest)%string)) /\
  (forall last_action p url,
     is_valid_url (py_strip (clipboard_content p)) = false ->
     typed_url p = Some url -> url <> ""%string ->
     main_turn py_strip last_action p =
       Call (if contains "svtplay.se" url then SvtPlay else YouTube) url).
Proof.
  split.
  - intros last_action p h url H.
    assert (Hc : url <> ""%string /\
                 (h = SvtPlay <-> contains "svtplay.se" url = true)).
    { unfold main_turn in H.
      destruct (negb (_ =? "")%string) in H.
      - destruct (picked _ (clipboard_answer p)) as [action|]; [|discriminate].
        destruct (action =? "use_clip")%string;
          [eauto using menu_or_dispatch_call|].
        destruct (action =? "new")%string;
          [|eauto using menu_or_dispatch_call].
        destruct (new_url p); [eauto using menu_or_dispatch_call|discriminate].
      - destruct (typed_url p); [eauto using menu_or_dispatch_call|discriminate]. }
    destruct Hc as [Hne Hc]. rewrite contains_spec in Hc.
    split; auto. split; auto.
    destruct h; split; try tauto; try discriminate.
    intros _ Hex. apply Hc in Hex. discriminate.
  - intros last_action p url Hclip Htyped Hne.
    unfold main_turn. rewrite Hclip, Htyped.
    replace (negb (_ =? "")%string) with false
      by (destruct last_action as [a|]; [destruct (negb (a =? "stream")%string)|];
          reflexivity).
    unfold menu_or_dispatch.
    destruct (String.eqb_spec url "") as [->|_]; [congruence|].
    unfold dispatch. destruct (contains "svtplay.se" url); reflexivity.
Qed.

End MainLoop.

(** * The download command *)

Lemma audio_map_get (xs : list (row * bool)) (m : pydict bool) (k : json)
    (b : bool) :
  (dict_get k m = Some b \/
   exists r, In (r, b) xs /\ key_eq (row_value r) k = true) ->
  (forall r' b', In (r', b') xs -> key_eq (row_value r') k = true -> b' = b) ->
  dict_get k (audio_map xs m) = Some b.
Proof.
  revert m. induction xs as [|[r0 b0] xs IH]; intros m Hin Hall; simpl.
  - destruct Hin as [H|(r & [] & _)]. exact H.
  - apply IH.
    + rewrite dict_get_set. simpl.
      destruct (key_eq (row_value r0) k) eqn:E.
      * left. f_equal. apply (Hall r0 b0); simpl; auto.
      * destruct Hin as [H|(r & [[= -> ->]|H] & Hk)]; eauto. congruence.
    + intros r' b' H. apply Hall. now right.
Qed.

Lemma distinct_heights_In (l : list row) (r r' : row) :
  distinct_heights l -> In r l -> In r' l ->
  key_eq (row_height r) (row_height r') = true -> r = r'.
Proof.
  intros Hd. induction Hd as [|x l Hx Hd IH]; simpl; [tauto|].
  rewrite Forall_forall in Hx.
  intros [<-|Hr] [<-|Hr'] E; auto.
  - rewrite (Hx _ Hr') in E. discriminate.
  - rewrite key_eq_sym, (Hx _ Hr) in E. discriminate.
Qed.

Lemma distinct_heights_functional (xs : list (row * bool)) (r : row) (b b' : bool) :
  distinct_heights (map fst xs) -> hashable (row_height r) = true ->
  In (r, b) xs -> In (r, b') xs -> b = b'.
Proof.
  intros Hd Hh. induction xs as [|[r0 b0] xs IH]; simpl; [tauto|].
  inversion Hd as [|? ? Hx Hd']; subst. rewrite Forall_forall in Hx.
  intros [[= -> ->]|H] [[= <-]|H']; auto.
  - apply (in_map fst) in H'. apply Hx in H'. simpl in H'.
    rewrite key_eq_refl in H'; auto. discriminate.
  - apply (in_map fst) in H. apply Hx in H. simpl in H.
    rewrite key_eq_refl in H; auto. discriminate.
Qed.

Section Download.

Variable float_repr : Q -> string.
Variable container_str : json -> string.
Variable list_gt : list json -> list json -> result bool.
Variable json_loads : string -> option json.
Variable COOKIE_BROWSER : option string.

Local Abbreviation render_row := (render_row float_repr container_str).
Local Abbreviation table_of_list := (table_of_list float_repr container_str list_gt).

(** [has_audio_map] answers for the picked row when no other row shares
    its format id. *)
Lemma table_audio_map (fs : list json) (rows : list row) (m : pydict bool)
    (u : pydict json) (r : row) (f : json) :
  table_of_list fs = Ok (rows, m) ->
  select_formats list_gt fs = Ok u ->
  In r rows -> In (row_height r, f) u ->
  (forall r', In r' rows ->
     key_eq (row_value r') (row_value r) = true -> r' = r) ->
  dict_get (row_value r) m = Some (negb (lacks_audio f)).
Proof.
  intros Ht Hu Hr Hf Huniq.
  destruct (table_heights _ _ _ _ _ _ Ht) as [_ Hdist].
  apply table_of_list_Ok in Ht as (u' & xs & Hu' & HF & Hc & -> & ->).
  assert (u' = u) by congruence. subst u'.
  assert (HP := sort_desc_perm (map fst xs)).
  assert (Hdx : distinct_heights (map fst xs))
    by (apply (distinct_heights_perm _ _ (Permutation_sym HP)); auto).
  apply select_formats_groups in Hu as (_ & Hval & _).
  destruct (Hval _ _ Hf) as (Hhash & _).
  (* the rendering of the entry [(row_height r, f)] is the row [r] *)
  assert (Hx : exists r0 b0, In (r0, b0) xs /\
                 render_row (row_height r) f = Ok (r0, b0)).
  { clear - HF Hf. induction HF as [|e x u xs H HF IH]; [destruct Hf|].
    destruct Hf as [->|Hf].
    - destruct x as [r0 b0]. exists r0, b0. simpl in *. auto.
    - destruct (IH Hf) as (r0 & b0 & ? & ?). exists r0, b0. simpl. auto. }
  destruct Hx as (r0 & b0 & Hin0 & Hr0).
  destruct (render_row_Ok _ _ _ _ _ _ Hr0) as (_ & Hh0 & _ & Hv0 & ->).
  assert (r0 = r).
  { apply (distinct_heights_In (sort_desc (map fst xs))); auto.
    - apply (Permutation_in _ HP). now apply (in_map fst) in Hin0.
    - rewrite Hh0. now apply key_eq_refl. }
  subst r0. apply audio_map_get.
  - right. exists r. split; auto. now apply key_eq_refl.
  - intros r' b' Hin' Hk.
    assert (r' = r).
    { apply Huniq; auto. apply (Permutation_in _ HP).
      now apply (in_map fst) in Hin'. }
    subst r'. eapply distinct_heights_functional; eauto.
Qed.

Lemma ui_select_pick (choices : list choice) (message : string) (i : nat)
    (c : choice) :
  nth_error choices i = Some c ->
  ui_select choices message (Some i) =
    ([Select (map choice_name choices) message], Ok (Some (choice_value c))).
Proof.
  intros H. unfold ui_select.
  destruct choices as [|c0 l]; [destruct i; discriminate|].
  cbn [emit io_bind ret app]. now rewrite H.
Qed.

(** C5 (amended): when the user picks a row whose format id is a string
    that is not empty and that no other row of the menu has, the download
    command asks for that id with [+bestaudio] appended if the descriptor
    kept for the row has no [acodec] or the [acodec] ["none"], and for the
    bare id if its [acodec] is anything else. *)
Theorem download_requests_best_audio (w : world) (url : string) (p : process)
    (video_data formats : json) (fs : list json) (u : pydict json)
    (rows : list row) (m : pydict bool) (i : nat) (r : row) (f : json)
    (id : string) :
  program_found w = true ->
  formats_outcome w = Some p ->
  json_loads (stdout p) = Some video_data ->
  get_default video_data "formats" (JList []) = Ok formats ->
  iterate formats = Ok fs ->
  select_formats list_gt fs = Ok u ->
  table_of_list fs = Ok (rows, m) ->
  quality_answer w = Some i -> nth_error rows i = Some r ->
  In (row_height r, f) u ->
  row_value r = JStr id -> id <> ""%string ->
  (forall r', In r' rows -> row_value r' = JStr id -> r' = r) ->
  download_video float_repr container_str list_gt json_loads COOKIE_BROWSER
      w url =
    (download_trace (cookie_args COOKIE_BROWSER) url rows
       (if lacks_audio f then id ++ "+bestaudio" else id)%string,
     Ok (Some "download"%string)).
Proof.
  intros Hprog Hout Hloads Hget Hiter Hu Ht Hans Hnth Hf Hid Hne Huniq.
  assert (Hr : In r rows) by (eapply nth_error_In; eauto).
  assert (Hm : dict_get (row_value r) m = Some (negb (lacks_audio f))).
  { eapply table_audio_map; eauto. intros r' Hr' Hk. apply Huniq; auto.
    rewrite Hid in Hk. unfold key_eq in Hk. simpl in Hk.
    destruct (row_value r') as [|b'|n|x|s|l|d]; simpl in Hk;
      try discriminate; try (destruct b'; discriminate).
    apply String.eqb_eq in Hk. congruence. }
  unfold download_video, run_command.
  rewrite Hout. cbn [emit io_bind ret app]. rewrite Hloads, Hget.
  unfold format_table. rewrite Hiter. cbn [bind]. rewrite Ht.
  cbn [lift io_bind ret app]. rewrite Hans.
  rewrite (ui_select_pick _ _ i (Choice (row_value r) (row_str r)))
    by (now apply (map_nth_error (fun r => Choice (row_value r) (row_str r)))).
  rewrite map_map. cbn [choice_name choice_value io_bind].
  rewrite Hid in *. cbn [truthy].
  replace (id =? "")%string with false by (symmetry; now apply String.eqb_neq).
  cbn [negb]. unfold ui_print, download_cmd, subprocess_run.
  rewrite Hm, Hprog. rewrite negb_involutive.
  unfold download_trace. cbn.
  destruct (lacks_audio f); reflexivity.
Qed.

End Download.

(** * Sample runs *)

Lemma table_one_row_per_height_witness :
  table_of_list sample_float_repr sample_container_str sample_list_gt
    sample_formats = Ok sample_table /\
  ForallOrdPairs
    (fun r1 r2 => key_eq (row_height r1) (row_height r2) = false)
    (fst sample_table).
Proof.
  split; [reflexivity|].
  apply (table_one_row_per_height sample_float_repr sample_container_str
           sample_list_gt sample_formats (fst sample_table) (snd sample_table)).
  reflexivity.
Defined.

Lemma table_strictly_descending_witness :
  table_of_list sample_float_repr sample_container_str sample_list_gt
    sample_formats = Ok sample_table /\
  StronglySorted taller (fst sample_table).
Proof.
  split; [reflexivity|].
  apply (table_strictly_descending sample_float_repr sample_container_str
           sample_list_gt sample_formats (fst sample_table) (snd sample_table)).
  reflexivity.
Defined.

Lemma table_excludes_audio_only_witness :
  In sample_row (fst sample_table) /\
  exists f b,
    In f sample_formats /\
    render_row sample_float_repr sample_container_str
      (row_height sample_row) f = Ok (sample_row, b) /\
    ~ no_video f /\ ~ zero_height f.
Proof.
  split; [left; reflexivity|].
  apply (table_excludes_audio_only sample_float_repr sample_container_str
           sample_list_gt sample_formats (fst sample_table) (snd sample_table)
           sample_row).
  - reflexivity.
  - left. reflexivity.
Defined.

(** Of the two 720p streams the one with 60 frames is kept, and it is the
    record the theorem describes. *)
Lemma table_keeps_highest_frame_rate_witness :
  row_value sample_row = JStr "298" /\
  exists f b before after,
    sample_formats = before ++ f :: after /\
    render_row sample_float_repr sample_container_str
      (row_height sample_row) f = Ok (sample_row, b) /\
    survives f = true /\ key_eq (row_height sample_row) (height_key f) = true /\
    (forall g, In g before -> survives g = true ->
       key_eq (height_key g) (row_height sample_row) = true ->
       (rate g < rate f)%Q) /\
    (forall g, In g after -> survives g = true ->
       key_eq (height_key g) (row_height sample_row) = true ->
       (rate g <= rate f)%Q).
Proof.
  split; [reflexivity|].
  apply (table_keeps_highest_frame_rate sample_float_repr sample_container_str
           sample_list_gt sample_formats (fst sample_table) (snd sample_table)
           sample_row).
  - repeat constructor.
  - reflexivity.
  - left. reflexivity.
Defined.

Lemma selection_total_on_missing_members_witness :
  exists u,
    select_formats sample_list_gt sample_formats = Ok u /\
    forall h f, In (h, f) u -> field f "height" <> JNull.
Proof.
  apply (selection_total_on_missing_members sample_list_gt sample_formats).
  repeat constructor.
Defined.

Lemma download_requests_best_audio_witness :
  download_video sample_float_repr sample_container_str sample_list_gt
    sample_loads None (download_run (Some (mk_process 0 sample_video_text)))
    sample_url =
  (download_trace [] sample_url
     [ mk_row "137   | 0x1080    | 0    | N/A  | 🎵:NO  | N/A" (JInt 1080) (JStr "137");
       mk_row "22    | 0x720     | 0    | N/A  | 🎵:YES | N/A" (JInt 720) (JStr "22") ]
     "137+bestaudio",
   Ok (Some "download"%string)).
Proof.
  apply (download_requests_best_audio sample_float_repr sample_container_str
           sample_list_gt sample_loads None
           (download_run (Some (mk_process 0 sample_video_text))) sample_url
           (mk_process 0 sample_video_text) sample_video
           (field sample_video "formats")
           [ sample_descriptor_137;
             JDict [("format_id", JStr "22"); ("height", JInt 720);
                    ("acodec", JStr "mp4a.40.2")] ]
           [ (JInt 1080, sample_descriptor_137);
             (JInt 720, JDict [("format_id", JStr "22"); ("height", JInt 720);
                               ("acodec", JStr "mp4a.40.2")]) ]
           _ [ (JStr "137", false); (JStr "22", true) ] 0%nat
           (mk_row "137   | 0x1080    | 0    | N/A  | 🎵:NO  | N/A" (JInt 1080) (JStr "137"))
           sample_descriptor_137 "137"%string);
    try reflexivity.
  - left. reflexivity.
  - discriminate.
  - intros r' [<-|[<-|[]]]; [reflexivity|discriminate].
Defined.

(** C5, as stated, fails: both formats of [shared_id_video] are kept, in
    rows of their own, and share the format id 22.  The user picks the
    1080p row, whose descriptor has the [acodec] ["none"], and the command
    asks for the format 22 without [+bestaudio]: [has_audio_map] holds one
    entry for the id, written last for the 720p format, which has audio. *)
Lemma shared_format_id_drops_best_audio :
  field shared_id_descriptor "acodec" = JStr "none" /\
  select_formats sample_list_gt
    [ shared_id_descriptor;
      JDict [("format_id", JStr "22"); ("height", JInt 720);
             ("acodec", JStr "mp4a.40.2")] ]
  = Ok [ (JInt 1080, shared_id_descriptor);
         (JInt 720, JDict [("format_id", JStr "22"); ("height", JInt 720);
                           ("acodec", JStr "mp4a.40.2")]) ] /\
  sample_handle_youtube (download_run (Some (mk_process 0 shared_id_video_text)))
  = (firstn 3 trace_to_formats_query ++
     download_trace [] sample_url
       [ mk_row "22    | 0x1080    | 0    | N/A  | 🎵:NO  | N/A" (JInt 1080) (JStr "22");
         mk_row "22    | 0x720     | 0    | N/A  | 🎵:YES | N/A" (JInt 720) (JStr "22") ]
       "22",
     Ok (Some "download"%string)).
Proof. repeat split. Qed.

(** C7 on the query for the formats: when [yt-dlp -J] exits with status 1
    and no output, or is not found, [handle_youtube] returns after the
    query without a word to the user; and it does not look at the exit
    status: output that parses leads to the quality menu and the download
    even with status 1. *)
Theorem formats_query_failure_not_reported :
  sample_handle_youtube (download_run (Some (mk_process 1 "")))
    = (trace_to_formats_query, Ok None) /\
  sample_handle_youtube (download_run None)
    = (trace_to_formats_query, Ok None) /\
  sample_handle_youtube (download_run (Some (mk_process 1 sample_video_text)))
    = sample_handle_youtube (download_run (Some (mk_process 0 sample_video_text))) /\
  snd (sample_handle_youtube (download_run (Some (mk_process 1 sample_video_text))))
    = Ok (Some "download"%string).
Proof. repeat split. Qed.

(** * The layout of a row *)

Lemma py_len_append (a b : string) : py_len (a ++ b) = (py_len a + py_len b)%nat.
Proof.
  induction a as [|c a IH]; simpl; auto.
  destruct (is_continuation c); simpl; now rewrite IH.
Qed.

Lemma py_len_spaces (k : nat) : py_len (spaces k) = k.
Proof. induction k as [|k IH]; simpl; auto. Qed.

Lemma ljust_padded (w : nat) (text : string) : padded w text (ljust w text).
Proof.
  unfold padded, ljust. split; [eauto|].
  rewrite py_len_append, py_len_spaces. lia.
Qed.







Section RowLayout.

Variable float_repr : Q -> string.
Variable container_str : json -> string.

Lemma format_left_padded (w : nat) (v : json) :
  formattable v = true ->
  exists c, format_left float_repr w v = Ok c /\
            padded w (cell_text float_repr v) c.
Proof.
  destruct v; try discriminate; intros _; simpl; eauto using ljust_padded.
Qed.

Lemma formattable_hashable (v : json) : formattable v = true -> hashable v = true.
Proof. destruct v; auto. Qed.

(** The row of a record whose columns can be formatted. *)
Lemma render_row_columns (h f : json) (c_id c_fps c_ext size : string) :
  is_dict f = true ->
  format_left float_repr 5 (field_default f "format_id" (JStr "N/A")) = Ok c_id ->
  format_left float_repr 4 (frame_rate f) = Ok c_fps ->
  format_left float_repr 4 (field_default f "ext" (JStr "N/A")) = Ok c_ext ->
  size_column (size_of f) = Ok size ->
  render_row float_repr container_str h f =
    Ok (mk_row
          (c_id ++ " | "
             ++ ljust 9 (py_str float_repr container_str
                           (field_default f "width" (JInt 0))
                         ++ "x" ++ py_str float_repr container_str h)
             ++ " | " ++ c_fps ++ " | " ++ c_ext ++ " | 🎵:"
             ++ (if negb (lacks_audio f) then "YES" else "NO ")
             ++ " | " ++ size)%string
          h (field_default f "format_id" (JStr "N/A")),
        negb (lacks_audio f)).
Proof.
  intros Hd Ec_id Ec_fps Ec_ext Es.
  destruct f as [| | | | | |d]; try discriminate.
  assert (Hh : hashable (field_default (JDict d) "format_id" (JStr "N/A")) = true).
  { destruct (field_default (JDict d) "format_id" (JStr "N/A"));
      try reflexivity; discriminate. }
  unfold render_row. cbn [get get_default bind].
  change (match lookup "format_id" d with Some v => v | None => JStr "N/A" end)
    with (field_default (JDict d) "format_id" (JStr "N/A")).
  change (match lookup "ext" d with Some v => v | None => JStr "N/A" end)
    with (field_default (JDict d) "ext" (JStr "N/A")).
  change (match lookup "acodec" d with Some v => v | None => JStr "none" end)
    with (field_default (JDict d) "acodec" (JStr "none")).
  change (match lookup "width" d with Some v => v | None => JInt 0 end)
    with (field_default (JDict d) "width" (JInt 0)).
  change (py_or (match lookup "fps" d with Some v => v | None => JNull end) (JInt 0))
    with (frame_rate (JDict d)).
  change (py_or (match lookup "filesize" d with Some v => v | None => JNull end)
                (match lookup "filesize_approx" d with Some v => v | None => JNull end))
    with (size_of (JDict d)).
  rewrite Hh. cbn [negb]. rewrite Es, Ec_id, Ec_fps, Ec_ext. reflexivity.
Qed.

Lemma size_column_total (f : json) :
  (truthy (size_of f) = true -> exists q, div_mib (size_of f) = Ok q) ->
  exists size, size_column (size_of f) = Ok size.
Proof.
  intros H. unfold size_column. destruct (truthy (size_of f)); [|eauto].
  destruct H as [q ->]; simpl; eauto.
Qed.

Lemma render_row_total (h f : json) :
  renderable f -> exists x, render_row float_repr container_str h f = Ok x.
Proof.
  intros (Hd & Hid & Hfps & Hext & Hsize).
  destruct (format_left_padded 5 _ Hid) as (c_id & Ec_id & _).
  destruct (format_left_padded 4 _ Hfps) as (c_fps & Ec_fps & _).
  destruct (format_left_padded 4 _ Hext) as (c_ext & Ec_ext & _).
  destruct (size_column_total f Hsize) as (size & Es).
  rewrite (render_row_columns h f _ _ _ _ Hd Ec_id Ec_fps Ec_ext Es). eauto.
Qed.


End RowLayout.


(** The row of the sample record: a frame rate of five characters widens
    its column, and 262144 bytes are a quarter of a MiB, shown as 0.2. *)
Example sample_row_298 :
  render_row sample_float_repr sample_container_str (JInt 720)
    sample_descriptor_298
  = Ok (mk_row "298   | 1280x720  | 59.94 | mp4  | 🎵:NO  | 0.2MiB"
               (JInt 720) (JStr "298"), false).
Proof. reflexivity. Qed.

(** * The selector on well-formed descriptors *)

Section Totality.

Variable float_repr : Q -> string.
Variable container_str : json -> string.
Variable list_gt : list json -> list json -> result bool.

Lemma render_loop_total (u : pydict json) (st : list row * pydict bool) :
  (forall h f, In (h, f) u -> renderable f) ->
  exists st', foldM (render_step float_repr container_str) u st = Ok st'.
Proof.
  revert st. induction u as [|[h f] u IH]; intros [rows m] Hu; simpl.
  - eauto.
  - destruct (render_row_total float_repr container_str h f) as ([r b] & Hr);
      [apply (Hu h f); now left|].
    rewrite Hr. simpl. apply IH. intros h' f' Hin. apply (Hu h' f'). now right.
Qed.

Lemma key_eq_num (a b : json) :
  key_eq a b = true -> is_num b = true -> is_num a = true.
Proof.
  unfold key_eq, is_num. destruct (num_of a), (num_of b); auto; discriminate.
Qed.

(** X3: the selector returns a table for every list of descriptors that the
    selection loop and the rendering loop accept one by one: nothing else
    can go wrong, numeric heights always sort. *)
Lemma table_of_list_total (fs : list json) :
  Forall loop_input fs -> Forall renderable fs ->
  exists rows m,
    table_of_list float_repr container_str list_gt fs = Ok (rows, m).
Proof.
  intros Hloop Hrender.
  destruct (select_loop_total list_gt fs [] Hloop) as [u Hu]; [constructor|].
  assert (Hg := select_formats_groups list_gt fs u Hu).
  destruct Hg as (_ & Hval & _).
  rewrite Forall_forall in Hloop, Hrender.
  destruct (render_loop_total u ([], [])) as [st Hst].
  { intros h f Hin. apply Hrender. apply (Hval h f Hin). }
  unfold table_of_list, select_formats. rewrite Hu. cbn [bind]. rewrite Hst.
  cbn [bind].
  destruct (render_loop_Ok _ _ _ _ _ Hst) as (xs & HF & Hrows & _).
  simpl in Hrows. unfold sort_rows.
  replace (forallb (fun r => is_num (row_height r)) (fst st)) with true.
  { simpl. eauto. }
  symmetry. apply forallb_forall. intros r Hr.
  rewrite Hrows in Hr. apply (in_map row_height) in Hr.
  rewrite (rendered_heights _ _ _ _ HF) in Hr.
  apply in_map_iff in Hr as ([h f] & <- & Hin). simpl.
  destruct (Hval h f Hin) as (_ & _ & _ & _ & _ & Hk & Hfs).
  apply (key_eq_num _ _ Hk).
  destruct (Hloop f Hfs) as (_ & Hh & _).
  now apply number_or_missing_or.
Qed.

End Totality.

(** * Failing metadata queries *)

Section Queries.

Variable float_repr : Q -> string.
Variable container_str : json -> string.
Variable list_gt : list json -> list json -> result bool.
Variable py_strip : string -> string.
Variable json_loads : string -> option json.
Variable COOKIE_BROWSER : option string.

(** The query for the video info reports its failure: a missing program or
    an exit status other than 0 ends [handle_youtube] with a message, and
    with the tip when no cookie browser is set. *)
Lemma info_query_failure_reported (w : world) (url : string) :
  info_outcome w = None \/
  (exists p, info_outcome w = Some p /\ returncode p <> 0) ->
  handle_youtube float_repr container_str list_gt py_strip json_loads
    COOKIE_BROWSER w url =
  ([ Status "[bold green]Fetching video info...";
     RunCommand (["yt-dlp"; "--flat-playlist"; "--dump-json"; "--no-warnings"]
                   ++ cookie_args COOKIE_BROWSER ++ [url]);
     Print "Could not retrieve information for the URL." "red" ]
     ++ (if no_cookie_browser COOKIE_BROWSER
         then [Print "Tip: Try selecting a browser for cookies in the main menu."
                 "yellow"]
         else []),
   Ok None).
Proof.
  intros H. unfold handle_youtube, run_command.
  cbn [emit io_bind ret app].
  assert (E : match info_outcome w with
              | Some p => negb (returncode p =? 0)
              | None => true
              end = true).
  { destruct H as [->|(p & -> & Hp)]; auto.
    apply negb_true_iff. now apply Z.eqb_neq. }
  destruct (info_outcome w) as [p|]; [rewrite E|];
    unfold ui_print; cbn [emit io_bind ret app];
    destruct (no_cookie_browser COOKIE_BROWSER); reflexivity.
Qed.

(** So does unparseable output of that query. *)
Lemma info_parse_failure_reported (w : world) (url : string) (p : process) :
  info_outcome w = Some p -> returncode p = 0 ->
  json_loads (first_line (py_strip (stdout p))) = None ->
  handle_youtube float_repr container_str list_gt py_strip json_loads
    COOKIE_BROWSER w url =
  ([ Status "[bold green]Fetching video info...";
     RunCommand (["yt-dlp"; "--flat-playlist"; "--dump-json"; "--no-warnings"]
                   ++ cookie_args COOKIE_BROWSER ++ [url]);
     Print "Could not parse video information." "red" ],
   Ok None).
Proof.
  intros Hw Hp Hj. unfold handle_youtube, run_command.
  cbn [emit io_bind ret app]. rewrite Hw, Hp, Hj. reflexivity.
Qed.

(** The query for the formats does not: a missing program or unparseable
    output ends the download branch after the query, with nothing shown. *)
Lemma formats_query_failure_silent (w : world) (url : string) :
  formats_outcome w = None \/
  (exists p, formats_outcome w = Some p /\ json_loads (stdout p) = None) ->
  download_video float_repr container_str list_gt json_loads COOKIE_BROWSER
    w url =
  ([ Status "[bold green]Fetching available formats...";
     RunCommand (["yt-dlp"; "-J"] ++ cookie_args COOKIE_BROWSER ++ [url]) ],
   Ok None).
Proof.
  intros [H|(p & H & Hj)]; unfold download_video, run_command;
    cbn [emit io_bind ret app]; rewrite H; [|rewrite Hj]; reflexivity.
Qed.

End Queries.

(** * More of the format selector *)

Section SelectorCoverage.

Variable float_repr : Q -> string.
Variable container_str : json -> string.
Variable list_gt : list json -> list json -> result bool.

(** X1: the table leaves no height out: every descriptor of the input
    with a video track and a height other than 0 finds a row of its
    height. *)
Theorem table_shows_every_height (fs : list json) (rows : list row)
    (m : pydict bool) (f : json) :
  table_of_list float_repr container_str list_gt fs = Ok (rows, m) ->
  In f fs -> survives f = true ->
  exists r, In r rows /\ key_eq (row_height r) (height_key f) = true.
Proof.
  intros H Hin Hs.
  apply table_of_list_Ok in H as (u & xs & Hu & HF & _ & -> & _).
  apply select_formats_groups in Hu as (_ & _ & Hall).
  specialize (Hall f Hin Hs).
  destruct (dict_get (height_key f) u) as [e|] eqn:E; [clear Hall|congruence].
  apply dict_get_Some in E as (k & Hk & Hkey).
  assert (Hr : In k (map row_height (map fst xs))).
  { rewrite (rendered_heights _ _ _ _ HF). apply in_map_iff.
    exists (k, e). auto. }
  apply in_map_iff in Hr as (r & <- & Hr).
  exists r. split; auto.
  eapply Permutation_in; [apply sort_desc_perm|]; auto.
Qed.

Lemma select_loop_filter (fs : list json) (u : pydict json) :
  Forall (fun f => is_dict f = true) fs ->
  foldM (select_step list_gt) (filter survives fs) u
  = foldM (select_step list_gt) fs u.
Proof.
  intros H. revert u. induction H as [|f fs Hd _ IH]; intros u; simpl; auto.
  destruct (survives f) eqn:Hs; simpl.
  - destruct (select_step list_gt u f); simpl; auto.
  - rewrite (select_step_skip list_gt u f Hd Hs). simpl. auto.
Qed.

(** X2: the descriptors that the two filters of the selection loop pass by
    have no influence on the table: without them the selector gives the
    same rows, the same [has_audio_map], or the same exception. *)
Theorem table_ignores_excluded (fs : list json) :
  Forall (fun f => is_dict f = true) fs ->
  table_of_list float_repr container_str list_gt (filter survives fs)
  = table_of_list float_repr container_str list_gt fs.
Proof.
  intros H. unfold table_of_list, select_formats.
  now rewrite select_loop_filter.
Qed.

(** Nothing is kept of descriptors that all lack a video track or a
    height. *)
Lemma table_of_nothing (fs : list json) :
  Forall (fun f => is_dict f = true /\ survives f = false) fs ->
  table_of_list float_repr container_str list_gt fs = Ok ([], []).
Proof.
  intros H. unfold table_of_list, select_formats.
  replace (foldM (select_step list_gt) fs []) with (Ok (@nil (json * json))).
  { reflexivity. }
  symmetry. generalize (@nil (json * json)) as u.
  induction H as [|f fs [Hd Hs] _ IH]; intros u; simpl; auto.
  rewrite (select_step_skip list_gt u f Hd Hs). simpl. auto.
Qed.

End SelectorCoverage.

Lemma table_of_list_total_witness :
  exists rows m,
    table_of_list sample_float_repr sample_container_str sample_list_gt
      sample_formats = Ok (rows, m).
Proof.
  apply (table_of_list_total sample_float_repr sample_container_str
           sample_list_gt sample_formats).
  - repeat constructor.
  - repeat (apply Forall_cons || apply Forall_nil);
      unfold renderable; repeat split; try reflexivity;
      try (intros _; eexists; reflexivity); discriminate.
Defined.

(** * More of the download branch *)

Section DownloadCoverage.

Variable float_repr : Q -> string.
Variable container_str : json -> string.
Variable list_gt : list json -> list json -> result bool.
Variable json_loads : string -> option json.
Variable COOKIE_BROWSER : option string.

(** X4: when no format of the answer has both a video track and a height
    (an empty list, or no member [formats] at all, are such answers), the
    download branch ends after the query: no menu, no message, no
    download, and the result None. *)
Theorem download_without_video_is_silent (w : world) (url : string)
    (p : process) (video_data : json) (fs : list json) :
  formats_outcome w = Some p -> json_loads (stdout p) = Some video_data ->
  is_dict video_data = true ->
  field_default video_data "formats" (JList []) = JList fs ->
  Forall (fun f => is_dict f = true /\ survives f = false) fs ->
  download_video float_repr container_str list_gt json_loads COOKIE_BROWSER
    w url
  = (formats_query (cookie_args COOKIE_BROWSER) url, Ok None).
Proof.
  intros Hw Hj Hd Hf Hfs. unfold download_video, run_command.
  cbn [emit io_bind ret app]. rewrite Hw, Hj.
  destruct video_data as [| | | | | |d]; try discriminate.
  simpl in Hf. cbn [get_default]. rewrite Hf.
  unfold format_table. cbn [iterate bind].
  rewrite (table_of_nothing _ _ _ _ Hfs). reflexivity.
Qed.

(** X5: an answer of the query that the branch cannot use ends it as
    silently: the program is not found, the output is no JSON, or it is
    JSON but no object. *)
Theorem unusable_formats_answer_is_silent (w : world) (url : string) :
  formats_outcome w = None \/
  (exists p, formats_outcome w = Some p /\
     (json_loads (stdout p) = None \/
      exists v, json_loads (stdout p) = Some v /\ is_dict v = false)) ->
  download_video float_repr container_str list_gt json_loads COOKIE_BROWSER
    w url
  = (formats_query (cookie_args COOKIE_BROWSER) url, Ok None).
Proof.
  intros [H|(p & H & [Hj|(v & Hj & Hv)])];
    unfold download_video, run_command; cbn [emit io_bind ret app];
    rewrite H; try rewrite Hj; try reflexivity.
  destruct v; try discriminate; reflexivity.
Qed.

(** X6: a member [formats] that is null or a number is not caught by the
    [try] around the parsing: the loop over it raises TypeError out of the
    branch. *)
Theorem formats_not_iterable_raises (w : world) (url : string)
    (p : process) (video_data : json) :
  formats_outcome w = Some p -> json_loads (stdout p) = Some video_data ->
  is_dict video_data = true ->
  number_or_missing (field_default video_data "formats" (JList [])) = true ->
  download_video float_repr container_str list_gt json_loads COOKIE_BROWSER
    w url
  = (formats_query (cookie_args COOKIE_BROWSER) url, Raise TypeError).
Proof.
  intros Hw Hj Hd Hf. unfold download_video, run_command.
  cbn [emit io_bind ret app]. rewrite Hw, Hj.
  destruct video_data as [| | | | | |d]; try discriminate.
  simpl in Hf. cbn [get_default].
  destruct (match lookup "formats" d with Some v => v | None => JList [] end);
    try discriminate; reflexivity.
Qed.

(** X7: so is a format that is no object: after formats that the loop
    accepts, the first element without the method [get] raises
    AttributeError out of the branch. *)
Theorem format_not_an_object_raises (w : world) (url : string)
    (p : process) (video_data : json) (good : list json) (f : json)
    (rest : list json) :
  formats_outcome w = Some p -> json_loads (stdout p) = Some video_data ->
  is_dict video_data = true ->
  field_default video_data "formats" (JList []) = JList (good ++ f :: rest) ->
  Forall loop_input good -> is_dict f = false ->
  download_video float_repr container_str list_gt json_loads COOKIE_BROWSER
    w url
  = (formats_query (cookie_args COOKIE_BROWSER) url, Raise AttributeError).
Proof.
  intros Hw Hj Hd Hf Hgood Hnd. unfold download_video, run_command.
  cbn [emit io_bind ret app]. rewrite Hw, Hj.
  destruct video_data as [| | | | | |d]; try discriminate.
  simpl in Hf. cbn [get_default]. rewrite Hf.
  unfold format_table. cbn [iterate bind].
  unfold table_of_list, select_formats. rewrite foldM_app.
  destruct (select_loop_total list_gt good [] Hgood) as [u ->]; [constructor|].
  cbn [bind foldM]. unfold select_step at 1.
  destruct f; try discriminate; reflexivity.
Qed.

End DownloadCoverage.

Lemma download_without_video_is_silent_witness :
  download_video sample_float_repr sample_container_str sample_list_gt
    more_loads None (download_run (Some (mk_process 0 audio_only_text)))
    sample_url
  = (formats_query [] sample_url, Ok None).
Proof.
  apply (download_without_video_is_silent sample_float_repr
           sample_container_str sample_list_gt more_loads None
           (download_run (Some (mk_process 0 audio_only_text))) sample_url
           (mk_process 0 audio_only_text) audio_only_video
           [ JDict [("format_id", JStr "140"); ("vcodec", JStr "none");
                    ("acodec", JStr "mp4a.40.2")] ]);
    try reflexivity.
  repeat constructor.
Defined.

Lemma unusable_formats_answer_is_silent_witness :
  download_video sample_float_repr sample_container_str sample_list_gt
    more_loads None (download_run (Some (mk_process 0 "[]"))) sample_url
  = (formats_query [] sample_url, Ok None).
Proof.
  apply (unusable_formats_answer_is_silent sample_float_repr
           sample_container_str sample_list_gt more_loads None
           (download_run (Some (mk_process 0 "[]"))) sample_url).
  right. exists (mk_process 0 "[]"). split; [reflexivity|].
  right. exists (JList []). split; reflexivity.
Defined.

Lemma formats_not_iterable_raises_witness :
  download_video sample_float_repr sample_container_str sample_list_gt
    more_loads None (download_run (Some (mk_process 0 null_formats_text)))
    sample_url
  = (formats_query [] sample_url, Raise TypeError).
Proof.
  apply (formats_not_iterable_raises sample_float_repr
           sample_container_str sample_list_gt more_loads None
           (download_run (Some (mk_process 0 null_formats_text))) sample_url
           (mk_process 0 null_formats_text) null_formats_video);
    reflexivity.
Defined.

Lemma format_not_an_object_raises_witness :
  download_video sample_float_repr sample_container_str sample_list_gt
    more_loads None (download_run (Some (mk_process 0 number_in_formats_text)))
    sample_url
  = (formats_query [] sample_url, Raise AttributeError).
Proof.
  apply (format_not_an_object_raises sample_float_repr
           sample_container_str sample_list_gt more_loads None
           (download_run (Some (mk_process 0 number_in_formats_text)))
           sample_url (mk_process 0 number_in_formats_text)
           number_in_formats_video [sample_descriptor_137] (JInt 22) []);
    try reflexivity.
  repeat constructor.
Defined.

(** * More of [handle_youtube] *)

Lemma py_len_continuation_prefix (s : string) :
  py_len (continuation_prefix s) = 0%nat.
Proof.
  induction s as [|c r IH]; simpl; auto.
  destruct (is_continuation c) eqn:E; simpl; auto. now rewrite E.
Qed.

Lemma py_len_take (n : nat) (s : string) :
  py_len (py_take n s) = Nat.min n (py_len s).
Proof.
  revert n. induction s as [|c r IH]; intros n; simpl.
  - now rewrite Nat.min_0_r.
  - destruct n as [|m]; simpl; auto.
    destruct (is_continuation c) eqn:E.
    + simpl. rewrite E. apply (IH (S m)).
    + destruct m as [|k]; simpl; rewrite E.
      * now rewrite py_len_continuation_prefix.
      * now rewrite IH.
Qed.

Lemma continuation_prefix_prefix (s : string) :
  exists rest, s = (continuation_prefix s ++ rest)%string.
Proof.
  induction s as [|c r [rest IH]]; simpl.
  - now exists ""%string.
  - destruct (is_continuation c); simpl.
    + exists rest. now rewrite <- IH.
    + now exists (String c r).
Qed.

Lemma py_take_prefix (n : nat) (s : string) :
  exists rest, s = (py_take n s ++ rest)%string.
Proof.
  revert n. induction s as [|c r IH]; intros n; simpl.
  - now exists ""%string.
  - destruct n as [|m]; [now exists (String c r)|].
    destruct (is_continuation c).
    + destruct (IH (S m)) as [rest E]. exists rest. simpl. now rewrite <- E.
    + destruct m as [|k].
      * destruct (continuation_prefix_prefix r) as [rest E].
        exists rest. simpl. now rewrite <- E.
      * destruct (IH (S k)) as [rest E]. exists rest. simpl. now rewrite <- E.
Qed.

Section TitleCoverage.

Variable container_str : json -> string.

(** X8: a title that is a string is shown in at most 60 code points: as it
    is when it has no more than 60, else cut to its first 57 code points
    and three dots, 60 in all.  The cut falls between code points. *)
Theorem title_fits_60_code_points (title : string) :
  exists shown,
    format_title container_str (JStr title) = Ok shown /\
    (py_len shown <= 60)%nat /\
    ((py_len title <= 60)%nat -> shown = title) /\
    ((60 < py_len title)%nat ->
       exists head rest,
         title = (head ++ rest)%string /\ py_len head = 57%nat /\
         shown = (head ++ "...")%string /\ py_len shown = 60%nat).
Proof.
  unfold format_title. destruct (Nat.ltb_spec 60 (py_len title)) as [H|H].
  - eexists. split; [reflexivity|].
    assert (E : py_len (py_take 57 title) = 57%nat)
      by (rewrite py_len_take; lia).
    assert (E' : py_len (py_take 57 title ++ "...") = 60%nat)
      by (rewrite py_len_append, E; reflexivity).
    split; [lia|]. split; [lia|]. intros _.
    destruct (py_take_prefix 57 title) as [rest Hr].
    exists (py_take 57 title), rest. auto.
  - exists title. repeat split; auto; lia.
Qed.

End TitleCoverage.

(** Case analysis on the conditions a call branches on, innermost
    first. *)
Ltac io_step :=
  unfold ui_select, ui_print, emit, ret, lift, io_bind, bind;
  cbn [app fst snd map].

Ltac io_cases :=
  repeat (io_step;
          match goal with
          | |- _ ?X =>
              match X with
              | context [match ?x with _ => _ end] =>
                  lazymatch x with
                  | context [match _ with _ => _ end] => fail
                  | _ => destruct x eqn:?
                  end
              end
          end);
  io_step.

Section YoutubeCoverage.

Variable float_repr : Q -> string.
Variable container_str : json -> string.
Variable list_gt : list json -> list json -> result bool.
Variable py_strip : string -> string.
Variable json_loads : string -> option json.
Variable COOKIE_BROWSER : option string.

Local Abbreviation youtube :=
  (handle_youtube float_repr container_str list_gt py_strip json_loads
     COOKIE_BROWSER).
Local Abbreviation video :=
  (handle_video float_repr container_str list_gt json_loads COOKIE_BROWSER).
Local Abbreviation playlist := (handle_playlist COOKIE_BROWSER).
Local Abbreviation cookie := (cookie_args COOKIE_BROWSER).

(** After the info is loaded the call goes on with one of the two menus. *)
Lemma handle_youtube_loaded (w : world) (url : string) (info : json)
    (shown : string) :
  info_loaded py_strip json_loads w info -> is_dict info = true ->
  format_title container_str
    (field_default info "title" (JStr "Unknown title")) = Ok shown ->
  youtube w url =
  let menu :=
    if eq_str (field info "_type") "playlist" || contains "list=" url
    then playlist w url shown else video w url shown in
  (info_query cookie url ++ fst menu, snd menu).
Proof.
  intros (p & Hw & Hp & Hj) Hd Ht. unfold handle_youtube, run_command.
  cbn [emit io_bind ret app]. rewrite Hw, Hp, Hj.
  destruct info as [| | | | | |d]; try discriminate.
  cbn [Z.eqb negb get get_default lift io_bind app].
  simpl in Ht. rewrite Ht. cbn [field].
  destruct (_ || _);
    [destruct (playlist w url shown)|destruct (video w url shown)];
    reflexivity.
Qed.

Lemma is_playlist_true (info : json) (url : string) :
  is_playlist info url ->
  eq_str (field info "_type") "playlist" || contains "list=" url = true.
Proof.
  intros [H|H].
  - rewrite H. reflexivity.
  - apply contains_spec in H. rewrite H. apply orb_true_r.
Qed.

(** X9: a URL that carries [list=] anywhere opens the playlist menu, and so
    does an info of the type playlist; what the info says otherwise does
    not matter. *)
Theorem playlist_menu_for_list_parameter (w : world) (url : string)
    (info : json) (shown : string) :
  info_loaded py_strip json_loads w info -> is_dict info = true ->
  format_title container_str
    (field_default info "title" (JStr "Unknown title")) = Ok shown ->
  is_playlist info url ->
  exists t r,
    youtube w url = (info_query cookie url ++ playlist_menu shown :: t, r).
Proof.
  intros Hw Hd Ht Hp. rewrite (handle_youtube_loaded w url info shown Hw Hd Ht).
  rewrite (is_playlist_true _ _ Hp). cbv zeta.
  unfold handle_playlist, ui_select. cbn [emit io_bind ret app map choice_name plain].
  match goal with
  | |- context [if ?c then ?a else ?b] => destruct (if c then a else b) as [t r]
  end.
  exists t, r. reflexivity.
Qed.

(** X10: cancelling the playlist menu does not cancel: yt-dlp is started
    with the base options alone, without the URL, the download is reported
    as complete, and the call returns "download". *)
Theorem cancelled_playlist_menu_runs_ytdlp (w : world) (url : string)
    (info : json) (shown : string) :
  info_loaded py_strip json_loads w info -> is_dict info = true ->
  format_title container_str
    (field_default info "title" (JStr "Unknown title")) = Ok shown ->
  is_playlist info url ->
  action_answer w = None -> program_found w = true ->
  youtube w url =
  (info_query cookie url ++
     [ playlist_menu shown;
       Subprocess (get_ytdlp_base_cmd COOKIE_BROWSER);
       Print "✔ Playlist download complete." "bold green" ],
   Ok (Some "download"%string)).
Proof.
  intros Hw Hd Ht Hp Ha Hf.
  rewrite (handle_youtube_loaded w url info shown Hw Hd Ht).
  rewrite (is_playlist_true _ _ Hp). cbv zeta.
  unfold handle_playlist, ui_select, subprocess_run. rewrite Ha, Hf.
  reflexivity.
Qed.

(** X11: an info that is no object, or whose title is null or a number,
    is not caught either: the call raises AttributeError, or TypeError for
    the title, right after the query and before any menu. *)
Theorem malformed_info_raises (w : world) (url : string) (info : json) :
  info_loaded py_strip json_loads w info ->
  is_dict info = false \/
  number_or_missing (field_default info "title" (JStr "Unknown title")) = true ->
  youtube w url =
  (info_query cookie url,
   Raise (if is_dict info then TypeError else AttributeError)).
Proof.
  intros (p & Hw & Hp & Hj) H. unfold handle_youtube, run_command.
  cbn [emit io_bind ret app]. rewrite Hw, Hp, Hj.
  cbn [Z.eqb negb get get_default lift io_bind app].
  destruct info as [| | | | | |d]; try reflexivity.
  destruct H as [H|H]; [discriminate|]. simpl in H.
  cbn [get get_default lift io_bind app is_dict].
  destruct (match lookup "title" d with Some v => v | None => _ end);
    try discriminate; reflexivity.
Qed.

(** X12: when the info cannot be had (yt-dlp is not found, exits with a
    status other than 0, or prints no JSON on its first line) the call
    ends with a red message and the result None: no menu is shown and
    nothing is started.  The tip about cookies follows only the first two
    failures, and only while no cookie browser is set. *)
Theorem info_failure_ends_the_call (w : world) (url : string) :
  info_outcome w = None \/
  (exists p, info_outcome w = Some p /\
     (returncode p <> 0 \/
      json_loads (first_line (py_strip (stdout p))) = None)) ->
  exists text tip,
    youtube w url
    = (info_query cookie url ++ Print text "red" :: tip, Ok None) /\
    (tip = [] \/
     tip = [Print "Tip: Try selecting a browser for cookies in the main menu."
              "yellow"] /\ no_cookie_browser COOKIE_BROWSER = true).
Proof.
  intros H.
  assert (H' : (info_outcome w = None \/
                exists p, info_outcome w = Some p /\ returncode p <> 0) \/
               exists p, info_outcome w = Some p /\ returncode p = 0 /\
                 json_loads (first_line (py_strip (stdout p))) = None).
  { destruct H as [H|(p & Hw & [H|H])]; eauto.
    destruct (Z.eq_dec (returncode p) 0); eauto 6. }
  clear H. destruct H' as [H|(p & Hw & Hp & Hj)].
  - rewrite (info_query_failure_reported _ _ _ _ _ _ w url H).
    do 2 eexists. split; [reflexivity|].
    destruct (no_cookie_browser COOKIE_BROWSER); auto.
  - rewrite (info_parse_failure_reported _ _ _ _ _ _ w url p Hw Hp Hj).
    do 2 eexists. split; [reflexivity|]. auto.
Qed.





End YoutubeCoverage.

(** ** The cookie browser *)

Lemma passes_browser_here (b : string) (post : list string) :
  passes_browser b ("--cookies-from-browser"%string :: b :: post).
Proof. now exists [], post. Qed.

Lemma passes_browser_cons (b x : string) (cmd : list string) :
  passes_browser b cmd -> passes_browser b (x :: cmd).
Proof. intros (pre & post & ->). now exists (x :: pre), post. Qed.

Ltac browser_cases :=
  unfold browser_passed; cbn [fst commands];
  repeat (apply Forall_cons;
          [ cbn [hd]; intros Hhd; try discriminate Hhd;
            repeat first [apply passes_browser_here | apply passes_browser_cons]
          | ]);
  try apply Forall_nil.

Section CookieCoverage.

Variable float_repr : Q -> string.
Variable container_str : json -> string.
Variable list_gt : list json -> list json -> result bool.
Variable py_strip : string -> string.
Variable json_loads : string -> option json.
Variable b : string.
Hypothesis browser_set : b <> ""%string.

Lemma cookie_args_set : cookie_args (Some b) = ["--cookies-from-browser"%string; b].
Proof.
  unfold cookie_args. destruct (String.eqb_spec b ""); [contradiction|reflexivity].
Qed.

Lemma playlist_passes_browser (w : world) (url shown : string) :
  browser_passed b (handle_playlist (Some b) w url shown).
Proof.
  unfold handle_playlist, subprocess_run, get_ytdlp_base_cmd.
  rewrite cookie_args_set. io_cases; browser_cases.
Qed.

Lemma download_passes_browser (w : world) (url : string) :
  browser_passed b
    (download_video float_repr container_str list_gt json_loads (Some b) w url).
Proof.
  unfold download_video, run_command, subprocess_run, download_cmd.
  rewrite cookie_args_set. io_cases; browser_cases.
Qed.

Lemma video_passes_browser (w : world) (url shown : string) :
  browser_passed b
    (handle_video float_repr container_str list_gt json_loads (Some b)
       w url shown).
Proof.
  unfold handle_video.
  assert (Hd := download_passes_browser w url).
  destruct (download_video _ _ _ _ _ _ _) as [t r].
  unfold subprocess_run, get_ytdlp_base_cmd.
  rewrite cookie_args_set. io_cases; browser_cases; exact Hd.
Qed.

(** X14: a cookie browser that is set reaches every call of yt-dlp that
    [handle_youtube] makes, the two queries and the downloads alike:
    each command line carries [--cookies-from-browser] followed by the
    browser. *)
Theorem browser_reaches_every_ytdlp (w : world) (url : string) :
  browser_passed b
    (handle_youtube float_repr container_str list_gt py_strip json_loads
       (Some b) w url).
Proof.
  unfold handle_youtube, run_command.
  assert (Hp := playlist_passes_browser w url).
  assert (Hv := video_passes_browser w url).
  rewrite cookie_args_set.
  io_cases; browser_cases;
    match goal with
    | E : handle_playlist _ _ _ ?s = _ |- _ =>
        specialize (Hp s); rewrite E in Hp; exact Hp
    | E : handle_video _ _ _ _ _ _ _ ?s = _ |- _ =>
        specialize (Hv s); rewrite E in Hv; exact Hv
    end.
Qed.

End CookieCoverage.

(** ** Sample calls *)

Lemma playlist_menu_for_list_parameter_witness :
  exists t r,
    handle_youtube sample_float_repr sample_container_str sample_list_gt
      sample_strip more_loads None
      (mk_world (Some (mk_process 0 sample_info_text)) (Some 0%nat) None None
         true)
      watch_in_list_url
    = (info_query [] watch_in_list_url ++ playlist_menu "Demo" :: t, r).
Proof.
  apply (playlist_menu_for_list_parameter sample_float_repr
           sample_container_str sample_list_gt sample_strip more_loads None
           _ watch_in_list_url sample_info "Demo").
  - exists (mk_process 0 sample_info_text). repeat split.
  - reflexivity.
  - reflexivity.
  - right. exists "https://www.youtube.com/watch?v=abc123&"%string, "PL1"%string.
    reflexivity.
Defined.

Lemma cancelled_playlist_menu_runs_ytdlp_witness :
  handle_youtube sample_float_repr sample_container_str sample_list_gt
    sample_strip more_loads None
    (mk_world (Some (mk_process 0 playlist_info_text)) None None None true)
    sample_url
  = (info_query [] sample_url ++
       [ playlist_menu "Mix";
         Subprocess ["yt-dlp"; "--no-warnings"; "--force-overwrites";
                     "--embed-metadata"; "--embed-thumbnail"];
         Print "✔ Playlist download complete." "bold green" ],
     Ok (Some "download"%string)).
Proof.
  apply (cancelled_playlist_menu_runs_ytdlp sample_float_repr
           sample_container_str sample_list_gt sample_strip more_loads None
           (mk_world (Some (mk_process 0 playlist_info_text)) None None None
              true)
           sample_url playlist_info "Mix").
  - exists (mk_process 0 playlist_info_text). repeat split.
  - reflexivity.
  - reflexivity.
  - left. reflexivity.
  - reflexivity.
  - reflexivity.
Defined.

Lemma malformed_info_raises_witness :
  handle_youtube sample_float_repr sample_container_str sample_list_gt
    sample_strip more_loads None
    (mk_world (Some (mk_process 0 untitled_info_text)) None None None true)
    sample_url
  = (info_query [] sample_url, Raise TypeError).
Proof.
  apply (malformed_info_raises sample_float_repr sample_container_str
           sample_list_gt sample_strip more_loads None
           (mk_world (Some (mk_process 0 untitled_info_text)) None None None
              true)
           sample_url untitled_info).
  - exists (mk_process 0 untitled_info_text). repeat split.
  - right. reflexivity.
Defined.

Lemma info_failure_ends_the_call_witness :
  exists text tip,
    handle_youtube sample_float_repr sample_container_str sample_list_gt
      sample_strip more_loads None
      (mk_world (Some (mk_process 1 "")) None None None true) sample_url
    = (info_query [] sample_url ++ Print text "red" :: tip, Ok None) /\
    (tip = [] \/
     tip = [Print "Tip: Try selecting a browser for cookies in the main menu."
              "yellow"] /\ no_cookie_browser None = true).
Proof.
  apply (info_failure_ends_the_call sample_float_repr sample_container_str
           sample_list_gt sample_strip more_loads None
           (mk_world (Some (mk_process 1 "")) None None None true) sample_url).
  right. exists (mk_process 1 ""). split; [reflexivity|]. left. discriminate.
Defined.

Lemma browser_reaches_every_ytdlp_witness :
  browser_passed "firefox"
    (handle_youtube sample_float_repr sample_container_str sample_list_gt
       sample_strip more_loads (Some "firefox"%string)
       (download_run (Some (mk_process 0 sample_video_text))) sample_url).
Proof.
  apply (browser_reaches_every_ytdlp sample_float_repr sample_container_str
           sample_list_gt sample_strip more_loads "firefox").
  discriminate.
Defined.

Lemma table_shows_every_height_witness :
  exists r,
    In r (fst sample_table) /\
    key_eq (row_height r) (height_key sample_descriptor_136) = true.
Proof.
  apply (table_shows_every_height sample_float_repr sample_container_str
           sample_list_gt sample_formats (fst sample_table) (snd sample_table)
           sample_descriptor_136).
  - reflexivity.
  - right. left. reflexivity.
  - reflexivity.
Defined.

Lemma table_ignores_excluded_witness :
  table_of_list sample_float_repr sample_container_str sample_list_gt
    (filter survives sample_formats)
  = table_of_list sample_float_repr sample_container_str sample_list_gt
      sample_formats.
Proof.
  apply (table_ignores_excluded sample_float_repr sample_container_str
           sample_list_gt sample_formats).
  repeat constructor.
Defined.

(** * More of the main loop *)

Lemma valid_url_not_empty (text : string) :
  is_valid_url text = true -> text <> ""%string.
Proof. intros H ->. discriminate. Qed.

Section ClipboardCoverage.

Variable py_strip : string -> string.

(** X15: a supported link in the clipboard is offered unless the last
    action was a stream, and "Use link" hands it to a handler as it is
    after stripping: to [handle_svtplay] when it holds "svtplay.se", else
    to [handle_youtube]. *)
Theorem clipboard_link_is_dispatched (last_action : option string)
    (p : prompts) :
  last_action <> Some "stream"%string ->
  is_valid_url (py_strip (clipboard_content p)) = true ->
  clipboard_answer p = Some 0%nat ->
  main_turn py_strip last_action p
  = Call (if contains "svtplay.se" (py_strip (clipboard_content p))
          then SvtPlay else YouTube)
      (py_strip (clipboard_content p)).
Proof.
  intros Hla Hv Ha. unfold main_turn. rewrite Hv, Ha.
  assert (Hne := valid_url_not_empty _ Hv).
  replace (match last_action with
           | Some a => negb (a =? "stream")%string
           | None => true
           end) with true.
  - destruct (String.eqb_spec (py_strip (clipboard_content p)) "");
      [contradiction|].
    cbn [negb picked nth_error String.eqb Ascii.eqb Bool.eqb andb].
    unfold menu_or_dispatch.
    destruct (String.eqb_spec (py_strip (clipboard_content p)) "");
      [contradiction|].
    unfold dispatch. destruct (contains _ _); reflexivity.
  - destruct last_action as [a|]; auto.
    destruct (String.eqb_spec a "stream"); [subst; contradiction|reflexivity].
Qed.

(** X16: after a stream the clipboard is not looked at: the turn is the
    same whatever the clipboard holds and whatever would be answered at
    its menu. *)
Theorem clipboard_ignored_after_stream (p p' : prompts) :
  typed_url p = typed_url p' -> menu_answer p = menu_answer p' ->
  pasted_url p = pasted_url p' ->
  main_turn py_strip (Some "stream"%string) p
  = main_turn py_strip (Some "stream"%string) p'.
Proof.
  intros Ht Hm Hp. unfold main_turn.
  cbn [String.eqb Ascii.eqb Bool.eqb andb negb].
  rewrite Ht. destruct (typed_url p') as [url|]; auto.
  unfold menu_or_dispatch. now rewrite Hm, Hp.
Qed.

End ClipboardCoverage.

Lemma clipboard_link_is_dispatched_witness :
  main_turn sample_strip (Some "download"%string)
    (mk_prompts "https://www.svtplay.se/video/abc" (Some 0%nat) None None
       None None)
  = Call SvtPlay "https://www.svtplay.se/video/abc".
Proof.
  apply (clipboard_link_is_dispatched sample_strip (Some "download"%string)
           (mk_prompts "https://www.svtplay.se/video/abc" (Some 0%nat) None
              None None None)).
  - discriminate.
  - reflexivity.
  - reflexivity.
Defined.

Lemma clipboard_ignored_after_stream_witness :
  main_turn sample_strip (Some "stream"%string)
    (mk_prompts "https://youtu.be/abc123" (Some 0%nat) None
       (Some "https://youtu.be/xyz"%string) None None)
  = main_turn sample_strip (Some "stream"%string)
      (mk_prompts "" None None (Some "https://youtu.be/xyz"%string) None None).
Proof.
  apply (clipboard_ignored_after_stream sample_strip
           (mk_prompts "https://youtu.be/abc123" (Some 0%nat) None
              (Some "https://youtu.be/xyz"%string) None None)
           (mk_prompts "" None None (Some "https://youtu.be/xyz"%string) None
              None));
    reflexivity.
Defined.

(** * SVT Play *)

Lemma last_skip {A : Type} (pre r : list A) (d : A) :
  r <> [] -> last (pre ++ r) d = last r d.
Proof.
  intros Hr. induction pre as [|a pre IH]; auto.
  simpl. rewrite IH. destruct (pre ++ r) eqn:E; auto.
  apply app_eq_nil in E as [_ E]. contradiction.
Qed.

Section SvtplayCoverage.

Variable py_isdigit : string -> bool.
Variable COOKIE_BROWSER : option string.

Local Abbreviation svtplay := (handle_svtplay py_isdigit COOKIE_BROWSER).

(** The answers at the menu, one by one. *)
Ltac svt_answers w :=
  unfold handle_svtplay, ui_select;
  destruct (svt_answer w) as [[|[|[|[|[|[|[|[|i]]]]]]]]|];
  cbn [map plain choice_name choice_value nth_error option_map emit io_bind
       ret app truthy negb chose eq_str String.eqb Ascii.eqb Bool.eqb andb
       svt_choices].

(** X17: what [handle_svtplay] returns goes with what it started:
    "stream" with one call of mpv on the URL, "download" with one call of
    svtplay-dl or yt-dlp whose last argument is the URL, and None or an
    exception with no process at all. *)
Theorem svtplay_result_matches_process (w : svt_world) (url : string) :
  svt_result_matches_process url (svtplay w url).
Proof.
  svt_answers w.
  all: unfold subprocess_returncode, report, get_ytdlp_base_cmd.
  all: io_cases.
  all: unfold svt_result_matches_process; cbn [fst snd processes];
    try reflexivity.
  all: eexists; split; [reflexivity|]; split; auto;
    first [ reflexivity
          | rewrite !app_comm_cons, last_skip by discriminate; reflexivity ].
Qed.

(** X18: a download of [handle_svtplay] is reported by its exit status:
    whenever the call returns "download", a program was run, and the last
    line is the green "Download complete." if it exited with 0 and the red
    "Download failed." if not. *)
Theorem svtplay_reports_exit_status (w : svt_world) (url : string)
    (t : list event) :
  svtplay w url = (t, Ok (Some "download"%string)) ->
  exists code,
    svt_exit w = Some code /\
    last_print t
    = Some (if code =? 0 then ("✔ Download complete."%string, "bold green"%string)
            else ("❌ Download failed."%string, "bold red"%string)).
Proof.
  revert t.
  set (P := fun x : io (option string) =>
              forall t, x = (t, Ok (Some "download"%string)) ->
                exists code,
                  svt_exit w = Some code /\
                  last_print t
                  = Some (if code =? 0
                          then ("✔ Download complete."%string, "bold green"%string)
                          else ("❌ Download failed."%string, "bold red"%string))).
  change (P (svtplay w url)).
  svt_answers w.
  all: unfold subprocess_returncode, report.
  all: io_cases; intros t [= <-]; eexists; split; try reflexivity;
    match goal with
    | E : (_ =? 0) = _ |- _ => rewrite E; reflexivity
    end.
Qed.

(** X19: cancelling the prompt for the number of episodes does not
    return: the call raises AttributeError ([isdigit] of None) after the
    menu, with nothing started. *)
Theorem svtplay_cancelled_count_raises (w : svt_world) (url : string) :
  svt_answer w = Some 4%nat -> svt_typed w = None ->
  svtplay w url
  = ([ Select svt_choices "SVT Play link detected. What do you want to do?";
       Print "" "" ],
     Raise AttributeError).
Proof.
  intros Ha Ht. unfold handle_svtplay, ui_select. rewrite Ha, Ht. reflexivity.
Qed.

End SvtplayCoverage.

Section SvtplayCookies.

Variable py_isdigit : string -> bool.
Variable b : string.
Hypothesis browser_set : b <> ""%string.

(** X20: the cookie browser reaches the yt-dlp calls of [handle_svtplay]
    as well: the two branches that download with yt-dlp pass
    [--cookies-from-browser] and the browser. *)
Theorem browser_reaches_svtplay_ytdlp (w : svt_world) (url : string) :
  browser_passed b (handle_svtplay py_isdigit (Some b) w url).
Proof.
  unfold handle_svtplay, ui_select.
  destruct (svt_answer w) as [[|[|[|[|[|[|[|[|i]]]]]]]]|];
    cbn [map plain choice_name choice_value nth_error option_map emit io_bind
         ret app truthy negb chose eq_str String.eqb Ascii.eqb Bool.eqb andb
         svt_choices].
  all: unfold subprocess_returncode, report, get_ytdlp_base_cmd.
  all: rewrite ?(cookie_args_set b browser_set).
  all: io_cases; browser_cases.
Qed.

End SvtplayCookies.

(** * The cookie browser and the dependencies *)

(** X21: [select_cookie_browser] leaves a browser in [COOKIE_BROWSER]
    exactly when one of the eight browsers is picked, and that browser is
    then passed on by [get_ytdlp_base_cmd]; after "None (Default)" or a
    cancelled menu the global is None and the base command has its five
    options only. *)
Theorem selected_browser_is_passed_on (answer : option nat) :
  exists c,
    snd (select_cookie_browser answer) = Ok c /\
    c = match answer with
        | Some (S i) => nth_error (tl browsers) i
        | _ => None
        end /\
    get_ytdlp_base_cmd c
    = (["yt-dlp"; "--no-warnings"; "--force-overwrites"; "--embed-metadata";
        "--embed-thumbnail"]
       ++ match c with
          | Some browser => ["--cookies-from-browser"; browser]
          | None => []
          end).
Proof.
  destruct answer as [[|[|[|[|[|[|[|[|[|i]]]]]]]]]|];
    try (eexists; repeat split; reflexivity).
  destruct i; eexists; repeat split; reflexivity.
Qed.

Lemma missing_In (which : string -> bool) (dep : string) :
  In dep (filter (fun d => negb (which d)) dependencies) <->
  In dep dependencies /\ which dep = false.
Proof. rewrite filter_In, negb_true_iff. tauto. Qed.

Lemma existsb_eqb_In (x : string) (l : list string) :
  existsb (String.eqb x) l = true <-> In x l.
Proof.
  rewrite existsb_exists. split.
  - intros (y & Hy & E). apply String.eqb_eq in E. now subst.
  - intros H. exists x. split; auto. apply String.eqb_refl.
Qed.

(** X22: [check_dependencies] is silent exactly when the four programs
    are found; otherwise it lists each missing program, and only those, in
    a red line, and it adds the critical line exactly when mpv or ffmpeg
    is among them. *)
Theorem check_dependencies_report (which : string -> bool) :
  (check_dependencies which = [] <->
   forall dep, In dep dependencies -> which dep = true) /\
  (forall dep, In (Line ("- " ++ dep) "red") (check_dependencies which) <->
               In dep dependencies /\ which dep = false) /\
  (In (Line "Critical: 'mpv' and 'ffmpeg' are required for playback/merging."
            "bold red")
      (check_dependencies which) <->
   which "mpv" = false \/ which "ffmpeg" = false).
Proof.
  assert (Hm := missing_In which).
  assert (Hmpv : In "mpv"%string dependencies) by (simpl; auto).
  assert (Hff : In "ffmpeg"%string dependencies) by (simpl; auto).
  unfold check_dependencies. cbv zeta.
  destruct (filter (fun d => negb (which d)) dependencies) as [|d missing] eqn:E.
  - split; [|split].
    + split; auto. intros _ dep Hdep.
      destruct (which dep) eqn:Hw; auto.
      destruct (proj2 (Hm dep) (conj Hdep Hw)).
    + intros dep. rewrite <- Hm. tauto.
    + split; [intros []|].
      intros [H|H]; [apply (Hm "mpv"%string)|apply (Hm "ffmpeg"%string)]; auto.
  - split; [|split].
    + split; [discriminate|]. intros H.
      destruct (proj1 (Hm d) (or_introl eq_refl)) as [Hd Hw].
      rewrite (H d Hd) in Hw. discriminate.
    + intros dep. rewrite <- Hm. cbn [app In].
      rewrite in_app_iff, in_map_iff. split.
      * intros [H|[(x & Hx & Hin)|H]]; [discriminate| |].
        { injection Hx as <-. exact Hin. }
        destruct H as [H|H]; [discriminate|].
        destruct (_ || _); [destruct H as [H|[]]; discriminate|destruct H].
      * intros H. right. left. eauto.
    + assert (H1 : which "mpv" = false <-> In "mpv"%string (d :: missing))
        by (rewrite Hm; tauto).
      assert (H2 : which "ffmpeg" = false <-> In "ffmpeg"%string (d :: missing))
        by (rewrite Hm; tauto).
      rewrite H1, H2, <- !existsb_eqb_In, <- orb_true_iff. cbn [app In].
      rewrite in_app_iff, in_map_iff. split.
      * intros [H|[(x & Hx & _)|[H|H]]]; try discriminate.
        destruct (_ || _); [reflexivity|destruct H].
      * intros ->. right. right. right. left. reflexivity.
Qed.

(** ** Sample calls of [handle_svtplay] *)

Lemma svtplay_reports_exit_status_witness :
  exists code,
    svt_exit (mk_svt_world (Some 0%nat) None (Some 1)) = Some code /\
    last_print
      [ Select svt_choices "SVT Play link detected. What do you want to do?";
        Print "" "";
        Print "Starting download from SVT Play..." "cyan";
        Subprocess ["svtplay-dl"; "-S"; "-M"; sample_svt_url];
        Print "❌ Download failed." "bold red" ]
    = Some (if code =? 0
            then ("✔ Download complete."%string, "bold green"%string)
            else ("❌ Download failed."%string, "bold red"%string)).
Proof.
  apply (svtplay_reports_exit_status sample_isdigit None
           (mk_svt_world (Some 0%nat) None (Some 1)) sample_svt_url).
  reflexivity.
Defined.

Lemma svtplay_cancelled_count_raises_witness :
  handle_svtplay sample_isdigit None (mk_svt_world (Some 4%nat) None (Some 0))
    sample_svt_url
  = ([ Select svt_choices "SVT Play link detected. What do you want to do?";
       Print "" "" ],
     Raise AttributeError).
Proof.
  apply (svtplay_cancelled_count_raises sample_isdigit None
           (mk_svt_world (Some 4%nat) None (Some 0)) sample_svt_url);
    reflexivity.
Defined.

Lemma browser_reaches_svtplay_ytdlp_witness :
  browser_passed "firefox"
    (handle_svtplay sample_isdigit (Some "firefox"%string)
       (mk_svt_world (Some 2%nat) None (Some 0)) sample_svt_url).
Proof.
  apply (browser_reaches_svtplay_ytdlp sample_isdigit "firefox").
  discriminate.
Defined.

(** * The classifier and the dispatch together *)

(** X23: a text that the classifier accepts by its pattern for svtplay.se
    is dispatched to [handle_svtplay]: the two tests agree on the links of
    SVT Play. *)
Theorem svtplay_link_reaches_svtplay (text : string) :
  re_match (site_pattern "svtplay.se") text = true ->
  is_valid_url text = true /\ dispatch text = Call SvtPlay text.
Proof.
  intros H. split.
  - unfold is_valid_url, patterns. cbn [existsb]. rewrite H.
    now rewrite !orb_true_r.
  - apply re_match_spec in H as (w & rest & Hw & ->).
    apply matches_site_pattern in Hw. unfold dispatch.
    replace (contains "svtplay.se" (w ++ rest)) with true; auto.
    symmetry. apply contains_spec.
    destruct Hw as [<-|[<-|[<-|[<-|[]]]]].
    + now exists "http://"%string, ("/" ++ rest)%string.
    + now exists "http://www."%string, ("/" ++ rest)%string.
    + now exists "https://"%string, ("/" ++ rest)%string.
    + now exists "https://www."%string, ("/" ++ rest)%string.
Qed.

Lemma svtplay_link_reaches_svtplay_witness :
  is_valid_url sample_svt_url = true /\
  dispatch sample_svt_url = Call SvtPlay sample_svt_url.
Proof.
  apply (svtplay_link_reaches_svtplay sample_svt_url). reflexivity.
Defined.

(** * More of the table *)

Lemma audio_map_from (xs : list (row * bool)) (m : pydict bool) (k : json)
    (b : bool) :
  dict_get k (audio_map xs m) = Some b ->
  dict_get k m = Some b \/
  exists r, In (r, b) xs /\ key_eq (row_value r) k = true.
Proof.
  revert m. induction xs as [|[r0 b0] xs IH]; intros m; simpl; auto.
  intros H. apply IH in H as [H|(r & Hin & Hk)]; eauto.
  rewrite dict_get_set in H. simpl in H.
  destruct (key_eq (row_value r0) k) eqn:E; auto.
  injection H as <-. eauto.
Qed.

Lemma audio_map_has (xs : list (row * bool)) (m : pydict bool) (k : json) :
  dict_get k m <> None \/
  (exists r b, In (r, b) xs /\ key_eq (row_value r) k = true) ->
  dict_get k (audio_map xs m) <> None.
Proof.
  revert m. induction xs as [|[r0 b0] xs IH]; intros m; simpl.
  - intros [H|(r & b & [] & _)]. exact H.
  - intros H. apply IH. rewrite dict_get_set. simpl.
    destruct (key_eq (row_value r0) k) eqn:E; [left; discriminate|].
    destruct H as [H|(r & b & [[= -> ->]|Hin] & Hk)]; eauto. congruence.
Qed.

Section TableCoverage.

Variable float_repr : Q -> string.
Variable container_str : json -> string.
Variable list_gt : list json -> list json -> result bool.

(** The rendered rows come from the kept records, entry by entry. *)
Lemma rendered_entry (u : pydict json) (xs : list (row * bool)) (r : row)
    (b : bool) :
  Forall2 (fun e x => render_row float_repr container_str (fst e) (snd e) = Ok x)
          u xs ->
  In (r, b) xs ->
  exists h f, In (h, f) u /\
              render_row float_repr container_str h f = Ok (r, b).
Proof.
  induction 1 as [|[h f] x u xs H HF IH]; [intros []|].
  intros [->|Hin]; [exists h, f; simpl; auto|].
  destruct (IH Hin) as (h' & f' & ? & ?). exists h', f'. simpl. auto.
Qed.

(** X24: [has_audio_map] has an entry for the value of every row of the
    menu, so the default of [has_audio_map.get(format_code, False)] is
    never used for a row that is picked; the entry is the [has_audio] of
    a format of the input with that format id. *)
Theorem every_row_has_audio_entry (fs : list json) (rows : list row)
    (m : pydict bool) (r : row) :
  table_of_list float_repr container_str list_gt fs = Ok (rows, m) ->
  In r rows ->
  exists b f,
    dict_get (row_value r) m = Some b /\
    In f fs /\
    key_eq (field_default f "format_id" (JStr "N/A")) (row_value r) = true /\
    b = negb (lacks_audio f).
Proof.
  intros H Hin.
  apply table_of_list_Ok in H as (u & xs & Hu & HF & _ & -> & ->).
  apply (Permutation_in _ (Permutation_sym (sort_desc_perm _))) in Hin.
  apply in_map_iff in Hin as ([r0 b0] & <- & Hin). simpl.
  destruct (dict_get (row_value r0) (audio_map xs [])) as [b|] eqn:E.
  - apply audio_map_from in E as [E|(r1 & Hin1 & Hk)]; [discriminate|].
    destruct (rendered_entry _ _ _ _ HF Hin1) as (h & f & Hf & Hr).
    apply render_row_Ok in Hr as (_ & _ & Hv & _ & Hb).
    apply select_formats_groups in Hu as (_ & Hval & _).
    destruct (Hval _ _ Hf) as (_ & _ & _ & _ & _ & _ & Hfs).
    exists b, f. rewrite <- Hv. unfold lacks_audio. rewrite <- Hb. auto.
  - exfalso. revert E. apply audio_map_has. right. exists r0, b0. split; auto.
    destruct (rendered_entry _ _ _ _ HF Hin) as (h & f & _ & Hr).
    apply render_row_Ok in Hr as (_ & _ & _ & Hh & _).
    now apply key_eq_refl.
Qed.

(** X25: the heights on offer do not depend on the order of the formats:
    when the formats are listed in another order, every height of the one
    table is a height of the other.  (Which format stands for a height
    may differ: of equal frame rates the first wins.) *)
Theorem heights_independent_of_order (fs fs' : list json)
    (rows rows' : list row) (m m' : pydict bool) (r : row) :
  Permutation fs fs' ->
  table_of_list float_repr container_str list_gt fs = Ok (rows, m) ->
  table_of_list float_repr container_str list_gt fs' = Ok (rows', m') ->
  In r rows ->
  exists r', In r' rows' /\ key_eq (row_height r') (row_height r) = true.
Proof.
  intros HP H H' Hin.
  destruct (table_row_entry _ _ _ _ _ _ _ H Hin) as (u & f & b & Hu & Hf & _).
  apply select_formats_groups in Hu as (_ & Hval & _).
  destruct (Hval _ _ Hf) as (_ & _ & _ & _ & Hs & Hk & Hfs).
  apply (Permutation_in _ HP) in Hfs.
  apply table_of_list_Ok in H' as (u' & xs' & Hu' & HF' & _ & -> & _).
  apply select_formats_groups in Hu' as (_ & _ & Hall).
  specialize (Hall f Hfs Hs).
  destruct (dict_get (height_key f) u') as [e|] eqn:E; [clear Hall|congruence].
  apply dict_get_Some in E as (k & Hin' & Hkey).
  assert (Hr : In k (map row_height (map fst xs'))).
  { rewrite (rendered_heights _ _ _ _ HF'). apply in_map_iff.
    exists (k, e). auto. }
  apply in_map_iff in Hr as (r' & <- & Hr).
  exists r'. split.
  - eapply Permutation_in; [apply sort_desc_perm|]; auto.
  - rewrite key_eq_sym in Hk. exact (key_eq_trans _ _ _ Hkey Hk).
Qed.

End TableCoverage.

Lemma every_row_has_audio_entry_witness :
  exists b f,
    dict_get (row_value sample_row) (snd sample_table) = Some b /\
    In f sample_formats /\
    key_eq (field_default f "format_id" (JStr "N/A")) (row_value sample_row)
    = true /\
    b = negb (lacks_audio f).
Proof.
  apply (every_row_has_audio_entry sample_float_repr sample_container_str
           sample_list_gt sample_formats (fst sample_table) (snd sample_table)
           sample_row).
  - reflexivity.
  - left. reflexivity.
Defined.

Lemma heights_independent_of_order_witness :
  exists r',
    In r' (fst sample_table) /\
    key_eq (row_height r') (row_height sample_row) = true.
Proof.
  apply (heights_independent_of_order sample_float_repr sample_container_str
           sample_list_gt (rev sample_formats) sample_formats
           (fst reversed_table) (fst sample_table)
           (snd reversed_table) (snd sample_table) sample_row).
  - apply Permutation_sym, Permutation_rev.
  - reflexivity.
  - reflexivity.
  - left. reflexivity.
Defined.

(** * The update of the tools *)

Section UpdateCoverage.

Variable path_join : list string -> string.

Local Abbreviation update := (update_tools path_join).

(** X26: nothing is downloaded unless the user confirms and the
    directory can be made; without the confirmation the file system is
    not touched at all. *)
Theorem update_needs_confirmation (w : tools_world) :
  update_answer w <> Some 0%nat \/ makedirs_error w <> None ->
  retrievals (update w) = [] /\
  (update_answer w <> Some 0%nat -> existsb touches (update w) = false).
Proof.
  intros H. unfold update_tools.
  destruct (update_answer w) as [[|[|i]]|]; cbn [picked nth_error];
    try (split; reflexivity).
  - cbn [String.eqb Ascii.eqb Bool.eqb andb negb].
    destruct (makedirs_error w) as [e|].
    + split; [reflexivity|]. intros Hn. now destruct Hn.
    + destruct H as [H|H]; now destruct H.
  - destruct i; split; reflexivity.
Qed.

Lemma retrievals_app (t t' : list tool_event) :
  retrievals (t ++ t') = retrievals t ++ retrievals t'.
Proof.
  induction t as [|e t IH]; simpl; auto. destruct e; simpl; now rewrite ?IH.
Qed.

Lemma install_retrievals (w : tools_world) (name url local : string)
    (o : fetch) :
  retrievals (install path_join w name url local o)
  = [(url, path_join [get_user_bin_dir path_join w; local])].
Proof.
  unfold install. destruct o, (system w =? "Windows")%string; reflexivity.
Qed.

(** X27: once confirmed, both tools are attempted whatever fails: the
    files asked for do not depend on how the downloads go (one file on
    macOS, where svtplay-dl is left out, two elsewhere), and the call
    always ends with the message that it is done and the prompt to press
    Enter, even when every download failed. *)
Theorem update_attempts_every_tool (w : tools_world) (o1 o2 : fetch) :
  update_answer w = Some 0%nat -> makedirs_error w = None ->
  retrievals (update (with_fetches w o1 o2)) = retrievals (update w) /\
  length (retrievals (update w))
  = (if (system w =? "Darwin")%string then 1 else 2)%nat /\
  exists t,
    update w
    = t ++ [ Blank;
             Say "Done. Restart the program to use the new versions." "green";
             PressEnter ].
Proof.
  intros Ha Hm. unfold update_tools, with_fetches.
  cbn [update_answer makedirs_error system ytdlp_fetch svtplay_fetch].
  rewrite Ha, Hm. cbn [picked nth_error String.eqb Ascii.eqb Bool.eqb andb negb].
  split; [|split].
  - rewrite !retrievals_app, !install_retrievals.
    destruct (system w =? "Darwin")%string; cbn [negb];
      rewrite ?install_retrievals; reflexivity.
  - rewrite !retrievals_app, !install_retrievals.
    destruct (system w =? "Darwin")%string; cbn [negb];
      rewrite ?retrievals_app, ?install_retrievals; reflexivity.
  - eexists. rewrite !app_assoc. reflexivity.
Qed.

Lemma install_chmod (w : tools_world) (name url local : string) (o : fetch)
    (t : list tool_event) :
  chmod_follows_retrieve t ->
  (forall p r, t <> Chmod p :: r) ->
  chmod_follows_retrieve (install path_join w name url local o ++ t).
Proof.
  intros Ht Hn. unfold install.
  destruct o, (system w =? "Windows")%string; cbn [negb app];
    cbn [chmod_follows_retrieve]; auto;
    destruct t as [|[] t]; cbn [chmod_follows_retrieve]; auto;
    exfalso; eapply Hn; reflexivity.
Qed.

(** X28: the permissions are set only on what was just downloaded: every
    [chmod] of the call comes right after the download of the same file,
    and on Windows there is none. *)
Theorem chmod_only_after_download (w : tools_world) :
  chmod_follows_retrieve (update w) /\
  (system w = "Windows"%string ->
   forall path, ~ In (Chmod path) (update w)).
Proof.
  split.
  - unfold update_tools.
    destruct (picked _ _) as [choice|]; [|simpl; auto].
    destruct (negb _); [simpl; auto|].
    destruct (makedirs_error w); [simpl; auto|].
    cbn [app chmod_follows_retrieve].
    apply install_chmod; [|destruct (negb _); discriminate].
    destruct (negb (system w =? "Darwin")%string).
    + apply install_chmod; [simpl; auto|discriminate].
    + simpl. auto.
  - intros Hs path. unfold update_tools, install. rewrite Hs.
    cbn [String.eqb Ascii.eqb Bool.eqb andb negb].
    destruct (picked _ _) as [choice|]; [|simpl; intuition discriminate].
    destruct (negb _); [simpl; intuition discriminate|].
    destruct (makedirs_error w); [simpl; intuition discriminate|].
    destruct (ytdlp_fetch w), (svtplay_fetch w); simpl; intuition discriminate.
Qed.

End UpdateCoverage.

Lemma update_needs_confirmation_witness :
  retrievals (update_tools sample_join
                (mk_tools_world "Linux" "/home/u" None (Some 1%nat) None
                   Fetched Fetched)) = [] /\
  (Some 1%nat <> Some 0%nat ->
   existsb touches
     (update_tools sample_join
        (mk_tools_world "Linux" "/home/u" None (Some 1%nat) None
           Fetched Fetched)) = false).
Proof.
  apply (update_needs_confirmation sample_join
           (mk_tools_world "Linux" "/home/u" None (Some 1%nat) None
              Fetched Fetched)).
  left. discriminate.
Defined.

Lemma update_attempts_every_tool_witness :
  retrievals (update_tools sample_join
                (with_fetches sample_tools_world Fetched Fetched))
  = retrievals (update_tools sample_join sample_tools_world) /\
  length (retrievals (update_tools sample_join sample_tools_world)) = 2%nat /\
  exists t,
    update_tools sample_join sample_tools_world
    = t ++ [ Blank;
             Say "Done. Restart the program to use the new versions." "green";
             PressEnter ].
Proof.
  apply (update_attempts_every_tool sample_join sample_tools_world
           Fetched Fetched); reflexivity.
Defined.

(** * Rows wider than their columns *)


(** * The selector on missing and null members *)

Section MissingMembersTable.

Variable float_repr : Q -> string.
Variable container_str : json -> string.
Variable list_gt : list json -> list json -> result bool.





End MissingMembersTable.



(** * Every command of [handle_youtube] *)


Section YoutubeCommands.

Variable float_repr : Q -> string.
Variable container_str : json -> string.
Variable list_gt : list json -> list json -> result bool.
Variable py_strip : string -> string.
Variable json_loads : string -> option json.
Variable COOKIE_BROWSER : option string.

Local Abbreviation cookie := (cookie_args COOKIE_BROWSER).





End YoutubeCommands.
